(** * Khata-Server: the transaction controller over a model of its collaborators

    The development embeds [controllers/transactionController.js] (the six
    request handlers) and [models/transactionSchema.js] (the field rules) and
    proves properties of the handlers.  The JavaScript runtime and the
    document store are collaborators of that code; they are modelled in the
    first half of the file.

    Conventions.
    - Numbers are exact rationals plus the three special values.  The
      difference of the statistics is double arithmetic: the exact result
      rounded to the nearest double, ties to even; the sums of the
      statistics are the database's, which adds doubles in a way of its
      own.  The conversions of the runtime and the integer arithmetic on
      dates and pages are kept exact.
    - A JSON body is a finite map from keys to values; a missing key is
      [None], which is JavaScript's [undefined].
    - Query-string parameters are strings (repeated keys, which the parser
      turns into arrays, are not modelled), and the values of a body are
      JSON scalars (arrays and objects as field values are not modelled).
      An element of the array of a bulk request is null or a value seen
      through its own properties.
    - A string is a sequence of characters and its length their number.
    - The conversions between strings and numbers or dates belong to the
      runtime; the handlers are defined over an arbitrary [Runtime].
    - The identifier of a new document and the current time are inputs of a
      request; an [_id] key in a body is not modelled, and [updatedAt],
      which no handler reads, is left out of the documents. *)

From Stdlib Require Import ZArith QArith Qabs List Ascii String Bool Lia.
From Stdlib Require Import Sorted Permutation.
From stdpp Require Import gmap strings pretty.
Import ListNotations.

Open Scope string_scope.
Open Scope Z_scope.
Open Scope list_scope.

(** ** Numbers *)

Inductive num := Fin (q : Q) | PosInf | NegInf | NaN.

Definition ofZ (z : Z) : num := Fin (inject_Z z).

(** [x <= 0] and [x > 0] on numbers; any comparison with NaN is false. *)
Definition num_le0 (n : num) : bool :=
  match n with
  | Fin q => Qle_bool q 0
  | NegInf => true
  | PosInf | NaN => false
  end.

Definition num_gt0 (n : num) : bool :=
  match n with
  | Fin q => negb (Qle_bool q 0)
  | PosInf => true
  | NegInf | NaN => false
  end.

(** [x - 1] *)
Definition num_pred (n : num) : num :=
  match n with
  | Fin q => Fin (q - 1)
  | other => other
  end.

(** *** Double arithmetic

    [n / d] rounded to the nearest integer, ties to even, for [0 < d]. *)
Definition roundHalfEven (n d : Z) : Z :=
  let q := n / d in
  match 2 * (n mod d) ?= d with
  | Lt => q
  | Gt => q + 1
  | Eq => if Z.even q then q else q + 1
  end.

(** The integer part of the binary logarithm of [n / d], for [0 < n], [0 < d]. *)
Definition floorLog2 (n d : Z) : Z :=
  let l := Z.log2 n - Z.log2 d in
  if (if 0 <=? l then d * 2 ^ l <=? n else d <=? n * 2 ^ (- l)) then l else l - 1.

(** The double nearest to a rational: 53 significant bits, the last place no
    finer than [2 ^ -1074], ties to even, and an infinity from [2 ^ 1024]
    on.  The sign of a zero is not kept. *)
Definition roundDouble (q : Q) : num :=
  let n := Z.abs (Qnum q) in
  let d := Zpos (Qden q) in
  if n =? 0 then Fin 0
  else
    let e := Z.max (floorLog2 n d - 52) (-1074) in
    let m := if 0 <=? e then roundHalfEven n (d * 2 ^ e)
             else roundHalfEven (n * 2 ^ (- e)) d in
    if (0 <=? e) && (2 ^ 1024 <=? m * 2 ^ e)
    then (if Qnum q <? 0 then NegInf else PosInf)
    else
      let s := Z.sgn (Qnum q) in
      Fin (if 0 <=? e then inject_Z (s * m * 2 ^ e)
           else Qred (Qmake (s * m) (Z.to_pos (2 ^ (- e))))).

Definition num_opp (a : num) : num :=
  match a with
  | Fin q => Fin (- q)
  | PosInf => NegInf
  | NegInf => PosInf
  | NaN => NaN
  end.

(** [a + b] and [a - b] on doubles. *)
Definition num_add (a b : num) : num :=
  match a, b with
  | NaN, _ | _, NaN => NaN
  | PosInf, NegInf | NegInf, PosInf => NaN
  | PosInf, _ | _, PosInf => PosInf
  | NegInf, _ | _, NegInf => NegInf
  | Fin x, Fin y => roundDouble (x + y)
  end.

Definition num_sub (a b : num) : num := num_add a (num_opp b).

(** Doubles added one after the other, from [acc]. *)
Definition addDoubles (acc : num) (l : list Q) : num :=
  fold_left (fun acc q => num_add acc (Fin q)) l acc.

Declare Scope num_scope.
Delimit Scope num_scope with num.
Bind Scope num_scope with num.
Notation "0" := (Fin 0) : num_scope.

(** ToIntegerOrInfinity restricted to its finite results: truncation toward
    zero; [None] stands for NaN and the infinities. *)
Definition ToInteger (n : num) : option Z :=
  match n with
  | Fin q => Some (Z.quot (Qnum q) (Zpos (Qden q)))
  | _ => None
  end.

(** ** Values *)

Definition ObjectId := N.

Inductive jsval :=
| JNull
| JBool (b : bool)
| JNum (n : num)
| JStr (s : string)
| JDate (t : option Z)     (* a Date object; [None] is Invalid Date *)
| JOid (o : ObjectId).     (* an ObjectId object *)

(** The part of the runtime (Node.js, Mongoose's identifier helpers, the
    driver and the database) that the handlers rely on for strings, for the
    time of an Invalid Date and for the sum of a group. *)
Class Runtime := {
  StringToNumber : string -> num;        (* ToNumber on a string *)
  NumberToString : num -> string;        (* Number.prototype.toString *)
  parseFloatStr : string -> num;         (* parseFloat on a string *)
  parseIntStr : string -> option Z;      (* parseInt, no radix; None is NaN *)
  DateParse : string -> option Z;        (* Date.parse; None is NaN *)
  DateToString : option Z -> string;     (* Date.prototype.toString *)
  trim : string -> string;               (* String.prototype.trim *)
  LocalTZA : Z;                          (* local offset from UTC in ms *)
  invalidDateMillis : Z;                 (* the time the driver writes for an
                                            Invalid Date *)
  dbSum : list Q -> num;                 (* $sum over the doubles of a group,
                                            in the order they arrive *)
  isValidObjectId : string -> bool;      (* mongoose.isValidObjectId *)
  castObjectId : string -> ObjectId;     (* new ObjectId(string) *)
  ObjectIdToString : ObjectId -> string  (* ObjectId.prototype.toString *)
}.

Section Model.

Context `{RT : Runtime}.

(** ToBoolean; [None] is [undefined]. *)
Definition truthy (v : option jsval) : bool :=
  match v with
  | None | Some JNull => false
  | Some (JBool b) => b
  | Some (JNum (Fin q)) => negb (Qeq_bool q 0)
  | Some (JNum NaN) => false
  | Some (JNum _) => true
  | Some (JStr s) => negb (String.eqb s "")
  | Some (JDate _) | Some (JOid _) => true
  end.

(** ToNumber *)
Definition ToNumber (v : option jsval) : num :=
  match v with
  | None => NaN
  | Some JNull => ofZ 0
  | Some (JBool b) => ofZ (if b then 1 else 0)
  | Some (JNum n) => n
  | Some (JStr s) => StringToNumber s
  | Some (JDate (Some t)) => ofZ t
  | Some (JDate None) => NaN
  | Some (JOid o) => StringToNumber (ObjectIdToString o)
  end.

(** The global [parseFloat]: the argument is converted to a string first.
    For a number the printed form parses back to the same number. *)
Definition parseFloat (v : option jsval) : num :=
  match v with
  | Some (JNum n) => n
  | Some (JStr s) => parseFloatStr s
  | Some (JDate t) => parseFloatStr (DateToString t)
  | Some (JOid o) => parseFloatStr (ObjectIdToString o)
  | None | Some JNull | Some (JBool _) => NaN
  end.

(** [['income', 'expense'].includes(v)] *)
Definition isIncomeOrExpense (v : option jsval) : bool :=
  match v with
  | Some (JStr s) => String.eqb s "income" || String.eqb s "expense"
  | _ => false
  end.

(** ** Dates *)

Definition msPerDay : Z := 86400000.

Definition TimeClip (t : Z) : option Z :=
  if Z.abs t <=? 8640000000000000 then Some t else None.

Definition DayFromYear (y : Z) : Z :=
  365 * (y - 1970) + (y - 1969) / 4 - (y - 1901) / 100 + (y - 1601) / 400.

Definition InLeapYear (y : Z) : bool :=
  (y mod 4 =? 0) && (negb (y mod 100 =? 0) || (y mod 400 =? 0)).

(** Day within the year of the first day of month [m] (0 is January). *)
Definition monthStart (leap : bool) (m : Z) : Z :=
  let l := if leap then 1 else 0 in
  match m with
  | 0 => 0 | 1 => 31 | 2 => 59 + l | 3 => 90 + l | 4 => 120 + l
  | 5 => 151 + l | 6 => 181 + l | 7 => 212 + l | 8 => 243 + l
  | 9 => 273 + l | 10 => 304 + l | _ => 334 + l
  end.

(** MakeDay: the month may lie outside 0..11 and the date outside the month;
    both carry over. *)
Definition MakeDay (year month date : Z) : Z :=
  let ym := year + month / 12 in
  let mn := month mod 12 in
  DayFromYear ym + monthStart (InLeapYear ym) mn + date - 1.

(** [new Date(year, month, date)]: local midnight of that day.  A year in
    0..99 means 1900 + year. *)
Definition newDateYMD (year month date : num) : option Z :=
  match ToInteger year, ToInteger month, ToInteger date with
  | Some y, Some m, Some d =>
      let yr := if (0 <=? y) && (y <=? 99) then 1900 + y else y in
      TimeClip (MakeDay yr m d * msPerDay - LocalTZA)
  | _, _, _ => None
  end.

(** [new Date(v)] for one argument. *)
Definition newDate (v : option jsval) : option Z :=
  match v with
  | Some (JStr s) => DateParse s
  | Some (JDate t) => t
  | Some (JOid o) => DateParse (ObjectIdToString o)
  | _ => match ToNumber v with
         | Fin q =>
             if Qle_bool (Qabs q) (inject_Z 8640000000000000)
             then ToInteger (Fin q) else None
         | _ => None
         end
  end.

(** ** The schema of models/transactionSchema.js *)

Record Transaction := {
  _id : ObjectId;
  userId : ObjectId;
  date : Z;
  description : string;
  category : string;
  type : string;
  amount : Q;
  createdAt : Z
}.

(** Result of casting a value to the type of a schema path. *)
Inductive cast (A : Type) := Absent | CastError | Val (a : A).
Arguments Absent {A}.
Arguments CastError {A}.
Arguments Val {A} a.

Definition castObjectIdPath (v : option jsval) : cast ObjectId :=
  match v with
  | None | Some JNull => Absent
  | Some (JOid o) => Val o
  | Some (JStr s) => if isValidObjectId s then Val (castObjectId s) else CastError
  | Some _ => CastError
  end.

Definition castDate (v : option jsval) : cast Z :=
  match v with
  | None | Some JNull => Absent
  | Some (JDate (Some t)) => Val t
  | Some (JDate None) => CastError
  | Some other =>
      match newDate (Some other) with Some t => Val t | None => CastError end
  end.

Definition castString (v : option jsval) : cast string :=
  match v with
  | None | Some JNull => Absent
  | Some (JStr s) => Val s
  | Some (JNum n) => Val (NumberToString n)
  | Some (JBool b) => Val (if b then "true" else "false")
  | Some (JDate t) => Val (DateToString t)
  | Some (JOid o) => Val (ObjectIdToString o)
  end.

Definition castNumber (v : option jsval) : cast num :=
  match v with
  | None | Some JNull => Absent
  | Some (JStr "") => Absent
  | Some other =>
      match ToNumber (Some other) with NaN => CastError | n => Val n end
  end.

(** The [trim: true] setter of the description path. *)
Definition trimSetter (c : cast string) : cast string :=
  match c with Val s => Val (trim s) | other => other end.

(** A document in memory: every schema path holds the outcome of its cast. *)
Record Document := {
  doc_id : ObjectId;
  doc_userId : cast ObjectId;
  doc_date : cast Z;
  doc_description : cast string;
  doc_category : cast string;
  doc_type : cast string;
  doc_amount : cast num;
  doc_createdAt : Z
}.

Definition categories : list string :=
  [ "Food & Dining"; "Transportation"; "Shopping"; "Entertainment";
    "Bills & Utilities"; "Healthcare"; "Education"; "Travel"; "Business";
    "Income"; "Other" ].

Definition types : list string := [ "income"; "expense" ].

Definition inList (s : string) (l : list string) : bool :=
  existsb (String.eqb s) l.

Inductive ValidatorError :=
| ERequired (path : string)
| ECast (path : string)
| EMaxlength (path : string)
| EEnum (path value : string)
| EMin (path : string)
| EValidate (path : string).

Definition errorPath (e : ValidatorError) : string :=
  match e with
  | ERequired p | ECast p | EMaxlength p | EEnum p _ | EMin p | EValidate p => p
  end.

(** The messages the schema file attaches to its rules; cast and enum
    failures carry the library's default text. *)
Definition errorMessage (e : ValidatorError) : option string :=
  match e with
  | ERequired "userId" => Some "User ID is required"
  | ERequired "date" => Some "Date is required"
  | ERequired "description" => Some "Description is required"
  | EMaxlength "description" => Some "Description cannot exceed 200 characters"
  | ERequired "category" => Some "Category is required"
  | ERequired "type" => Some "Type is required"
  | ERequired "amount" => Some "Amount is required"
  | EMin "amount" => Some "Amount must be greater than 0"
  | EValidate "amount" => Some "Amount must be a valid positive number"
  | _ => None
  end.

(** One path at a time; a path reports its first failing rule. *)
Definition validateRequired {A} (path : string) (c : cast A)
    (rules : A -> list ValidatorError) : list ValidatorError :=
  match c with
  | Absent => [ERequired path]
  | CastError => [ECast path]
  | Val a => rules a
  end.

Definition descriptionRules (s : string) : list ValidatorError :=
  if String.eqb s "" then [ERequired "description"]
  else if (200 <? String.length s)%nat then [EMaxlength "description"]
  else [].

Definition enumRules (path : string) (allowed : list string) (s : string)
    : list ValidatorError :=
  if String.eqb s "" then [ERequired path]
  else if inList s allowed then [] else [EEnum path s].

(** [min: 0.01] and then the custom validator
    [Number.isFinite(value) && value > 0]. *)
Definition amountRules (n : num) : list ValidatorError :=
  match n with
  | Fin q =>
      if negb (Qle_bool (1 # 100) q) then [EMin "amount"]
      else if negb (Qle_bool q 0) then [] else [EValidate "amount"]
  | PosInf => [EValidate "amount"]
  | NegInf => [EMin "amount"]
  | NaN => [ECast "amount"]
  end.

Definition validate (d : Document) : list ValidatorError :=
  validateRequired "userId" (doc_userId d) (fun _ => [])
  ++ validateRequired "date" (doc_date d) (fun _ => [])
  ++ validateRequired "description" (doc_description d) descriptionRules
  ++ validateRequired "category" (doc_category d) (enumRules "category" categories)
  ++ validateRequired "type" (doc_type d) (enumRules "type" types)
  ++ validateRequired "amount" (doc_amount d) amountRules.

(** The stored form of a document whose every path holds a finite value. *)
Definition toTransaction (d : Document) : option Transaction :=
  match doc_userId d, doc_date d, doc_description d,
        doc_category d, doc_type d, doc_amount d with
  | Val u, Val dt, Val de, Val c, Val ty, Val (Fin a) =>
      Some {| _id := doc_id d; userId := u; date := dt; description := de;
              category := c; type := ty; amount := a;
              createdAt := doc_createdAt d |}
  | _, _, _, _, _, _ => None
  end.

(** [new Transaction(obj)]: the schema paths are read from [obj] and cast;
    a missing date takes the default [Date.now]. *)
Definition newTransaction (now : Z) (id : ObjectId) (obj : gmap string jsval)
    : Document :=
  {| doc_id := id;
     doc_userId := castObjectIdPath (obj !! "userId");
     doc_date := match obj !! "date" with
                 | None => Val now
                 | v => castDate v
                 end;
     doc_description := trimSetter (castString (obj !! "description"));
     doc_category := castString (obj !! "category");
     doc_type := castString (obj !! "type");
     doc_amount := castNumber (obj !! "amount");
     doc_createdAt := now |}.

(** A document loaded from the store. *)
Definition hydrate (t : Transaction) : Document :=
  {| doc_id := _id t;
     doc_userId := Val (userId t);
     doc_date := Val (date t);
     doc_description := Val (description t);
     doc_category := Val (category t);
     doc_type := Val (type t);
     doc_amount := Val (Fin (amount t));
     doc_createdAt := createdAt t |}.

(** ** The document store

    The handlers reach the collection through Mongoose, which is not part of
    the repository: the specification calls it the Persistence Gateway and
    describes it as a store with filtered find, count, insert-many that
    tolerates partial failure, and grouped aggregation.  Two operations are
    modelled as the library has them rather than as that description
    reads: an unordered insert-many leaves out the documents that fail
    validation without raising an error, and the stages of an aggregation
    are sent to the database without a cast.  The operations the
    handlers call are modelled below on a collection that is the list of its
    documents in insertion order. *)

Definition Store := list Transaction.

Inductive saveResult :=
| Saved (t : Transaction) (st : Store)
| ValidationError (errs : list ValidatorError).

Fixpoint replaceById (t : Transaction) (st : Store) : Store :=
  match st with
  | [] => []
  | r :: rest =>
      if N.eqb (_id r) (_id t) then t :: rest else r :: replaceById t rest
  end.

(** Modelled from the spec: [doc.save()] of the Persistence Gateway.  The
    document is validated against the schema; a new one is then inserted and
    a loaded one replaces the stored document with the same [_id]. *)
Definition save (isNew : bool) (d : Document) (st : Store) : saveResult :=
  match validate d, toTransaction d with
  | [], Some t => Saved t (if isNew then st ++ [t] else replaceById t st)
  | errs, _ => ValidationError errs
  end.

(** A query condition.  The date bounds are Date objects as the handler
    built them, so either may be Invalid Date. *)
Record Filter := {
  f_userId : ObjectId;
  f_type : option string;
  f_category : option string;
  f_date : option (option Z * option Z)     (* $gte, $lte *)
}.

Definition eqOpt (o : option string) (s : string) : bool :=
  match o with None => true | Some x => String.eqb s x end.

Definition inRange (r : option (Z * Z)) (d : Z) : bool :=
  match r with
  | None => true
  | Some (lo, hi) => (lo <=? d) && (d <=? hi)
  end.

(** Casting the date condition fails on Invalid Date. *)
Definition castRange (r : option (option Z * option Z)) : option (option (Z * Z)) :=
  match r with
  | None => Some None
  | Some (Some lo, Some hi) => Some (Some (lo, hi))
  | Some _ => None
  end.

Definition matches (u : ObjectId) (ty ca : option string) (r : option (Z * Z))
    (t : Transaction) : bool :=
  N.eqb (userId t) u && eqOpt ty (type t) && eqOpt ca (category t)
  && inRange r (date t).

(** Modelled from the spec: the filtered find of the Persistence Gateway.
    [None] is the error raised for a condition that cannot be cast. *)
Definition find (f : Filter) (st : Store) : option (list Transaction) :=
  match castRange (f_date f) with
  | Some r => Some (List.filter (matches (f_userId f) (f_type f) (f_category f) r) st)
  | None => None
  end.

(** Modelled from the spec: the count of the Persistence Gateway, under the
    same condition as the find. *)
Definition countDocuments (f : Filter) (st : Store) : option nat :=
  match find f st with Some l => Some (length l) | None => None end.

(** Modelled from the spec: the ordering [sort({ date: -1, createdAt: -1 })]
    of the Persistence Gateway, as a stable insertion sort: [notAfter a b]
    says that [a] may come before [b]. *)
Definition notAfter (a b : Transaction) : bool :=
  (date b <? date a) || ((date b =? date a) && (createdAt b <=? createdAt a)).

Fixpoint insertSorted (a : Transaction) (l : list Transaction) : list Transaction :=
  match l with
  | [] => [a]
  | b :: rest => if notAfter a b then a :: b :: rest else b :: insertSorted a rest
  end.

Definition sortDesc (l : list Transaction) : list Transaction :=
  fold_right insertSorted [] l.

(** Modelled from the spec: the window [skip(s).limit(n)] of the Persistence
    Gateway.  NaN and a negative skip are rejected; a limit of 0 means no
    limit and a negative one counts as its absolute value. *)
Definition window (skip lim : option Z) (l : list Transaction)
    : option (list Transaction) :=
  match skip, lim with
  | Some s, Some n =>
      if s <? 0 then None
      else let rest := skipn (Z.to_nat s) l in
           Some (if n =? 0 then rest else firstn (Z.to_nat (Z.abs n)) rest)
  | _, _ => None
  end.

(** Modelled from the spec: [findOne({ _id, userId })] and
    [findOneAndDelete({ _id, userId })] of the Persistence Gateway. *)
Definition findOne (id u : ObjectId) (st : Store) : option Transaction :=
  List.find (fun t => N.eqb (_id t) id && N.eqb (userId t) u) st.

Fixpoint removeFirst (p : Transaction -> bool) (st : Store) : Store :=
  match st with
  | [] => []
  | r :: rest => if p r then rest else r :: removeFirst p rest
  end.

Definition findOneAndDelete (id u : ObjectId) (st : Store)
    : option Transaction * Store :=
  let p := fun t => N.eqb (_id t) id && N.eqb (userId t) u in
  (List.find p st, removeFirst p st).

(** [$group: { _id: '$type', total: { $sum: '$amount' }, count: { $sum: 1 } }]:
    the documents are sorted into one bucket per type, in the order they
    arrive; the total of a group is the database's sum of the amounts of
    its bucket and the count their number. *)
Record Group := { g_id : string; total : num; count : nat }.

Record Bucket := { b_id : string; b_amounts : list Q }.

Fixpoint bucketAdd (t : Transaction) (bs : list Bucket) : list Bucket :=
  match bs with
  | [] => [ {| b_id := type t; b_amounts := [amount t] |} ]
  | b :: rest =>
      if String.eqb (b_id b) (type t)
      then {| b_id := b_id b; b_amounts := b_amounts b ++ [amount t] |} :: rest
      else b :: bucketAdd t rest
  end.

Definition closeBucket (b : Bucket) : Group :=
  {| g_id := b_id b; total := dbSum (b_amounts b);
     count := length (b_amounts b) |}.

Definition groupByType (l : list Transaction) : list Group :=
  map closeBucket (fold_left (fun bs t => bucketAdd t bs) l []).

(** The stages of a pipeline are not cast against the schema: a Date bound
    goes to the database as the time the driver writes for it, also when it
    is an Invalid Date. *)
Definition bsonDate (d : option Z) : Z :=
  match d with Some t => t | None => invalidDateMillis end.

Definition pipelineRange (d : option (option Z * option Z)) : option (Z * Z) :=
  match d with
  | None => None
  | Some (lo, hi) => Some (bsonDate lo, bsonDate hi)
  end.

(** Modelled from the spec: the grouped aggregation of the Persistence
    Gateway, here the pipeline [$match] then [$group], over the documents
    in the order of the collection. *)
Definition aggregate (u : ObjectId) (d : option (option Z * option Z))
    (st : Store) : list Group :=
  groupByType (List.filter (matches u None None (pipelineRange d)) st).

(** A failure of one document of an unordered insert. *)
Record WriteError := { index : nat; errs : list ValidatorError }.

(** What an insert-many hands to the handler: the documents inserted, or an
    error with its name and what it carries. *)
Inductive insertManyResult :=
| Inserted (docs : list Transaction) (st : Store)
| Raised (name : string) (insertedCount : nat) (writeErrors : list WriteError)
    (st : Store).

(** [insertEach] walks the batch of an insert-many: every object is turned
    into a document and validated; it returns the documents that pass and,
    apart, the failures of the others.  Position [i] of the batch takes the
    identifier [newId i]. *)
Fixpoint insertEach (now : Z) (newId : nat -> ObjectId) (i : nat)
    (objs : list (gmap string jsval)) : list Transaction * list WriteError :=
  match objs with
  | [] => ([], [])
  | o :: rest =>
      let d := newTransaction now (newId i) o in
      let '(ok, bad) := insertEach now newId (S i) rest in
      match validate d, toTransaction d with
      | [], Some t => (t :: ok, bad)
      | es, _ => (ok, {| index := i; errs := es |} :: bad)
      end
  end.

(** [Transaction.insertMany(objs, { ordered: false })] of Mongoose, the
    version the README names (^8.19.1); the library is not under src/.  An
    unordered insert leaves out the documents that fail validation and
    raises nothing for them: the documents that pass are inserted and
    returned.  Errors of the database itself are not modelled, so no error
    is raised at all. *)
Definition insertMany (now : Z) (newId : nat -> ObjectId)
    (objs : list (gmap string jsval)) (st : Store) : insertManyResult :=
  let '(ok, _) := insertEach now newId 0 objs in
  Inserted ok (st ++ ok).

(** ** Responses *)

Record Pagination := {
  currentPage : Z;
  totalPages : num;
  totalTransactions : nat;
  limit : Z
}.

Record Statistics := {
  totalIncome : num;
  totalExpense : num;
  incomeCount : nat;
  expenseCount : nat;
  netAmount : num
}.

Inductive Data :=
| NoData
| OneTransaction (transaction : Transaction)
| Page (transactions : list Transaction) (pagination : Pagination)
| Created (transactions : list Transaction)
| Partial (created failed : nat) (errors : list WriteError)
| Stats (result : Statistics).

Record Response := {
  status : nat;
  success : bool;
  message : option string;
  data : Data;
  errors : list ValidatorError
}.

Definition fail (code : nat) (msg : string) : Response :=
  {| status := code; success := false; message := Some msg; data := NoData;
     errors := [] |}.

Definition validationFailure (es : list ValidatorError) : Response :=
  {| status := 400; success := false; message := Some "Validation error";
     data := NoData; errors := es |}.

Definition ok (code : nat) (msg : option string) (d : Data) : Response :=
  {| status := code; success := true; message := msg; data := d; errors := [] |}.

(** ** The handlers of controllers/transactionController.js *)

(** A query parameter as the handler sees it. *)
Definition param (query : gmap string string) (k : string) : option jsval :=
  JStr <$> (query !! k).

(** [parseInt(p)] where [p] was destructured with a numeric default. *)
Definition parseIntOr (default : Z) (p : option string) : option Z :=
  match p with
  | None => Some default
  | Some s => parseIntStr s
  end.

(** [Math.ceil(total / limit)] *)
Definition ceilDiv (total : nat) (lim : Z) : num :=
  if lim =? 0 then (if (total =? 0)%nat then NaN else PosInf)
  else ofZ (- ((- Z.of_nat total) / lim)).

Definition setDate (f : Filter) (lo hi : option Z) : Filter :=
  {| f_userId := f_userId f; f_type := f_type f; f_category := f_category f;
     f_date := Some (lo, hi) |}.

(** getTransactions, lines 10-42: the filter object. *)
Definition listFilter (caller : ObjectId) (query : gmap string string) : Filter :=
  let type := query !! "type" in
  let category := query !! "category" in
  let startDate := param query "startDate" in
  let endDate := param query "endDate" in
  let month := param query "month" in
  let year := param query "year" in
  let filter :=
    {| f_userId := caller;
       f_type := if truthy (JStr <$> type) && isIncomeOrExpense (JStr <$> type)
                 then type else None;
       f_category := if truthy (JStr <$> category) then category else None;
       f_date := None |} in
  if truthy startDate && truthy endDate then
    setDate filter (newDate startDate) (newDate endDate)
  else if truthy month && truthy year then
    let startOfMonth := newDateYMD (ToNumber year) (num_pred (ToNumber month)) (ofZ 1) in
    let endOfMonth := newDateYMD (ToNumber year) (ToNumber month) (ofZ 0) in
    setDate filter startOfMonth endOfMonth
  else if truthy year then
    let startOfYear := newDateYMD (ToNumber year) (ofZ 0) (ofZ 1) in
    let endOfYear := newDateYMD (ToNumber year) (ofZ 11) (ofZ 31) in
    setDate filter startOfYear endOfYear
  else filter.

Definition getTransactions (caller : ObjectId) (query : gmap string string)
    (st : Store) : Response :=
  let page := parseIntOr 1 (query !! "page") in
  let lim := parseIntOr 10 (query !! "limit") in
  let filter := listFilter caller query in
  let skip := match page, lim with
              | Some p, Some l => Some ((p - 1) * l)
              | _, _ => None
              end in
  match find filter st with
  | Some found =>
      match window skip lim (sortDesc found), page, lim with
      | Some transactions, Some p, Some l =>
          match countDocuments filter st with
          | Some n =>
              ok 200 None
                (Page transactions
                   {| currentPage := p; totalPages := ceilDiv n l;
                      totalTransactions := n; limit := l |})
          | None => fail 500 "Server error while fetching transactions"
          end
      | _, _, _ => fail 500 "Server error while fetching transactions"
      end
  | None => fail 500 "Server error while fetching transactions"
  end.

(** The text [Type must be either "income" or "expense"]. *)
Definition typeMessage : string :=
  let q := String (Ascii.ascii_of_nat 34) EmptyString in
  "Type must be either " +:+ q +:+ "income" +:+ q +:+ " or "
  +:+ q +:+ "expense" +:+ q.

(** [{ ..., k: v }] where [v] may be [undefined] *)
Definition field (k : string) (v : option jsval) (obj : gmap string jsval)
    : gmap string jsval :=
  match v with
  | Some x => <[k := x]> obj
  | None => delete k obj
  end.

Definition createTransaction (now : Z) (newId : ObjectId) (caller : ObjectId)
    (body : gmap string jsval) (st : Store) : Response * Store :=
  let date := body !! "date" in
  let description := body !! "description" in
  let category := body !! "category" in
  let type := body !! "type" in
  let amount := body !! "amount" in
  if negb (truthy description) || negb (truthy category)
     || negb (truthy type) || negb (truthy amount) then
    (fail 400 "Please provide all required fields: description, category, type, amount", st)
  else if negb (isIncomeOrExpense type) then
    (fail 400 typeMessage, st)
  else if num_le0 (ToNumber amount) then
    (fail 400 "Amount must be greater than 0", st)
  else
    match description with
    | Some (JStr s) =>
        let transaction :=
          newTransaction now newId
            (field "amount" (Some (JNum (parseFloat amount)))
            (field "type" type
            (field "category" category
            (field "description" (Some (JStr (trim s)))
            (field "date" (Some (JDate (if truthy date then newDate date else Some now)))
            (field "userId" (Some (JOid caller)) ∅)))))) in
        match save true transaction st with
        | Saved t st' =>
            (ok 201 (Some "Transaction created successfully") (OneTransaction t), st')
        | ValidationError es => (validationFailure es, st)
        end
    | _ =>
        (* description.trim is not a function *)
        (fail 500 "Server error while creating transaction", st)
    end.

(** Assignments to the paths of a loaded document. *)
Definition set_date (c : cast Z) (d : Document) : Document :=
  {| doc_id := doc_id d; doc_userId := doc_userId d; doc_date := c;
     doc_description := doc_description d; doc_category := doc_category d;
     doc_type := doc_type d; doc_amount := doc_amount d;
     doc_createdAt := doc_createdAt d |}.

Definition set_description (c : cast string) (d : Document) : Document :=
  {| doc_id := doc_id d; doc_userId := doc_userId d; doc_date := doc_date d;
     doc_description := trimSetter c; doc_category := doc_category d;
     doc_type := doc_type d; doc_amount := doc_amount d;
     doc_createdAt := doc_createdAt d |}.

Definition set_category (c : cast string) (d : Document) : Document :=
  {| doc_id := doc_id d; doc_userId := doc_userId d; doc_date := doc_date d;
     doc_description := doc_description d; doc_category := c;
     doc_type := doc_type d; doc_amount := doc_amount d;
     doc_createdAt := doc_createdAt d |}.

Definition set_type (c : cast string) (d : Document) : Document :=
  {| doc_id := doc_id d; doc_userId := doc_userId d; doc_date := doc_date d;
     doc_description := doc_description d; doc_category := doc_category d;
     doc_type := c; doc_amount := doc_amount d;
     doc_createdAt := doc_createdAt d |}.

Definition set_amount (c : cast num) (d : Document) : Document :=
  {| doc_id := doc_id d; doc_userId := doc_userId d; doc_date := doc_date d;
     doc_description := doc_description d; doc_category := doc_category d;
     doc_type := doc_type d; doc_amount := c;
     doc_createdAt := doc_createdAt d |}.

(** updateTransaction, lines 167-171: the five guarded assignments.  [None]
    is the TypeError of [description.trim()] on a value that is not a
    string. *)
Definition updateFields (body : gmap string jsval) (transaction : Document)
    : option Document :=
  let date := body !! "date" in
  let description := body !! "description" in
  let category := body !! "category" in
  let type := body !! "type" in
  let amount := body !! "amount" in
  let transaction :=
    if truthy date then set_date (castDate (Some (JDate (newDate date)))) transaction
    else transaction in
  match (if truthy description then
           match description with
           | Some (JStr s) =>
               Some (set_description (castString (Some (JStr (trim s)))) transaction)
           | _ => None
           end
         else Some transaction) with
  | None => None
  | Some transaction =>
      let transaction :=
        if truthy category then set_category (castString category) transaction
        else transaction in
      let transaction :=
        if truthy type && isIncomeOrExpense type
        then set_type (castString type) transaction else transaction in
      let transaction :=
        if truthy amount && num_gt0 (ToNumber amount)
        then set_amount (castNumber (Some (JNum (parseFloat amount)))) transaction
        else transaction in
      Some transaction
  end.

Definition updateTransaction (caller : ObjectId) (id : string)
    (body : gmap string jsval) (st : Store) : Response * Store :=
  if negb (isValidObjectId id) then
    (fail 400 "Invalid transaction ID", st)
  else
    match findOne (castObjectId id) caller st with
    | None => (fail 404 "Transaction not found", st)
    | Some found =>
        match updateFields body (hydrate found) with
        | Some transaction =>
            match save false transaction st with
            | Saved t st' =>
                (ok 200 (Some "Transaction updated successfully") (OneTransaction t), st')
            | ValidationError es => (validationFailure es, st)
            end
        | None => (fail 500 "Server error while updating transaction", st)
        end
    end.

Definition deleteTransaction (caller : ObjectId) (id : string) (st : Store)
    : Response * Store :=
  if negb (isValidObjectId id) then
    (fail 400 "Invalid transaction ID", st)
  else
    match findOneAndDelete (castObjectId id) caller st with
    | (None, _) => (fail 404 "Transaction not found", st)
    | (Some _, st') =>
        (ok 200 (Some "Transaction deleted successfully") NoData, st')
    end.

(** bulkCreateTransactions, lines 249-254: one element of the batch with the
    caller's id, a Date and a parsed amount written over its own. *)
Definition withUser (now : Z) (caller : ObjectId)
    (transaction : gmap string jsval) : gmap string jsval :=
  <["amount" := JNum (parseFloat (transaction !! "amount"))]>
    (<["date" := JDate (if truthy (transaction !! "date")
                        then newDate (transaction !! "date") else Some now)]>
       (<["userId" := JOid caller]> transaction)).

(** An element of the array of a bulk request: null, or any other value,
    which the handler and the schema see through its own properties (a
    number, a boolean or a string has none that they read). *)
Inductive Row := RowNull | RowObject (fields : gmap string jsval).

(** lines 249-254: [transactions.map(...)].  Reading [transaction.date] of a
    null element throws a TypeError, which ends the map: [None]. *)
Fixpoint mapWithUser (now : Z) (caller : ObjectId) (rows : list Row)
    : option (list (gmap string jsval)) :=
  match rows with
  | [] => Some []
  | RowNull :: _ => None
  | RowObject transaction :: rest =>
      match mapWithUser now caller rest with
      | Some l => Some (withUser now caller transaction :: l)
      | None => None
      end
  end.

(** [transactions] is [None] when the body has no array under that key.
    The catch clause answers 207 to an error named BulkWriteError and 500
    to any other. *)
Definition bulkCreateTransactions (now : Z) (newId : nat -> ObjectId)
    (caller : ObjectId) (transactions : option (list Row))
    (st : Store) : Response * Store :=
  match transactions with
  | None | Some [] => (fail 400 "Please provide an array of transactions", st)
  | Some rows =>
      match mapWithUser now caller rows with
      | None => (fail 500 "Server error while creating transactions", st)
      | Some transactionsWithUser =>
          match insertMany now newId transactionsWithUser st with
          | Inserted createdTransactions st' =>
              (ok 201
                 (Some (pretty (length createdTransactions)
                        +:+ " transactions created successfully"))
                 (Created createdTransactions), st')
          | Raised name successCount writeErrors st' =>
              if String.eqb name "BulkWriteError" then
                let failureCount := length writeErrors in
                (ok 207
                   (Some (pretty successCount +:+ " transactions created, "
                          +:+ pretty failureCount +:+ " failed"))
                   (Partial successCount failureCount writeErrors), st')
              else (fail 500 "Server error while creating transactions", st')
          end
      end
  end.

(** getStatistics, lines 298-311: the date condition. *)
Definition statisticsDateFilter (query : gmap string string)
    : option (option Z * option Z) :=
  let month := param query "month" in
  let year := param query "year" in
  if truthy month && truthy year then
    let startOfMonth := newDateYMD (ToNumber year) (num_pred (ToNumber month)) (ofZ 1) in
    let endOfMonth := newDateYMD (ToNumber year) (ToNumber month) (ofZ 0) in
    Some (startOfMonth, endOfMonth)
  else if truthy year then
    let startOfYear := newDateYMD (ToNumber year) (ofZ 0) (ofZ 1) in
    let endOfYear := newDateYMD (ToNumber year) (ofZ 11) (ofZ 31) in
    Some (startOfYear, endOfYear)
  else None.

(** getStatistics, lines 326-344: the result object filled from the groups. *)
Definition formatStatistics (stats : list Group) : Statistics :=
  let result :=
    fold_left
      (fun result stat =>
         if String.eqb (g_id stat) "income" then
           {| totalIncome := total stat; totalExpense := totalExpense result;
              incomeCount := count stat; expenseCount := expenseCount result;
              netAmount := netAmount result |}
         else if String.eqb (g_id stat) "expense" then
           {| totalIncome := totalIncome result; totalExpense := total stat;
              incomeCount := incomeCount result; expenseCount := count stat;
              netAmount := netAmount result |}
         else result)
      stats
      {| totalIncome := 0; totalExpense := 0; incomeCount := 0;
         expenseCount := 0; netAmount := 0 |} in
  {| totalIncome := totalIncome result; totalExpense := totalExpense result;
     incomeCount := incomeCount result; expenseCount := expenseCount result;
     netAmount := num_sub (totalIncome result) (totalExpense result) |}.

Definition getStatistics (caller : ObjectId) (query : gmap string string)
    (st : Store) : Response :=
  let stats := aggregate caller (statisticsDateFilter query) st in
  ok 200 None (Stats (formatStatistics stats)).

(** ** The routes of routes/transactionRoutes.js *)

Inductive Request :=
| GET_ (query : gmap string string)
| POST_ (body : gmap string jsval)
| PUT_id (id : string) (body : gmap string jsval)
| DELETE_id (id : string)
| POST_bulk (transactions : option (list Row))
| GET_statistics (query : gmap string string).

(** What a request takes from its environment: the clock and the
    identifiers the driver generates for new documents. *)
Record Env := { now : Z; newId : nat -> ObjectId }.

Definition handle (env : Env) (caller : ObjectId) (req : Request) (st : Store)
    : Response * Store :=
  match req with
  | GET_ query => (getTransactions caller query st, st)
  | POST_ body => createTransaction (now env) (newId env 0%nat) caller body st
  | PUT_id id body => updateTransaction caller id body st
  | DELETE_id id => deleteTransaction caller id st
  | POST_bulk transactions =>
      bulkCreateTransactions (now env) (newId env) caller transactions st
  | GET_statistics query => (getStatistics caller query st, st)
  end.

(** ** The method getMonthYear of models/transactionSchema.js *)

(** Day number and the calendar fields of a day, as the language defines
    them: the year of a day is the one whose first day is the latest not
    after it ([YearFromDay] starts from an estimate that is off by at most
    one), the month is found from the day within the year. *)
Definition Day (t : Z) : Z := t / msPerDay.

Definition YearFromDay (d : Z) : Z :=
  let y := 1970 + (d * 400) / 146097 in
  if DayFromYear (y + 1) <=? d then y + 1
  else if DayFromYear y <=? d then y
  else y - 1.

Definition MonthFromDay (d : Z) : Z :=
  let y := YearFromDay d in
  let dayWithinYear := d - DayFromYear y in
  let l := if InLeapYear y then 1 else 0 in
  if dayWithinYear <? 31 then 0
  else if dayWithinYear <? 59 + l then 1
  else if dayWithinYear <? 90 + l then 2
  else if dayWithinYear <? 120 + l then 3
  else if dayWithinYear <? 151 + l then 4
  else if dayWithinYear <? 181 + l then 5
  else if dayWithinYear <? 212 + l then 6
  else if dayWithinYear <? 243 + l then 7
  else if dayWithinYear <? 273 + l then 8
  else if dayWithinYear <? 304 + l then 9
  else if dayWithinYear <? 334 + l then 10
  else 11.

Definition LocalTime (t : Z) : Z := t + LocalTZA.

(** [Date.prototype.getFullYear] and [Date.prototype.getMonth] *)
Definition getFullYear (t : Z) : Z := YearFromDay (Day (LocalTime t)).

Definition getMonth (t : Z) : Z := MonthFromDay (Day (LocalTime t)).

(** [s.padStart(n, c)] for a filler of one character *)
Fixpoint fill (n : nat) (c : ascii) (s : string) : string :=
  match n with
  | O => s
  | S k => String c (fill k c s)
  end.

Definition padStart (n : nat) (c : ascii) (s : string) : string :=
  fill (n - String.length s) c s.

Record MonthYear := { month : Z; year : Z; monthYear : string }.

Definition getMonthYear (this : Transaction) : MonthYear :=
  let date := date this in
  {| month := getMonth date + 1;
     year := getFullYear date;
     monthYear :=
       NumberToString (ofZ (getFullYear date)) +:+ "-"
       +:+ padStart 2 "0" (NumberToString (ofZ (getMonth date + 1))) |}.

End Model.

Arguments Absent {A}.
Arguments CastError {A}.
Arguments Val {A} a.

(** ** A runtime for the examples

    It agrees with Node.js on the literals the examples use: plain decimal
    numerals, dates written YYYY-MM-DD, identifiers of 24 hexadecimal
    digits; the server clock is UTC. *)

Module Reference.

Definition digit (c : Ascii.ascii) : option Z :=
  let n := Z.of_nat (Ascii.nat_of_ascii c) in
  if (48 <=? n) && (n <=? 57) then Some (n - 48) else None.

Definition hexDigit (c : Ascii.ascii) : option Z :=
  let n := Z.of_nat (Ascii.nat_of_ascii c) in
  if (48 <=? n) && (n <=? 57) then Some (n - 48)
  else if (97 <=? n) && (n <=? 102) then Some (n - 87)
  else if (65 <=? n) && (n <=? 70) then Some (n - 55)
  else None.

(** The longest prefix of digits in the given base: its value, the number
    of digits, and the rest of the string. *)
Fixpoint digits (dig : Ascii.ascii -> option Z) (base : Z) (s : string)
    (acc : Z) (n : nat) : Z * nat * string :=
  match s with
  | String c rest =>
      match dig c with
      | Some d => digits dig base rest (acc * base + d) (S n)
      | None => (acc, n, s)
      end
  | EmptyString => (acc, n, s)
  end.

(** An unsigned decimal literal at the head of [s], with what follows. *)
Definition decimalPrefix (s : string) : option (Q * string) :=
  let '(i, n, rest) := digits digit 10 s 0 0%nat in
  match rest with
  | String "."%char rest' =>
      let '(f, k, rest'') := digits digit 10 rest' 0 0%nat in
      if ((n =? 0) && (k =? 0))%nat then None
      else Some ((inject_Z i + (f # Pos.of_nat (Nat.pow 10 k)))%Q, rest'')
  | _ => if (n =? 0)%nat then None else Some (inject_Z i, rest)
  end.

Definition signed (s : string) : bool * string :=
  match s with
  | String "-"%char rest => (true, rest)
  | String "+"%char rest => (false, rest)
  | _ => (false, s)
  end.

Definition isSpace (c : Ascii.ascii) : bool :=
  let n := Ascii.nat_of_ascii c in
  ((n =? 32) || ((9 <=? n) && (n <=? 13)))%nat.

Fixpoint trimStart (s : string) : string :=
  match s with
  | String c rest => if isSpace c then trimStart rest else s
  | EmptyString => s
  end.

Fixpoint trimEnd (s : string) : string :=
  match s with
  | String c rest =>
      match trimEnd rest with
      | EmptyString => if isSpace c then EmptyString else String c EmptyString
      | r => String c r
      end
  | EmptyString => s
  end.

Definition trimBoth (s : string) : string := trimEnd (trimStart s).

Definition parseFloat_ (s : string) : num :=
  let '(neg, body) := signed (trimStart s) in
  match decimalPrefix body with
  | Some (q, _) => Fin (if neg then (- q)%Q else q)
  | None => NaN
  end.

Definition toNumber_ (s : string) : num :=
  match trimBoth s with
  | EmptyString => ofZ 0
  | t =>
      let '(neg, body) := signed t in
      match decimalPrefix body with
      | Some (q, EmptyString) => Fin (if neg then (- q)%Q else q)
      | _ => NaN
      end
  end.

Definition parseInt_ (s : string) : option Z :=
  let '(neg, body) := signed (trimStart s) in
  let '(i, n, _) := digits digit 10 body 0 0%nat in
  if (n =? 0)%nat then None else Some (if neg then - i else i).

(** [YYYY-MM-DD] is midnight UTC of that day. *)
Definition dateParse_ (s : string) : option Z :=
  let '(y, ny, r1) := digits digit 10 s 0 0%nat in
  match r1 with
  | String "-"%char r2 =>
      let '(m, nm, r3) := digits digit 10 r2 0 0%nat in
      match r3 with
      | String "-"%char r4 =>
          let '(d, nd, r5) := digits digit 10 r4 0 0%nat in
          match r5 with
          | EmptyString =>
              if ((ny =? 4) && (nm =? 2) && (nd =? 2))%nat
                 && (1 <=? m) && (m <=? 12) && (1 <=? d) && (d <=? 31)
              then TimeClip (MakeDay y (m - 1) d * msPerDay)
              else None
          | _ => None
          end
      | _ => None
      end
  | _ => None
  end.

Definition isHex24 (s : string) : bool :=
  let '(_, n, rest) := digits hexDigit 16 s 0 0%nat in
  (n =? 24)%nat && String.eqb rest "".

Definition hexValue (s : string) : ObjectId :=
  let '(v, _, _) := digits hexDigit 16 s 0 0%nat in Z.to_N v.

Definition hexChar (d : N) : Ascii.ascii :=
  Ascii.ascii_of_N (if (d <? 10)%N then d + 48 else d + 87)%N.

Fixpoint toHex (n : nat) (v : N) (acc : string) : string :=
  match n with
  | O => acc
  | S k => toHex k (v / 16)%N (String (hexChar (v mod 16)%N) acc)
  end.

Definition numberToString_ (n : num) : string :=
  match n with
  | Fin q =>
      if (Zpos (Qden q) =? 1) then pretty (Qnum q)
      else pretty (Qnum q) +:+ "/" +:+ pretty (Zpos (Qden q))
  | PosInf => "Infinity"
  | NegInf => "-Infinity"
  | NaN => "NaN"
  end.

Definition dateToString_ (t : option Z) : string :=
  match t with
  | Some ms => "Date(" +:+ pretty ms +:+ ")"
  | None => "Invalid Date"
  end.

Definition node : Runtime := {|
  StringToNumber := toNumber_;
  NumberToString := numberToString_;
  parseFloatStr := parseFloat_;
  parseIntStr := parseInt_;
  DateParse := dateParse_;
  DateToString := dateToString_;
  trim := trimBoth;
  LocalTZA := 0;
  invalidDateMillis := 0;
  dbSum := addDoubles 0;
  isValidObjectId := isHex24;
  castObjectId := hexValue;
  ObjectIdToString := fun o => toHex 24 o ""
|}.

End Reference.

(** ** Notions used in the statements *)

Section Notions.

Context `{RT : Runtime}.

(** A row of a batch is valid when the document made of it, stamped as the
    handler stamps it, passes the schema. *)
Definition validRow (now : Z) (caller : ObjectId) (row : gmap string jsval)
    : bool :=
  match validate (newTransaction now 0%N (withUser now caller row)) with
  | [] => true
  | _ => false
  end.

(** [t] is the stored form of the document made of [row]. *)
Definition isDocumentOf (now : Z) (caller : ObjectId)
    (row : gmap string jsval) (t : Transaction) : Prop :=
  exists id, toTransaction (newTransaction now id (withUser now caller row)) = Some t.

(** The positions, counted from [i], of the rows that are not valid. *)
Fixpoint invalidPositions (now : Z) (caller : ObjectId) (i : nat)
    (rows : list (gmap string jsval)) : list nat :=
  match rows with
  | [] => []
  | row :: rest =>
      if validRow now caller row then invalidPositions now caller (S i) rest
      else i :: invalidPositions now caller (S i) rest
  end.

(** The documents of user [u], and the documents of everybody else. *)
Definition owned (u : ObjectId) (st : Store) : Store :=
  List.filter (fun t => N.eqb (userId t) u) st.

Definition others (u : ObjectId) (st : Store) : Store :=
  List.filter (fun t => negb (N.eqb (userId t) u)) st.

(** The documents of one type, and the exact sum of their amounts. *)
Definition ofType (k : string) (l : list Transaction) : list Transaction :=
  List.filter (fun t => String.eqb (type t) k) l.


(** The documents of [caller] whose date lies in the range [r]. *)
Definition inScope (caller : ObjectId) (r : option (Z * Z)) (st : Store)
    : list Transaction :=
  List.filter (fun t => N.eqb (userId t) caller && inRange r (date t)) st.

(** The response classes of the specification's error taxonomy that the
    statements below speak of. *)
Definition missingFieldMessage : string :=
  "Please provide all required fields: description, category, type, amount".

Definition amountMessage : string := "Amount must be greater than 0".

(** A 400 whose message is the amount rule or whose error list has an
    entry for the amount path. *)
Definition InvalidAmount (r : Response) : Prop :=
  status r = 400%nat
  /\ (message r = Some amountMessage
      \/ exists e, In e (errors r) /\ errorPath e = "amount").

(** The answer of a successful update. *)
Definition updated (t : Transaction) : Response :=
  ok 200 (Some "Transaction updated successfully") (OneTransaction t).

(** The five fields an update body may carry, and the condition under which
    the handler passes a field over: its value is falsy or, for type and
    amount, fails the guard next to it. *)
Definition updateFieldNames : list string :=
  [ "date"; "description"; "category"; "type"; "amount" ].

Definition skipped (body : gmap string jsval) (k : string) : bool :=
  if String.eqb k "type" then
    negb (truthy (body !! k) && isIncomeOrExpense (body !! k))
  else if String.eqb k "amount" then
    negb (truthy (body !! k) && num_gt0 (ToNumber (body !! k)))
  else negb (truthy (body !! k)).

(** A handler that answers without reading the collection and only appends
    documents of the caller. *)
Definition appendsOwn (caller : ObjectId) (run : Store -> Response * Store) : Prop :=
  exists r ts, Forall (fun t => userId t = caller) ts
               /\ forall st, run st = (r, st ++ ts).

(** What isolation means for one handler on one collection. *)
Definition isolated (caller : ObjectId) (run : Store -> Response * Store)
    (st : Store) : Prop :=
  (forall t, In t (snd (run st)) -> In t st \/ userId t = caller)
  /\ others caller (snd (run st)) = others caller st
  /\ (forall st2, owned caller st2 = owned caller st ->
                  fst (run st2) = fst (run st)).

(** Newest first. *)
Definition descending (l : list Transaction) : Prop :=
  Sorted (fun a b => notAfter a b = true) l.

(** What the sort compares. *)
Definition sortKey (t : Transaction) : Z * Z := (date t, createdAt t).

(** The group of one type in the outcome of the grouping stage. *)
Definition lookupGroup (k : string) (gs : list Group) : option Group :=
  List.find (fun g => String.eqb (g_id g) k) gs.

Definition totalOf (k : string) (gs : list Group) : num :=
  match lookupGroup k gs with Some g => total g | None => 0%num end.

(** The total that the database computes for a list of documents: nothing
    to add gives no group, hence the 0 of the result object. *)
Definition totalOfDocs (l : list Transaction) : num :=
  match l with [] => 0%num | _ => dbSum (map amount l) end.

(** The date range of a statistics request as the database receives it. *)
Definition statisticsRange (query : gmap string string) : option (Z * Z) :=
  pipelineRange (statisticsDateFilter query).











Definition countOf (k : string) (gs : list Group) : nat :=
  match lookupGroup k gs with Some g => count g | None => 0%nat end.

(** The documents on the page of a list response, if it has one. *)
Definition pageOf (r : Response) : list Transaction :=
  match data r with
  | Page transactions _ => transactions
  | _ => []
  end.

(** The query parameters that getTransactions reads. *)
Definition listParameters : list string :=
  [ "page"; "limit"; "type"; "category"; "startDate"; "endDate"; "month"; "year" ].

(** The answer of a successful create and of a successful delete. *)
Definition created (t : Transaction) : Response :=
  ok 201 (Some "Transaction created successfully") (OneTransaction t).

Definition deleted : Response :=
  ok 200 (Some "Transaction deleted successfully") NoData.

(** The object that createTransaction hands to the model, for a description
    that is the string [s]. *)
Definition createObject (now : Z) (caller : ObjectId)
    (body : gmap string jsval) (s : string) : gmap string jsval :=
  field "amount" (Some (JNum (parseFloat (body !! "amount"))))
    (field "type" (body !! "type")
       (field "category" (body !! "category")
          (field "description" (Some (JStr (trim s)))
             (field "date"
                (Some (JDate (if truthy (body !! "date")
                              then newDate (body !! "date") else Some now)))
                (field "userId" (Some (JOid caller)) ∅))))).

(** A create body that passes every check of the handler and of the schema:
    [s] is its description, [c] its category, [ty] its type, [q] its amount
    and [dt] the date given, if one is. *)
Definition accepted (body : gmap string jsval) (s c ty : string) (q : Q)
    (dt : option Z) : Prop :=
  body !! "description" = Some (JStr s) /\ s <> ""
  /\ trim (trim s) <> "" /\ (String.length (trim (trim s)) <= 200)%nat
  /\ truthy (body !! "category") = true
  /\ castString (body !! "category") = Val c /\ In c categories
  /\ body !! "type" = Some (JStr ty) /\ (ty = "income" \/ ty = "expense")
  /\ truthy (body !! "amount") = true
  /\ num_le0 (ToNumber (body !! "amount")) = false
  /\ parseFloat (body !! "amount") = Fin q /\ (1 # 100 <= q)%Q
  /\ (if truthy (body !! "date") then newDate (body !! "date") = dt /\ dt <> None
      else dt = None).

(** A stored document that passes the rules of the schema. *)
Definition schemaValid (t : Transaction) : Prop := validate (hydrate t) = [].

End Notions.

(** ** The data of the worked requests

    Alice is user 1 and Bob is user 2; the server clock is UTC. *)

Module Fixtures.

Definition alice : ObjectId := 1%N.
Definition bob : ObjectId := 2%N.

(** Wednesday 31 January 2024, 12:00 UTC. *)
Definition noon31Jan : Z := 1706702400000.

(** Tuesday 31 December 2024, 12:00 UTC. *)
Definition noon31Dec : Z := 1735646400000.

Definition env : Env :=
  {| now := noon31Jan; newId := fun i => N.of_nat (100 + i) |}.

Definition bobRent : Transaction :=
  {| _id := 10%N; userId := bob; date := 1704067200000;
     description := "Rent"; category := "Bills & Utilities";
     type := "expense"; amount := 900%Q; createdAt := 1704067200000 |}.

Definition aliceLunch : Transaction :=
  {| _id := 11%N; userId := alice; date := noon31Jan;
     description := "Lunch"; category := "Food & Dining";
     type := "expense"; amount := 12.5%Q; createdAt := noon31Jan |}.

Definition aliceBonus : Transaction :=
  {| _id := 12%N; userId := alice; date := noon31Dec;
     description := "Bonus"; category := "Income";
     type := "income"; amount := 500%Q; createdAt := noon31Dec |}.

Definition store : Store := [bobRent; aliceLunch; aliceBonus].

Definition lunch (amount : jsval) : gmap string jsval :=
  {[ "description" := JStr "  Lunch ";
     "category" := JStr "Food & Dining";
     "type" := JStr "expense";
     "amount" := amount ]}.

(** A create request whose body names Bob as the owner. *)
Definition createAsBob : Request :=
  POST_ (<["userId" := JStr "000000000000000000000002"]>
           (lunch (JNum (Fin 12.5%Q)))).

(** Twenty-five documents of Alice, one a day from 1 January 2024. *)
Definition daily (i : nat) : Transaction :=
  {| _id := N.of_nat (200 + i); userId := alice;
     date := 1704067200000 + Z.of_nat i * msPerDay;
     description := "Coffee"; category := "Food & Dining";
     type := "expense"; amount := 3%Q;
     createdAt := 1704067200000 + Z.of_nat i * msPerDay |}.

Definition twentyFive : Store := bobRent :: map daily (seq 0 25).

(** A batch of three with amount -5 in the middle. *)
Definition batch : list Row :=
  [ RowObject (lunch (JNum (Fin 12.5%Q)));
    RowObject (lunch (JNum (Fin (-5)%Q)));
    RowObject (lunch (JStr "7.25")) ].



(** Thursday 29 February 2024, 10:00 UTC, and Sunday 31 December 2023,
    18:00 UTC. *)
Definition aliceLeapDay : Transaction :=
  {| _id := 14%N; userId := alice; date := 1709200800000;
     description := "Books"; category := "Shopping";
     type := "expense"; amount := 40%Q; createdAt := 1709200800000 |}.

(** Two incomes whose exact sum, 9007199254740993, is not a double. *)
Definition aliceWindfall : Transaction :=
  {| _id := 16%N; userId := alice; date := noon31Jan;
     description := "Windfall"; category := "Income";
     type := "income"; amount := 9007199254740992%Q; createdAt := noon31Jan |}.

Definition aliceCoin : Transaction :=
  {| _id := 17%N; userId := alice; date := noon31Jan;
     description := "Coin"; category := "Income";
     type := "income"; amount := 1%Q; createdAt := noon31Jan |}.

Definition aliceNewYearsEve : Transaction :=
  {| _id := 15%N; userId := alice; date := 1704045600000;
     description := "Fireworks"; category := "Entertainment";
     type := "expense"; amount := 25%Q; createdAt := 1704045600000 |}.

End Fixtures.

(** * Properties *)

Section Properties.

Context `{RT : Runtime}.

(** ** Lists and the store *)

Lemma filter_through_owned (u : ObjectId) (p : Transaction -> bool) (st : Store) :
  (forall t, p t = true -> N.eqb (userId t) u = true) ->
  List.filter p st = List.filter p (owned u st).
Proof.
  intros Hp. induction st as [|r st IH]; simpl; [reflexivity|].
  destruct (p r) eqn:Hr.
  - rewrite (Hp _ Hr). simpl. rewrite Hr. now f_equal.
  - destruct (N.eqb (userId r) u); simpl; [rewrite Hr|]; exact IH.
Qed.

Lemma find_through_owned (u : ObjectId) (p : Transaction -> bool) (st : Store) :
  (forall t, p t = true -> N.eqb (userId t) u = true) ->
  List.find p st = List.find p (owned u st).
Proof.
  intros Hp. induction st as [|r st IH]; simpl; [reflexivity|].
  destruct (p r) eqn:Hr.
  - rewrite (Hp _ Hr). simpl. now rewrite Hr.
  - destruct (N.eqb (userId r) u); simpl; [rewrite Hr|]; exact IH.
Qed.

Lemma removeFirst_through_find (p : Transaction -> bool) (st : Store) :
  List.find p st = None -> removeFirst p st = st.
Proof.
  induction st as [|r st IH]; simpl; [reflexivity|].
  destruct (p r); [discriminate|]. intros H. now rewrite IH.
Qed.

Lemma others_app (u : ObjectId) (st l : Store) :
  Forall (fun t => userId t = u) l -> others u (st ++ l) = others u st.
Proof.
  intros Hl. unfold others. rewrite List.filter_app.
  replace (List.filter _ l) with (@nil Transaction); [now rewrite app_nil_r|].
  induction Hl as [|t l Ht _ IH]; simpl; [reflexivity|].
  rewrite Ht, N.eqb_refl. exact IH.
Qed.

Lemma others_removeFirst (u : ObjectId) (p : Transaction -> bool) (st : Store) :
  (forall t, p t = true -> N.eqb (userId t) u = true) ->
  others u (removeFirst p st) = others u st.
Proof.
  intros Hp. induction st as [|r st IH]; simpl; [reflexivity|].
  destruct (p r) eqn:Hr.
  - now rewrite (Hp _ Hr).
  - simpl. now rewrite IH.
Qed.

Lemma findOne_In (id u : ObjectId) (st : Store) (t : Transaction) :
  findOne id u st = Some t -> In t st /\ _id t = id /\ userId t = u.
Proof.
  unfold findOne. intros H. apply List.find_some in H. destruct H as [Hin Hp].
  apply andb_true_iff in Hp. destruct Hp as [H1 H2].
  apply N.eqb_eq in H1. apply N.eqb_eq in H2. auto.
Qed.

Lemma findOne_None (id u : ObjectId) (st : Store) :
  (forall t, In t st -> _id t = id -> userId t <> u) -> findOne id u st = None.
Proof.
  intros H. unfold findOne.
  destruct (List.find _ st) as [t|] eqn:E; [|reflexivity].
  apply (findOne_In id u st t) in E. destruct E as (Hin & Hid & Hu).
  exfalso. exact (H t Hin Hid Hu).
Qed.

(** With unique identifiers, the update that [save] issues lands on the
    document that was loaded. *)
Lemma others_replaceById (u : ObjectId) (t found : Transaction) (st : Store) :
  List.NoDup (map _id st) -> In found st -> userId found = u ->
  _id t = _id found -> userId t = u ->
  others u (replaceById t st) = others u st.
Proof.
  intros Hnd Hin Hfu Hid Htu. induction st as [|r st IH]; simpl; [reflexivity|].
  simpl in Hnd. inversion Hnd as [|x l Hnotin Hnd']; subst.
  destruct (N.eqb (_id r) (_id t)) eqn:Hr.
  - apply N.eqb_eq in Hr.
    assert (r = found) as ->.
    { destruct Hin as [Hin|Hin]; [exact Hin|]. exfalso. apply Hnotin.
      rewrite Hr, Hid. now apply in_map. }
    simpl. now rewrite Htu, N.eqb_refl.
  - simpl. rewrite IH; [reflexivity|exact Hnd'|].
    destruct Hin as [Hin|Hin]; [|exact Hin]. subst r.
    rewrite Hid, N.eqb_refl in Hr. discriminate.
Qed.

Lemma In_replaceById (t x : Transaction) (st : Store) :
  In x (replaceById t st) -> x = t \/ In x st.
Proof.
  induction st as [|r st IH]; simpl; [tauto|].
  destruct (N.eqb (_id r) (_id t)); simpl; intros [H|H]; auto.
  destruct (IH H); auto.
Qed.

Lemma In_removeFirst (p : Transaction -> bool) (x : Transaction) (st : Store) :
  In x (removeFirst p st) -> In x st.
Proof.
  induction st as [|r st IH]; simpl; [tauto|].
  destruct (p r); simpl; intros H; [auto|]. destruct H; auto.
Qed.

(** ** Documents *)

Lemma lookup_field_eq (k : string) (v : option jsval) (obj : gmap string jsval) :
  field k v obj !! k = v.
Proof.
  unfold field. destruct v; [apply lookup_insert_eq | apply lookup_delete_eq].
Qed.

Lemma lookup_field_ne (k k' : string) (v : option jsval) (obj : gmap string jsval) :
  k <> k' -> field k v obj !! k' = obj !! k'.
Proof.
  intros Hne. unfold field.
  destruct v; [now apply lookup_insert_ne | now apply lookup_delete_ne].
Qed.

Lemma toTransaction_inv (d : Document) (t : Transaction) :
  toTransaction d = Some t ->
  doc_userId d = Val (userId t) /\ doc_id d = _id t
  /\ doc_date d = Val (date t) /\ doc_description d = Val (description t)
  /\ doc_category d = Val (category t) /\ doc_type d = Val (type t)
  /\ doc_amount d = Val (Fin (amount t)) /\ doc_createdAt d = createdAt t.
Proof.
  unfold toTransaction.
  destruct (doc_userId d), (doc_date d), (doc_description d), (doc_category d),
    (doc_type d), (doc_amount d) as [| |[]]; try discriminate.
  intros [= <-]. simpl. repeat split; reflexivity.
Qed.

Lemma save_inv (isNew : bool) (d : Document) (st st' : Store) (t : Transaction) :
  save isNew d st = Saved t st' ->
  validate d = [] /\ toTransaction d = Some t
  /\ st' = (if isNew then st ++ [t] else replaceById t st).
Proof.
  unfold save. destruct (validate d); [|discriminate].
  destruct (toTransaction d); [|discriminate].
  intros [= <- <-]. auto.
Qed.

(** What [save] answers does not depend on the collection. *)
Lemma save_cases (isNew : bool) (d : Document) :
  (exists t, validate d = [] /\ toTransaction d = Some t /\
     forall st, save isNew d st
                = Saved t (if isNew then st ++ [t] else replaceById t st))
  \/ (exists es, forall st, save isNew d st = ValidationError es).
Proof.
  unfold save. destruct (validate d) as [|e es] eqn:Hv.
  - destruct (toTransaction d) as [t|].
    + left. exists t. auto.
    + right. exists []. reflexivity.
  - right. exists (e :: es). reflexivity.
Qed.

Lemma updateFields_keeps (body : gmap string jsval) (d d' : Document) :
  updateFields body d = Some d' ->
  doc_userId d' = doc_userId d /\ doc_id d' = doc_id d
  /\ doc_createdAt d' = doc_createdAt d.
Proof.
  unfold updateFields.
  destruct (truthy (body !! "description")).
  - destruct (body !! "description") as [[]|]; try discriminate.
    intros [= <-].
    destruct (truthy (body !! "date")), (truthy (body !! "category")),
      (truthy (body !! "type") && isIncomeOrExpense (body !! "type")),
      (truthy (body !! "amount") && num_gt0 (ToNumber (body !! "amount")));
      simpl; auto.
  - intros [= <-].
    destruct (truthy (body !! "date")), (truthy (body !! "category")),
      (truthy (body !! "type") && isIncomeOrExpense (body !! "type")),
      (truthy (body !! "amount") && num_gt0 (ToNumber (body !! "amount")));
      simpl; auto.
Qed.

Lemma newTransaction_userId (now : Z) (id : ObjectId) (obj : gmap string jsval) :
  doc_userId (newTransaction now id obj) = castObjectIdPath (obj !! "userId").
Proof. reflexivity. Qed.

(** ** Handlers that only append documents of the caller *)

Lemma create_appendsOwn (now : Z) (newId caller : ObjectId)
    (body : gmap string jsval) :
  appendsOwn caller (createTransaction now newId caller body).
Proof.
  unfold appendsOwn, createTransaction.
  destruct (negb (truthy (body !! "description")) || _ || _ || _).
  { eexists _, []. split; [constructor|]. intros st. now rewrite app_nil_r. }
  destruct (negb (isIncomeOrExpense _)).
  { eexists _, []. split; [constructor|]. intros st. now rewrite app_nil_r. }
  destruct (num_le0 _).
  { eexists _, []. split; [constructor|]. intros st. now rewrite app_nil_r. }
  destruct (body !! "description") as [[| | |s| |]|] eqn:Hd;
    try (eexists _, []; split; [constructor|]; intros st; now rewrite app_nil_r).
  match goal with
  | |- context [save true ?d _] =>
      destruct (save_cases true d) as [(t & _ & Ht & Hs)|(es & Hs)]
  end.
  - exists (ok 201 (Some "Transaction created successfully") (OneTransaction t)), [t].
    split.
    + constructor; [|constructor].
      apply toTransaction_inv in Ht. destruct Ht as (Hu & _).
      rewrite newTransaction_userId in Hu.
      rewrite !lookup_field_ne, lookup_field_eq in Hu by discriminate.
      simpl in Hu. congruence.
    + intros st. now rewrite Hs.
  - exists (validationFailure es), []. split; [constructor|].
    intros st. now rewrite Hs, app_nil_r.
Qed.

Lemma withUser_userId (now : Z) (caller : ObjectId) (row : gmap string jsval) :
  withUser now caller row !! "userId" = Some (JOid caller).
Proof.
  unfold withUser.
  rewrite !lookup_insert_ne by discriminate. apply lookup_insert_eq.
Qed.

Lemma insertEach_userId (now : Z) (newId : nat -> ObjectId) (caller : ObjectId)
    (objs : list (gmap string jsval)) :
  Forall (fun o => o !! "userId" = Some (JOid caller)) objs ->
  forall i, Forall (fun t => userId t = caller) (fst (insertEach now newId i objs)).
Proof.
  induction 1 as [|o objs Ho _ IH]; intros i; simpl; [constructor|].
  specialize (IH (S i)).
  destruct (insertEach now newId (S i) objs) as [good bad]. simpl in IH.
  destruct (validate _); [|exact IH].
  destruct (toTransaction _) as [t|] eqn:Ht; [|exact IH].
  simpl. constructor; [|exact IH].
  apply toTransaction_inv in Ht. destruct Ht as (Hu & _).
  rewrite newTransaction_userId, Ho in Hu. simpl in Hu. congruence.
Qed.

Lemma mapWithUser_userId (now : Z) (caller : ObjectId) (rows : list Row) :
  forall objs, mapWithUser now caller rows = Some objs ->
               Forall (fun o => o !! "userId" = Some (JOid caller)) objs.
Proof.
  induction rows as [|[|row] rows IH]; simpl; intros objs H.
  - injection H as <-. constructor.
  - discriminate.
  - destruct (mapWithUser now caller rows) as [l|]; [|discriminate].
    injection H as <-. constructor; [apply withUser_userId|now apply IH].
Qed.

Lemma bulk_appendsOwn (now : Z) (newId : nat -> ObjectId) (caller : ObjectId)
    (transactions : option (list Row)) :
  appendsOwn caller (bulkCreateTransactions now newId caller transactions).
Proof.
  unfold appendsOwn, bulkCreateTransactions.
  destruct transactions as [[|row rows]|];
    try (eexists _, []; split; [constructor|]; intros st; now rewrite app_nil_r).
  destruct (mapWithUser now caller (row :: rows)) as [objs|] eqn:Hmap;
    [|eexists _, []; split; [constructor|]; intros st; now rewrite app_nil_r].
  unfold insertMany.
  pose proof (insertEach_userId now newId caller objs
                (mapWithUser_userId _ _ _ _ Hmap) 0%nat) as Hall.
  destruct (insertEach now newId 0 objs) as [good bad].
  eexists _, good. split; [exact Hall|reflexivity].
Qed.

(** ** Isolation of one handler *)

Lemma appendsOwn_isolated (caller : ObjectId) (run : Store -> Response * Store)
    (st : Store) :
  appendsOwn caller run -> isolated caller run st.
Proof.
  intros (r & ts & Hts & Hrun). unfold isolated. rewrite Hrun. simpl.
  repeat split.
  - intros t Hin. apply in_app_or in Hin. destruct Hin as [Hin|Hin]; [now left|].
    right. rewrite List.Forall_forall in Hts. now apply Hts.
  - now apply others_app.
  - intros st2 _. now rewrite Hrun.
Qed.

Lemma find_owned_eq (f : Filter) (st st2 : Store) :
  owned (f_userId f) st2 = owned (f_userId f) st -> find f st2 = find f st.
Proof.
  intros H. unfold find. destruct (castRange (f_date f)); [|reflexivity].
  f_equal.
  rewrite (filter_through_owned (f_userId f) _ st2),
          (filter_through_owned (f_userId f) _ st), H; [reflexivity| |];
    intros t Ht; unfold matches in Ht;
    repeat (apply andb_true_iff in Ht; destruct Ht as [Ht _]); exact Ht.
Qed.

Lemma listFilter_userId (caller : ObjectId) (query : gmap string string) :
  f_userId (listFilter caller query) = caller.
Proof.
  unfold listFilter.
  repeat match goal with |- context [if ?c then _ else _] => destruct c end;
    reflexivity.
Qed.

Lemma getTransactions_isolated (caller : ObjectId) (query : gmap string string)
    (st : Store) :
  isolated caller (fun s => (getTransactions caller query s, s)) st.
Proof.
  unfold isolated. simpl. repeat split; [auto|].
  intros st2 H. unfold getTransactions, countDocuments.
  rewrite (find_owned_eq _ st st2); [reflexivity|].
  now rewrite listFilter_userId.
Qed.

Lemma getStatistics_isolated (caller : ObjectId) (query : gmap string string)
    (st : Store) :
  isolated caller (fun s => (getStatistics caller query s, s)) st.
Proof.
  unfold isolated. simpl. repeat split; [auto|].
  intros st2 H. unfold getStatistics, aggregate. cbv zeta.
  rewrite (filter_through_owned caller _ st2),
          (filter_through_owned caller _ st), H; [reflexivity| |];
    intros t Ht; unfold matches in Ht;
    repeat (apply andb_true_iff in Ht; destruct Ht as [Ht _]); exact Ht.
Qed.

Lemma findOne_owned_eq (id u : ObjectId) (st st2 : Store) :
  owned u st2 = owned u st -> findOne id u st2 = findOne id u st.
Proof.
  intros H. unfold findOne.
  rewrite (find_through_owned u _ st2), (find_through_owned u _ st), H;
    [reflexivity| |];
    intros t Ht; apply andb_true_iff in Ht; tauto.
Qed.

Lemma deleteTransaction_isolated (caller : ObjectId) (id : string) (st : Store) :
  isolated caller (deleteTransaction caller id) st.
Proof.
  unfold isolated, deleteTransaction.
  destruct (negb (isValidObjectId id)); simpl; [repeat split; auto|].
  repeat split.
  - unfold findOneAndDelete. destruct (List.find _ st); simpl; [|auto].
    intros x Hx. left. eapply In_removeFirst, Hx.
  - unfold findOneAndDelete. destruct (List.find _ st); simpl; [|auto].
    apply others_removeFirst. intros x Hx. apply andb_true_iff in Hx. tauto.
  - intros st2 H. pose proof (findOne_owned_eq (castObjectId id) caller st st2 H) as E.
    unfold findOne in E. unfold findOneAndDelete. rewrite E.
    destruct (List.find _ st); reflexivity.
Qed.

Lemma updateTransaction_isolated (caller : ObjectId) (id : string)
    (body : gmap string jsval) (st : Store) :
  List.NoDup (map _id st) -> isolated caller (updateTransaction caller id body) st.
Proof.
  intros Hnd. unfold isolated, updateTransaction.
  destruct (negb (isValidObjectId id)); simpl; [repeat split; auto|].
  destruct (findOne (castObjectId id) caller st) as [found|] eqn:Hf.
  2:{ repeat split; auto. intros st2 H.
      now rewrite (findOne_owned_eq _ _ st st2 H), Hf. }
  destruct (findOne_In _ _ _ _ Hf) as (Hin & Hid & Hu).
  destruct (updateFields body (hydrate found)) as [d|] eqn:Hd.
  2:{ repeat split; auto. intros st2 H.
      now rewrite (findOne_owned_eq _ _ st st2 H), Hf, Hd. }
  destruct (updateFields_keeps _ _ _ Hd) as (Hdu & Hdi & _). simpl in Hdu, Hdi.
  destruct (save_cases false d) as [(t & _ & Ht & Hs)|(es & Hs)].
  - apply toTransaction_inv in Ht. destruct Ht as (Htu & Hti & _).
    assert (userId t = caller) as Hown by congruence.
    assert (_id t = _id found) as Hsame by congruence.
    rewrite Hs. simpl. repeat split.
    + intros x Hx. apply In_replaceById in Hx. destruct Hx as [->|Hx]; auto.
    + now apply (others_replaceById caller t found).
    + intros st2 H.
      now rewrite (findOne_owned_eq _ _ st st2 H), Hf, Hd, Hs.
  - rewrite Hs. simpl. repeat split; auto. intros st2 H.
    now rewrite (findOne_owned_eq _ _ st st2 H), Hf, Hd, Hs.
Qed.

(** C1. Tenant isolation.  Whatever the request and its body (a [userId]
    key in it included), on a collection whose identifiers are unique:
    a create and a bulk create only append documents, and each of these
    persisted records carries the caller's [userId]; every document that any
    request adds or rewrites carries the caller's [userId]; the documents of
    all other users are left exactly as they were; and the response is the
    same on every collection that holds the same documents of the caller, so
    nothing of another user's is observed. *)
Theorem tenant_isolation (env : Env) (caller : ObjectId) (req : Request)
    (st : Store) :
  List.NoDup (map _id st) ->
  match req with
  | POST_ _ | POST_bulk _ =>
      exists persisted,
        snd (handle env caller req st) = st ++ persisted
        /\ Forall (fun t => userId t = caller) persisted
  | _ => True
  end
  /\ (forall t, In t (snd (handle env caller req st)) ->
                In t st \/ userId t = caller)
  /\ others caller (snd (handle env caller req st)) = others caller st
  /\ (forall st2, owned caller st2 = owned caller st ->
                  fst (handle env caller req st2)
                  = fst (handle env caller req st)).
Proof.
  intros Hnd. split.
  - destruct req as [query|body|id body|id|transactions|query]; simpl; auto.
    + destruct (create_appendsOwn (now env) (newId env 0%nat) caller body)
        as (r & ts & Hts & Hrun).
      exists ts. now rewrite Hrun.
    + destruct (bulk_appendsOwn (now env) (newId env) caller transactions)
        as (r & ts & Hts & Hrun).
      exists ts. now rewrite Hrun.
  - change (isolated caller (handle env caller req) st).
    destruct req as [query|body|id body|id|transactions|query]; simpl.
    + apply getTransactions_isolated.
    + apply appendsOwn_isolated, create_appendsOwn.
    + now apply updateTransaction_isolated.
    + apply deleteTransaction_isolated.
    + apply appendsOwn_isolated, bulk_appendsOwn.
    + apply getStatistics_isolated.
Qed.

(** ** Identifier resolution of update and delete *)

Lemma findOne_without (id u : ObjectId) (st : Store) :
  findOne id u (List.filter (fun r => negb (N.eqb (_id r) id)) st) = None.
Proof.
  apply findOne_None. intros t Hin Hid.
  apply List.filter_In in Hin. destruct Hin as [_ Hne].
  rewrite Hid, N.eqb_refl in Hne. discriminate.
Qed.

Lemma updateTransaction_notFound (caller : ObjectId) (id : string)
    (body : gmap string jsval) (st : Store) :
  isValidObjectId id = true -> findOne (castObjectId id) caller st = None ->
  updateTransaction caller id body st = (fail 404 "Transaction not found", st).
Proof.
  intros Hv Hf. unfold updateTransaction. now rewrite Hv, Hf.
Qed.

Lemma deleteTransaction_notFound (caller : ObjectId) (id : string) (st : Store) :
  isValidObjectId id = true -> findOne (castObjectId id) caller st = None ->
  deleteTransaction caller id st = (fail 404 "Transaction not found", st).
Proof.
  intros Hv Hf. unfold deleteTransaction, findOneAndDelete.
  unfold findOne in Hf. now rewrite Hv, Hf.
Qed.

(** C2. For update and delete alike: an identifier that is not well formed
    is answered 400 "Invalid transaction ID" whatever the collection holds,
    which is left as it was; a well-formed identifier under which the caller
    owns no document is answered 404 "Transaction not found", again without
    any change - in particular when the identifier names a document of
    another user - and that response is not a success and equals the one
    given when no document with that identifier exists at all. *)
Theorem update_delete_resolution (caller : ObjectId) (id : string)
    (body : gmap string jsval) (st : Store) :
  (isValidObjectId id = false ->
     updateTransaction caller id body st = (fail 400 "Invalid transaction ID", st)
     /\ deleteTransaction caller id st = (fail 400 "Invalid transaction ID", st))
  /\ (isValidObjectId id = true ->
      (forall t, In t st -> _id t = castObjectId id -> userId t <> caller) ->
      let absent := List.filter (fun r => negb (N.eqb (_id r) (castObjectId id))) st in
      updateTransaction caller id body st = (fail 404 "Transaction not found", st)
      /\ deleteTransaction caller id st = (fail 404 "Transaction not found", st)
      /\ success (fst (updateTransaction caller id body st)) = false
      /\ success (fst (deleteTransaction caller id st)) = false
      /\ fst (updateTransaction caller id body st)
         = fst (updateTransaction caller id body absent)
      /\ fst (deleteTransaction caller id st)
         = fst (deleteTransaction caller id absent)).
Proof.
  split.
  - intros Hv. unfold updateTransaction, deleteTransaction. now rewrite Hv.
  - intros Hv Hnone absent.
    pose proof (findOne_None _ _ _ Hnone) as Hf.
    pose proof (findOne_without (castObjectId id) caller st) as Hf'.
    rewrite (updateTransaction_notFound _ _ _ st Hv Hf),
            (deleteTransaction_notFound _ _ st Hv Hf).
    unfold absent.
    rewrite (updateTransaction_notFound _ _ _ _ Hv Hf'),
            (deleteTransaction_notFound _ _ _ Hv Hf').
    repeat split; reflexivity.
Qed.

(** ** The date condition of a list request *)

Lemma find_In (f : Filter) (st found : Store) (r : option (Z * Z)) :
  castRange (f_date f) = Some r -> find f st = Some found ->
  forall t, In t found <->
            In t st /\ userId t = f_userId f
            /\ eqOpt (f_type f) (type t) = true
            /\ eqOpt (f_category f) (category t) = true
            /\ inRange r (date t) = true.
Proof.
  intros Hr Hf t. unfold find in Hf. rewrite Hr in Hf. injection Hf as <-.
  rewrite List.filter_In. unfold matches.
  rewrite !andb_true_iff, N.eqb_eq. tauto.
Qed.

Lemma listFilter_date (caller : ObjectId) (query : gmap string string) :
  f_date (listFilter caller query)
  = let startDate := param query "startDate" in
    let endDate := param query "endDate" in
    let month := param query "month" in
    let year := param query "year" in
    if truthy startDate && truthy endDate then
      Some (newDate startDate, newDate endDate)
    else if truthy month && truthy year then
      Some (newDateYMD (ToNumber year) (num_pred (ToNumber month)) (ofZ 1),
            newDateYMD (ToNumber year) (ToNumber month) (ofZ 0))
    else if truthy year then
      Some (newDateYMD (ToNumber year) (ofZ 0) (ofZ 1),
            newDateYMD (ToNumber year) (ofZ 11) (ofZ 31))
    else None.
Proof.
  unfold listFilter. simpl.
  destruct (truthy (param query "startDate") && truthy (param query "endDate"));
    [reflexivity|].
  destruct (truthy (param query "month") && truthy (param query "year"));
    [reflexivity|].
  destruct (truthy (param query "year")); reflexivity.
Qed.

(** The order of the cases.  The date condition of a list request is chosen
    by the first of four cases that applies, a parameter counting as present
    when it is given and not empty.  (1) With startDate and endDate the condition is
    the closed range from the one date to the other: a document is found
    exactly when its date lies in it (and it meets the other conditions),
    and the condition is the same for every other request with these two
    parameters, so month and year play no part.  (2) Otherwise, with month
    and year, it runs from the first day of that month to the Date built
    for its last day.  (3) Otherwise, with year, from January 1 to the Date
    built for December 31.  (4) Otherwise there is no date condition. *)
Lemma date_filter_precedence (caller : ObjectId) (query : gmap string string) :
  let present := fun k => truthy (param query k) in
  let f := listFilter caller query in
  let year := ToNumber (param query "year") in
  let month := ToNumber (param query "month") in
  (present "startDate" && present "endDate" = true ->
     f_date f = Some (newDate (param query "startDate"),
                      newDate (param query "endDate"))
     /\ (forall query',
           query' !! "startDate" = query !! "startDate" ->
           query' !! "endDate" = query !! "endDate" ->
           f_date (listFilter caller query') = f_date f)
     /\ (forall lo hi st found,
           newDate (param query "startDate") = Some lo ->
           newDate (param query "endDate") = Some hi ->
           find f st = Some found ->
           forall t, In t found <->
                     In t st /\ userId t = caller
                     /\ eqOpt (f_type f) (type t) = true
                     /\ eqOpt (f_category f) (category t) = true
                     /\ lo <= date t <= hi))
  /\ (present "startDate" && present "endDate" = false ->
      present "month" && present "year" = true ->
      f_date f = Some (newDateYMD year (num_pred month) (ofZ 1),
                       newDateYMD year month (ofZ 0)))
  /\ (present "startDate" && present "endDate" = false ->
      present "month" && present "year" = false ->
      present "year" = true ->
      f_date f = Some (newDateYMD year (ofZ 0) (ofZ 1),
                       newDateYMD year (ofZ 11) (ofZ 31)))
  /\ (present "startDate" && present "endDate" = false ->
      present "month" && present "year" = false ->
      present "year" = false ->
      f_date f = None).
Proof.
  intros present f year month. subst present f year month. cbv beta.
  pose proof (listFilter_date caller query) as Hd. cbv zeta in Hd.
  split; [|split; [|split]].
  - intros Hp. rewrite Hp in Hd. split; [exact Hd|]. split.
    + intros query' Hs He. rewrite listFilter_date. cbv zeta.
      unfold param in *. rewrite Hs, He, Hp, Hd. reflexivity.
    + intros lo hi st found Hlo Hhi Hf t.
      rewrite Hlo, Hhi in Hd.
      rewrite (find_In _ st found (Some (lo, hi)) ltac:(now rewrite Hd) Hf t).
      rewrite listFilter_userId. simpl.
      rewrite andb_true_iff, !Z.leb_le. tauto.
  - intros H1 H2. now rewrite H1, H2 in Hd.
  - intros H1 H2 H3. now rewrite H1, H2, H3 in Hd.
  - intros H1 H2 H3. now rewrite H1, H2, H3 in Hd.
Qed.

(** ** Sorting and the page window *)

Lemma notAfter_total (a b : Transaction) :
  notAfter a b = false -> notAfter b a = true.
Proof.
  unfold notAfter. intros H.
  apply orb_false_iff in H. destruct H as [H1 H2].
  apply Z.ltb_ge in H1.
  destruct (Z.eq_dec (date a) (date b)) as [E|E].
  - rewrite E, Z.eqb_refl in H2. simpl in H2. apply Z.leb_gt in H2.
    rewrite E, Z.eqb_refl, Z.ltb_irrefl. simpl. apply Z.leb_le. lia.
  - assert ((date a <? date b) = true) as -> by (apply Z.ltb_lt; lia).
    reflexivity.
Qed.

Lemma insertSorted_perm (a : Transaction) (l : list Transaction) :
  Permutation (insertSorted a l) (a :: l).
Proof.
  induction l as [|b l IH]; simpl; [reflexivity|].
  destruct (notAfter a b); [reflexivity|].
  rewrite IH. apply perm_swap.
Qed.

Lemma insertSorted_descending (a : Transaction) (l : list Transaction) :
  descending l -> descending (insertSorted a l).
Proof.
  unfold descending. induction l as [|b l IH]; intros Hl; simpl.
  - repeat constructor.
  - destruct (notAfter a b) eqn:Hab.
    + constructor; [exact Hl|]. constructor. exact Hab.
    + inversion Hl as [|x y Hs Hh]; subst.
      constructor; [now apply IH|].
      destruct l as [|c l]; simpl.
      * constructor. now apply notAfter_total.
      * destruct (notAfter a c); constructor;
          [now apply notAfter_total | now inversion Hh].
Qed.

Lemma sortDesc_perm (l : list Transaction) : Permutation (sortDesc l) l.
Proof.
  induction l as [|a l IH]; simpl; [reflexivity|].
  rewrite insertSorted_perm. now constructor.
Qed.

Lemma sortDesc_descending (l : list Transaction) : descending (sortDesc l).
Proof.
  induction l as [|a l IH]; simpl; [constructor|].
  now apply insertSorted_descending.
Qed.

Lemma ceilDiv_bounds (n : nat) (l : Z) :
  1 <= l ->
  let pages := - ((- Z.of_nat n) / l) in
  ceilDiv n l = ofZ pages /\ (pages - 1) * l < Z.of_nat n <= pages * l.
Proof.
  intros Hl pages. split.
  - unfold ceilDiv. destruct (Z.eqb_spec l 0); [lia|reflexivity].
  - subst pages.
    pose proof (Z.div_mod (- Z.of_nat n) l ltac:(lia)) as Hd.
    pose proof (Z.mod_pos_bound (- Z.of_nat n) l ltac:(lia)) as Hm.
    nia.
Qed.

(** C7. A list request whose page [p] and limit [l] (1 and 10 when the
    parameter is missing) are at least 1 answers with the window of the
    sorted matching documents that starts at offset [(p-1)*l] and holds at
    most [l] of them, and reports the number of all matching documents as
    totalTransactions and the least number of pages of [l] that holds them
    as totalPages.  With 25 matches and limit 10 there are 3 pages, and page
    3 holds the remaining 5 documents. *)
Theorem pagination_window (caller : ObjectId) (query : gmap string string)
    (st found : Store) (p l : Z) :
  parseIntOr 1 (query !! "page") = Some p ->
  parseIntOr 10 (query !! "limit") = Some l ->
  1 <= p -> 1 <= l ->
  find (listFilter caller query) st = Some found ->
  let sorted := sortDesc found in
  let transactions :=
    firstn (Z.to_nat l) (skipn (Z.to_nat ((p - 1) * l)) sorted) in
  exists pages : Z,
    getTransactions caller query st
    = ok 200 None
        (Page transactions
           {| currentPage := p; totalPages := ofZ pages;
              totalTransactions := length found; limit := l |})
    /\ (pages - 1) * l < Z.of_nat (length found) <= pages * l
    /\ Z.of_nat (length transactions) <= l
    /\ Permutation sorted found /\ descending sorted
    /\ (query !! "page" = None -> p = 1)
    /\ (query !! "limit" = None -> l = 10)
    /\ (length found = 25%nat -> l = 10 ->
        pages = 3 /\ (p = 3 -> length transactions = 5%nat)).
Proof.
  intros Hp Hl Hp1 Hl1 Hf sorted transactions.
  destruct (ceilDiv_bounds (length found) l Hl1) as [Hc Hb].
  exists (- ((- Z.of_nat (length found)) / l)).
  assert (length sorted = length found) as Hlen
    by (apply Permutation_length, sortDesc_perm).
  assert (length transactions
          = Nat.min (Z.to_nat l) (length found - Z.to_nat ((p - 1) * l))) as Hw.
  { unfold transactions. now rewrite length_firstn, length_skipn, Hlen. }
  split; [|split; [exact Hb|split; [|split; [|split; [|split; [|split]]]]]].
  - unfold getTransactions, countDocuments, window. rewrite Hp, Hl, Hf.
    destruct (Z.ltb_spec ((p - 1) * l) 0); [nia|].
    destruct (Z.eqb_spec l 0); [lia|].
    rewrite Z.abs_eq by lia. rewrite Hc. reflexivity.
  - rewrite Hw. lia.
  - apply sortDesc_perm.
  - apply sortDesc_descending.
  - intros Hq. rewrite Hq in Hp. simpl in Hp. congruence.
  - intros Hq. rewrite Hq in Hl. simpl in Hl. congruence.
  - intros H25 H10. rewrite H25 in *. subst l. split.
    + reflexivity.
    + intros ->. rewrite Hw. reflexivity.
Qed.

(** ** Grouping and the statistics *)

Lemma bucketAdd_same (k : string) (t : Transaction) (bs : list Bucket) :
  type t = k ->
  exists b, List.find (fun b => String.eqb (b_id b) k) (bucketAdd t bs) = Some b
    /\ b_amounts b
       = match List.find (fun b => String.eqb (b_id b) k) bs with
         | Some b0 => b_amounts b0 ++ [amount t]
         | None => [amount t]
         end.
Proof.
  intros <-. induction bs as [|b0 bs IH]; simpl.
  - rewrite String.eqb_refl. eexists. split; reflexivity.
  - destruct (String.eqb (b_id b0) (type t)) eqn:E; simpl; rewrite E.
    + eexists. split; reflexivity.
    + exact IH.
Qed.

Lemma bucketAdd_other (k : string) (t : Transaction) (bs : list Bucket) :
  type t <> k ->
  List.find (fun b => String.eqb (b_id b) k) (bucketAdd t bs)
  = List.find (fun b => String.eqb (b_id b) k) bs.
Proof.
  intros Hne. induction bs as [|b bs IH]; simpl.
  - destruct (String.eqb_spec (type t) k); [contradiction|reflexivity].
  - destruct (String.eqb_spec (b_id b) (type t)) as [E|E]; simpl.
    + destruct (String.eqb_spec (b_id b) k); [congruence|reflexivity].
    + now rewrite IH.
Qed.

Lemma bucketAdd_ids (t : Transaction) (bs : list Bucket) :
  List.NoDup (map b_id bs) -> List.NoDup (map b_id (bucketAdd t bs)).
Proof.
  assert (forall bs, forall x, In x (map b_id (bucketAdd t bs)) ->
                               x = type t \/ In x (map b_id bs)) as Hin.
  { clear bs. induction bs as [|b bs IH]; simpl; intros x Hx.
    - destruct Hx as [<-|[]]. now left.
    - destruct (String.eqb (b_id b) (type t)); simpl in Hx |- *; [tauto|].
      destruct Hx as [Hx|Hx]; [tauto|]. destruct (IH x Hx); tauto. }
  induction bs as [|b bs IH]; simpl; intros Hnd.
  - repeat constructor. intros [].
  - inversion Hnd as [|x l Hnot Hnd']; subst.
    destruct (String.eqb_spec (b_id b) (type t)) as [E|E]; simpl.
    + now constructor.
    + constructor; [|now apply IH].
      intros Hx. destruct (Hin bs _ Hx); [congruence|contradiction].
Qed.

(** The bucket of a type collects the amounts of the documents of that
    type, in their order, whatever the other documents are. *)
Lemma buckets_from (k : string) (l : list Transaction) (bs : list Bucket) :
  let find := List.find (fun b => String.eqb (b_id b) k) in
  let bs' := fold_left (fun bs t => bucketAdd t bs) l bs in
  (ofType k l = [] -> find bs' = find bs)
  /\ (ofType k l <> [] ->
      exists b, find bs' = Some b
        /\ b_amounts b
           = match find bs with Some b0 => b_amounts b0 | None => [] end
             ++ map amount (ofType k l))
  /\ (List.NoDup (map b_id bs) -> List.NoDup (map b_id bs')).
Proof.
  cbv zeta. unfold ofType. revert bs.
  induction l as [|t l IH]; intros bs; simpl.
  - split; [reflexivity|]. split; [contradiction|auto].
  - destruct (IH (bucketAdd t bs)) as (IHn & IHs & IHd).
    destruct (String.eqb_spec (type t) k) as [E|E].
    + destruct (bucketAdd_same k t bs E) as (b1 & Hb1 & Ha1).
      split; [discriminate|]. split.
      * intros _. destruct (List.filter _ l) as [|x rest] eqn:Hof.
        -- rewrite (IHn eq_refl). exists b1. split; [exact Hb1|].
           rewrite Ha1. simpl.
           destruct (List.find _ bs); reflexivity.
        -- destruct (IHs ltac:(discriminate)) as (b2 & Hb2 & Ha2).
           exists b2. split; [exact Hb2|]. rewrite Ha2, Hb1, Ha1. simpl.
           destruct (List.find _ bs); [rewrite <- app_assoc|]; reflexivity.
      * intros Hnd. now apply IHd, bucketAdd_ids.
    + rewrite (bucketAdd_other k t bs E) in IHn, IHs.
      split; [exact IHn|]. split; [exact IHs|].
      intros Hnd. now apply IHd, bucketAdd_ids.
Qed.

Lemma find_closeBucket (k : string) (bs : list Bucket) :
  lookupGroup k (map closeBucket bs)
  = option_map closeBucket (List.find (fun b => String.eqb (b_id b) k) bs).
Proof.
  unfold lookupGroup. induction bs as [|b bs IH]; simpl; [reflexivity|].
  destruct (String.eqb (b_id b) k); [reflexivity|exact IH].
Qed.

(** The group of a type after the grouping stage. *)
Lemma groupByType_of (k : string) (docs : list Transaction) :
  totalOf k (groupByType docs) = totalOfDocs (ofType k docs)
  /\ countOf k (groupByType docs) = length (ofType k docs)
  /\ List.NoDup (map g_id (groupByType docs)).
Proof.
  unfold groupByType, totalOf, countOf. rewrite find_closeBucket.
  destruct (buckets_from k docs []) as (Hn & Hs & Hd). simpl in Hn, Hs.
  split; [|split].
  - destruct (ofType k docs) as [|x rest] eqn:Hof.
    + rewrite (Hn eq_refl). reflexivity.
    + destruct (Hs ltac:(discriminate)) as (b & -> & Hb). simpl.
      now rewrite Hb.
  - destruct (ofType k docs) as [|x rest] eqn:Hof.
    + rewrite (Hn eq_refl). reflexivity.
    + destruct (Hs ltac:(discriminate)) as (b & -> & Hb). simpl.
      now rewrite Hb, length_map.
  - rewrite map_map. simpl. apply Hd. constructor.
Qed.

(** The loop over the groups copies the income group and the expense group,
    when there is one, and leaves the zeros otherwise. *)
Lemma formatStatistics_lookup (gs : list Group) :
  List.NoDup (map g_id gs) ->
  let s := formatStatistics gs in
  totalIncome s = totalOf "income" gs /\ incomeCount s = countOf "income" gs
  /\ totalExpense s = totalOf "expense" gs
  /\ expenseCount s = countOf "expense" gs
  /\ netAmount s = num_sub (totalIncome s) (totalExpense s).
Proof.
  intros Hnd. unfold formatStatistics. cbv zeta. simpl.
  set (step := fun (result : Statistics) (stat : Group) => _).
  set (zero := {| totalIncome := 0; totalExpense := 0; incomeCount := 0;
                  expenseCount := 0; netAmount := 0 |}).
  assert (forall r0,
    let r := fold_left step gs r0 in
    totalIncome r = match lookupGroup "income" gs with
                    | Some g => total g | None => totalIncome r0 end
    /\ incomeCount r = match lookupGroup "income" gs with
                       | Some g => count g | None => incomeCount r0 end
    /\ totalExpense r = match lookupGroup "expense" gs with
                        | Some g => total g | None => totalExpense r0 end
    /\ expenseCount r = match lookupGroup "expense" gs with
                        | Some g => count g | None => expenseCount r0 end) as H.
  { clear zero. induction gs as [|g gs IH]; intros r0; simpl; [auto|].
    inversion Hnd as [|x l Hnot Hnd']; subst.
    assert (forall k, g_id g = k -> lookupGroup k gs = None) as Hfresh.
    { intros k <-. unfold lookupGroup.
      destruct (List.find _ gs) as [g'|] eqn:E; [|reflexivity].
      apply List.find_some in E. destruct E as [Hin Heq].
      apply String.eqb_eq in Heq. exfalso. apply Hnot.
      rewrite <- Heq. now apply in_map. }
    specialize (IH Hnd' (step r0 g)). simpl in IH.
    destruct IH as (I1 & I2 & I3 & I4).
    unfold lookupGroup in *. simpl.
    rewrite I1, I2, I3, I4. unfold step.
    destruct (String.eqb_spec (g_id g) "income") as [E|E].
    - rewrite (Hfresh _ E).
      destruct (String.eqb_spec (g_id g) "expense"); [congruence|].
      simpl. auto.
    - destruct (String.eqb_spec (g_id g) "expense") as [E'|E'].
      + rewrite (Hfresh _ E'). simpl. auto.
      + auto. }
  specialize (H zero). simpl in H. destruct H as (H1 & H2 & H3 & H4).
  unfold totalOf, countOf. rewrite H1, H2, H3, H4.
  repeat split.
Qed.

Lemma matches_inScope (caller : ObjectId) (r : option (Z * Z)) (st : Store) :
  List.filter (matches caller None None r) st = inScope caller r st.
Proof.
  unfold inScope. apply List.filter_ext. intros t. unfold matches. simpl.
  now rewrite !andb_true_r.
Qed.

(** The totals and counts of a statistics result in terms of the documents
    in its scope. *)
Lemma statistics_of_scope (docs : list Transaction) :
  let s := formatStatistics (groupByType docs) in
  netAmount s = num_sub (totalIncome s) (totalExpense s)
  /\ totalIncome s = totalOfDocs (ofType "income" docs)
  /\ incomeCount s = length (ofType "income" docs)
  /\ totalExpense s = totalOfDocs (ofType "expense" docs)
  /\ expenseCount s = length (ofType "expense" docs).
Proof.
  destruct (groupByType_of "income" docs) as (It & Ic & Hnd).
  destruct (groupByType_of "expense" docs) as (Et & Ec & _).
  destruct (formatStatistics_lookup _ Hnd) as (H1 & H2 & H3 & H4 & H5).
  cbv zeta. split; [exact H5|].
  split; [rewrite H1, It; reflexivity|].
  split; [rewrite H2, Ic; reflexivity|].
  split; [rewrite H3, Et; reflexivity|].
  rewrite H4, Ec. reflexivity.
Qed.

(** *** Sums that need no rounding *)




















(** ** Bulk creation *)

Lemma validate_nil (d : Document) :
  validate d = [] -> exists t, toTransaction d = Some t.
Proof.
  unfold validate, toTransaction. intros H.
  repeat (apply app_eq_nil in H; destruct H as [? H]).
  destruct (doc_userId d); try discriminate.
  destruct (doc_date d); try discriminate.
  destruct (doc_description d); try discriminate.
  destruct (doc_category d); try discriminate.
  destruct (doc_type d); try discriminate.
  destruct (doc_amount d) as [| |[q| | |]]; try discriminate.
  eexists. reflexivity.
Qed.

Lemma validate_id (now : Z) (id id' : ObjectId) (obj : gmap string jsval) :
  validate (newTransaction now id obj) = validate (newTransaction now id' obj).
Proof. reflexivity. Qed.

Lemma insertEach_spec (now : Z) (newId : nat -> ObjectId) (caller : ObjectId)
    (rows : list (gmap string jsval)) :
  forall i,
    let '(good, bad) := insertEach now newId i (map (withUser now caller) rows) in
    Forall2 (isDocumentOf now caller) (List.filter (validRow now caller) rows) good
    /\ map index bad = invalidPositions now caller i rows
    /\ Forall (fun e => errs e <> []) bad.
Proof.
  induction rows as [|row rows IH]; intros i; simpl.
  - repeat split; constructor.
  - specialize (IH (S i)).
    destruct (insertEach now newId (S i) (map (withUser now caller) rows))
      as [good bad].
    destruct IH as (IH1 & IH2 & IH3).
    unfold validRow.
    rewrite (validate_id now 0%N (newId i)).
    destruct (validate (newTransaction now (newId i) (withUser now caller row)))
      as [|e es] eqn:Hv.
    + destruct (validate_nil _ Hv) as [t Ht]. rewrite Ht.
      split; [|split; [exact IH2|exact IH3]].
      constructor; [|exact IH1]. now exists (newId i).
    + split; [exact IH1|]. split.
      * simpl. now rewrite IH2.
      * constructor; [discriminate|exact IH3].
Qed.

Lemma amount_below_minimum (now : Z) (caller : ObjectId)
    (row : gmap string jsval) (q : Q) :
  row !! "amount" = Some (JNum (Fin q)) -> (q < 1 # 100)%Q ->
  validRow now caller row = false.
Proof.
  intros Ha Hq. unfold validRow.
  destruct (validate _) as [|e es] eqn:Hv; [|reflexivity].
  exfalso. unfold validate in Hv.
  repeat (apply app_eq_nil in Hv; destruct Hv as [? Hv]).
  cbn [newTransaction doc_amount] in Hv. unfold withUser in Hv.
  rewrite lookup_insert_eq, Ha in Hv. simpl in Hv.
  destruct (Qle_bool (1 # 100) q) eqn:E; [|discriminate].
  apply Qle_bool_iff in E. apply Qlt_not_le in Hq. contradiction.
Qed.

Lemma mapWithUser_objects (now : Z) (caller : ObjectId)
    (objs : list (gmap string jsval)) :
  mapWithUser now caller (map RowObject objs)
  = Some (map (withUser now caller) objs).
Proof.
  induction objs as [|o objs IH]; simpl; [reflexivity|]. now rewrite IH.
Qed.

Lemma mapWithUser_null (now : Z) (caller : ObjectId) (rows : list Row) :
  In RowNull rows -> mapWithUser now caller rows = None.
Proof.
  induction rows as [|[|o] rows IH]; simpl; intros H.
  - destruct H.
  - reflexivity.
  - destruct H as [H|H]; [discriminate|]. now rewrite (IH H).
Qed.

(** What a bulk create does.  Without an array, or with an empty one, it
    answers 400 and stores nothing; a null element makes it answer 500 and
    store nothing.  Otherwise every row that passes the schema is stored,
    in order, and the answer is 201 with the stored documents, whether or
    not other rows failed: the response never has status 207. *)
Lemma bulk_outcome (now : Z) (newId : nat -> ObjectId)
    (caller : ObjectId) (transactions : option (list Row)) (st : Store) :
  let run := bulkCreateTransactions now newId caller transactions st in
  (transactions = None \/ transactions = Some [] ->
     run = (fail 400 "Please provide an array of transactions", st))
  /\ (forall rows, transactions = Some rows -> In RowNull rows ->
      run = (fail 500 "Server error while creating transactions", st))
  /\ (forall objs, transactions = Some (map RowObject objs) -> objs <> [] ->
      exists stored,
        run = (ok 201 (Some (pretty (length stored)
                             +:+ " transactions created successfully"))
                 (Created stored), st ++ stored)
        /\ Forall2 (isDocumentOf now caller)
             (List.filter (validRow now caller) objs) stored)
  /\ status (fst run) <> 207%nat.
Proof.
  intros run. split; [|split; [|split]].
  - intros [-> | ->]; reflexivity.
  - intros rows -> Hnull. subst run. unfold bulkCreateTransactions.
    destruct rows as [|row rows]; [destruct Hnull|].
    now rewrite (mapWithUser_null now caller _ Hnull).
  - intros objs -> Hne. subst run. unfold bulkCreateTransactions.
    destruct objs as [|o objs]; [contradiction|].
    change (RowObject o :: map RowObject objs) with (map RowObject (o :: objs)).
    cbn [map]. fold (map RowObject objs).
    change (RowObject o :: map RowObject objs) with (map RowObject (o :: objs)).
    rewrite mapWithUser_objects. unfold insertMany.
    pose proof (insertEach_spec now newId caller (o :: objs) 0) as Hspec.
    destruct (insertEach now newId 0 (map (withUser now caller) (o :: objs)))
      as [good bad].
    destruct Hspec as (H1 & _). exists good. split; [reflexivity|exact H1].
  - subst run. unfold bulkCreateTransactions.
    destruct transactions as [[|row rows]|]; try (simpl; discriminate).
    destruct (mapWithUser now caller (row :: rows)); [|simpl; discriminate].
    unfold insertMany. destruct (insertEach _ _ _ _). simpl. discriminate.
Qed.

(** ** Validation errors and their paths *)

Lemma validate_amount_errors (d : Document) (e : ValidatorError) :
  In e (validate d) -> errorPath e = "amount" ->
  In e (validateRequired "amount" (doc_amount d) amountRules).
Proof.
  unfold validate. rewrite !in_app_iff.
  intros [H|[H|[H|[H|[H|H]]]]] Hp; [exfalso ..|exact H].
  - destruct (doc_userId d); simpl in H; destruct H as [<-|[]] || destruct H;
      discriminate.
  - destruct (doc_date d); simpl in H; destruct H as [<-|[]] || destruct H;
      discriminate.
  - destruct (doc_description d) as [| |x]; simpl in H;
      [destruct H as [<-|[]]; discriminate ..|].
    unfold descriptionRules in H.
    destruct (String.eqb x ""); [destruct H as [<-|[]]; discriminate|].
    destruct (200 <? String.length x)%nat; [destruct H as [<-|[]]; discriminate|].
    destruct H.
  - destruct (doc_category d) as [| |x]; simpl in H;
      [destruct H as [<-|[]]; discriminate ..|].
    unfold enumRules in H.
    destruct (String.eqb x ""); [destruct H as [<-|[]]; discriminate|].
    destruct (inList x categories); [destruct H|].
    destruct H as [<-|[]]; discriminate.
  - destruct (doc_type d) as [| |x]; simpl in H;
      [destruct H as [<-|[]]; discriminate ..|].
    unfold enumRules in H.
    destruct (String.eqb x ""); [destruct H as [<-|[]]; discriminate|].
    destruct (inList x types); [destruct H|].
    destruct H as [<-|[]]; discriminate.
Qed.

Lemma amountRules_path (n : num) (e : ValidatorError) :
  In e (amountRules n) -> errorPath e = "amount".
Proof.
  unfold amountRules. destruct n as [q| | |]; simpl.
  - destruct (Qle_bool (1 # 100) q); simpl; [|intros [<-|[]]; reflexivity].
    destruct (Qle_bool q 0); simpl; [intros [<-|[]]; reflexivity|intros []].
  - intros [<-|[]]; reflexivity.
  - intros [<-|[]]; reflexivity.
  - intros [<-|[]]; reflexivity.
Qed.

Lemma In_validate_amount (d : Document) (e : ValidatorError) :
  In e (validateRequired "amount" (doc_amount d) amountRules) -> In e (validate d).
Proof. unfold validate. rewrite !in_app_iff. tauto. Qed.

Lemma In_validate_description (d : Document) (e : ValidatorError) :
  In e (validateRequired "description" (doc_description d) descriptionRules) ->
  In e (validate d).
Proof. unfold validate. rewrite !in_app_iff. tauto. Qed.

Lemma In_validate_category (d : Document) (e : ValidatorError) :
  In e (validateRequired "category" (doc_category d)
          (enumRules "category" categories)) ->
  In e (validate d).
Proof. unfold validate. rewrite !in_app_iff. tauto. Qed.

Lemma save_invalid (isNew : bool) (d : Document) (st : Store) (e : ValidatorError) :
  In e (validate d) -> save isNew d st = ValidationError (validate d).
Proof.
  intros Hin. unfold save. destruct (validate d); [destruct Hin|reflexivity].
Qed.

Lemma inList_In (x : string) (l : list string) : inList x l = true -> In x l.
Proof.
  unfold inList. intros H. apply existsb_exists in H.
  destruct H as (y & Hin & Heq). apply String.eqb_eq in Heq. now subst.
Qed.

(** A document that passes validation satisfies the field rules of the
    schema. *)
Lemma validate_nil_fields (d : Document) (t : Transaction) :
  validate d = [] -> toTransaction d = Some t ->
  (1 # 100 <= amount t)%Q /\ description t <> ""
  /\ (String.length (description t) <= 200)%nat
  /\ In (category t) categories /\ In (type t) types.
Proof.
  intros Hv Ht. apply toTransaction_inv in Ht.
  destruct Ht as (_ & _ & _ & Hd & Hc & Hty & Ha & _).
  unfold validate in Hv.
  repeat (apply app_eq_nil in Hv; destruct Hv as [? Hv]).
  rewrite Hd in *. rewrite Hc in *. rewrite Hty in *. rewrite Ha in *.
  simpl in *.
  repeat split.
  - destruct (Qle_bool (1 # 100) (amount t)) eqn:E; [|discriminate].
    now apply Qle_bool_iff.
  - unfold descriptionRules in *.
    destruct (String.eqb_spec (description t) ""); [discriminate|assumption].
  - unfold descriptionRules in *.
    destruct (String.eqb (description t) ""); [discriminate|].
    destruct (Nat.ltb_spec 200 (String.length (description t)));
      [discriminate|lia].
  - unfold enumRules in *.
    destruct (String.eqb (category t) ""); [discriminate|].
    destruct (inList (category t) categories) eqn:E; [|discriminate].
    exact (inList_In _ categories E).
  - unfold enumRules in *.
    destruct (String.eqb (type t) ""); [discriminate|].
    destruct (inList (type t) types) eqn:E; [|discriminate].
    exact (inList_In _ types E).
Qed.

(** ** The amount of a create request *)

Lemma isIncomeOrExpense_truthy (v : option jsval) :
  isIncomeOrExpense v = true -> truthy v = true.
Proof.
  destruct v as [[| | |x| |]|]; simpl; try discriminate.
  intros H. apply orb_true_iff in H.
  destruct H as [H|H]; apply String.eqb_eq in H; subst; reflexivity.
Qed.

Lemma truthy_string (s : string) : s <> "" -> truthy (Some (JStr s)) = true.
Proof.
  intros H. simpl. destruct (String.eqb_spec s ""); [contradiction|reflexivity].
Qed.

Lemma castNumber_num (n : num) :
  truthy (Some (JNum n)) = true -> castNumber (Some (JNum n)) = Val n.
Proof. destruct n; simpl; [reflexivity ..|discriminate]. Qed.

Lemma amountRules_nil (n : num) :
  amountRules n = [] ->
  truthy (Some (JNum n)) = true /\ num_le0 n = false.
Proof.
  destruct n as [q| | |]; simpl; try discriminate.
  destruct (Qle_bool (1 # 100) q) eqn:E; simpl; [|discriminate].
  intros _. apply Qle_bool_iff in E.
  assert (0 < q)%Q as Hq.
  { eapply Qlt_le_trans; [|exact E]. reflexivity. }
  split.
  - destruct (Qeq_bool q 0) eqn:E0; [|reflexivity].
    apply Qeq_bool_iff in E0. rewrite E0 in Hq. now apply Qlt_irrefl in Hq.
  - destruct (Qle_bool q 0) eqn:E0; [|reflexivity].
    apply Qle_bool_iff in E0. now apply Qlt_not_le in Hq.
Qed.

(** The amount of a create, as the code has it.  Take a create request
    whose description is a non-empty string, whose category is present and
    whose type is income or expense, and whose amount is a number.  A falsy amount (0, NaN) is
    answered 400 with the required-fields message, which is not the amount
    rule.  A truthy amount that is not above 0 (such as -1) is answered 400
    "Amount must be greater than 0".  A positive amount that the schema
    rejects (infinite, or below 0.01) is answered 400 "Validation error"
    with an error for the amount path.  In these three cases nothing is
    stored.  An amount the schema accepts (0.01 and above) never produces
    an amount error. *)
Lemma create_amount_rules (now : Z) (newId caller : ObjectId)
    (body : gmap string jsval) (st : Store) (s : string) (n : num) :
  body !! "description" = Some (JStr s) -> s <> "" ->
  truthy (body !! "category") = true ->
  isIncomeOrExpense (body !! "type") = true ->
  body !! "amount" = Some (JNum n) ->
  let run := createTransaction now newId caller body st in
  (truthy (Some (JNum n)) = false ->
     run = (fail 400 missingFieldMessage, st) /\ ~ InvalidAmount (fst run))
  /\ (truthy (Some (JNum n)) = true -> num_le0 n = true ->
      run = (fail 400 amountMessage, st) /\ InvalidAmount (fst run))
  /\ (truthy (Some (JNum n)) = true -> num_le0 n = false ->
      amountRules n <> [] ->
      InvalidAmount (fst run) /\ snd run = st
      /\ message (fst run) = Some "Validation error")
  /\ (amountRules n = [] -> ~ InvalidAmount (fst run)).
Proof.
  intros Hd Hs Hc Hty Ha run. subst run. unfold createTransaction.
  rewrite Hd, Ha, (truthy_string s Hs), Hc, (isIncomeOrExpense_truthy _ Hty), Hty.
  cbn [negb orb].
  change (ToNumber (Some (JNum n))) with n.
  change (parseFloat (Some (JNum n))) with n.
  match goal with
  | |- context [save true ?d st] => set (doc := d)
  end.
  assert (truthy (Some (JNum n)) = true ->
          validateRequired "amount" (doc_amount doc) amountRules = amountRules n)
    as Hrules.
  { intros Htr. subst doc. cbn [newTransaction doc_amount].
    rewrite lookup_field_eq, (castNumber_num n Htr). reflexivity. }
  split; [|split; [|split]].
  - intros Hf. rewrite Hf. simpl. split; [reflexivity|].
    intros [_ [Hm|(e & [] & _)]]. cbv in Hm. discriminate.
  - intros Htr Hle. rewrite Htr, Hle. simpl. split; [reflexivity|].
    split; [reflexivity|now left].
  - intros Htr Hle Hne. rewrite Htr, Hle. cbn [negb].
    destruct (amountRules n) as [|e es] eqn:Hr; [contradiction|].
    assert (In e (validate doc)) as Hin.
    { apply In_validate_amount. rewrite (Hrules Htr). now left. }
    rewrite (save_invalid true doc st e Hin). simpl.
    split; [|split; reflexivity].
    split; [reflexivity|]. right. exists e. split; [exact Hin|].
    apply (amountRules_path n). rewrite Hr. now left.
  - intros Hnil. destruct (amountRules_nil n Hnil) as [Htr Hle].
    rewrite Htr, Hle. cbn [negb].
    destruct (save_cases true doc) as [(t & _ & _ & Hsave)|(es & Hsave)];
      rewrite Hsave; simpl.
    + intros [Hst _]. discriminate.
    + intros [_ [Hm|(e & Hin & Hp)]]; [cbv in Hm; discriminate|].
      simpl in Hin.
      assert (es = validate doc) as ->.
      { specialize (Hsave st). unfold save in Hsave.
        destruct (validate doc);
          [destruct (toTransaction doc); [discriminate|congruence]|congruence]. }
      apply validate_amount_errors in Hin; [|exact Hp].
      rewrite (Hrules Htr), Hnil in Hin. destruct Hin.
Qed.

(** ** Updates *)

Lemma skipped_date (body : gmap string jsval) :
  skipped body "date" = negb (truthy (body !! "date")).
Proof. reflexivity. Qed.

Lemma skipped_description (body : gmap string jsval) :
  skipped body "description" = negb (truthy (body !! "description")).
Proof. reflexivity. Qed.

Lemma skipped_category (body : gmap string jsval) :
  skipped body "category" = negb (truthy (body !! "category")).
Proof. reflexivity. Qed.

Lemma skipped_type (body : gmap string jsval) :
  skipped body "type"
  = negb (truthy (body !! "type") && isIncomeOrExpense (body !! "type")).
Proof. reflexivity. Qed.

Lemma skipped_amount (body : gmap string jsval) :
  skipped body "amount"
  = negb (truthy (body !! "amount") && num_gt0 (ToNumber (body !! "amount"))).
Proof. reflexivity. Qed.

(** A field that the handler passes over might as well be missing. *)
Lemma updateFields_delete (body : gmap string jsval) (k : string) (d : Document) :
  In k updateFieldNames -> skipped body k = true ->
  updateFields (delete k body) d = updateFields body d.
Proof.
  intros Hin Hs. unfold updateFieldNames in Hin.
  destruct Hin as [<-|[<-|[<-|[<-|[<-|[]]]]]].
  - rewrite skipped_date in Hs. apply negb_true_iff in Hs.
    unfold updateFields.
    rewrite lookup_delete_eq, !lookup_delete_ne by discriminate.
    rewrite Hs. reflexivity.
  - rewrite skipped_description in Hs. apply negb_true_iff in Hs.
    unfold updateFields.
    rewrite lookup_delete_eq, !lookup_delete_ne by discriminate.
    rewrite Hs. reflexivity.
  - rewrite skipped_category in Hs. apply negb_true_iff in Hs.
    unfold updateFields.
    rewrite lookup_delete_eq, !lookup_delete_ne by discriminate.
    rewrite Hs. reflexivity.
  - rewrite skipped_type in Hs. apply negb_true_iff in Hs.
    unfold updateFields.
    rewrite lookup_delete_eq, !lookup_delete_ne by discriminate.
    rewrite Hs. reflexivity.
  - rewrite skipped_amount in Hs. apply negb_true_iff in Hs.
    unfold updateFields.
    rewrite lookup_delete_eq, !lookup_delete_ne by discriminate.
    rewrite Hs. reflexivity.
Qed.

Lemma updateTransaction_delete (caller : ObjectId) (id : string)
    (body : gmap string jsval) (k : string) (st : Store) :
  In k updateFieldNames -> skipped body k = true ->
  updateTransaction caller id (delete k body) st
  = updateTransaction caller id body st.
Proof.
  intros Hin Hs. unfold updateTransaction.
  destruct (negb (isValidObjectId id)); [reflexivity|].
  destruct (findOne (castObjectId id) caller st); [|reflexivity].
  now rewrite (updateFields_delete body k _ Hin Hs).
Qed.

(** What the five assignments leave in each path. *)
Lemma updateFields_spec (body : gmap string jsval) (d d' : Document) :
  updateFields body d = Some d' ->
  doc_date d' = (if truthy (body !! "date")
                 then castDate (Some (JDate (newDate (body !! "date"))))
                 else doc_date d)
  /\ doc_description d'
     = (match body !! "description" with
        | Some (JStr s) => if String.eqb s "" then doc_description d
                           else Val (trim (trim s))
        | _ => doc_description d
        end)
  /\ doc_category d' = (if truthy (body !! "category")
                        then castString (body !! "category")
                        else doc_category d)
  /\ doc_type d' = (if truthy (body !! "type") && isIncomeOrExpense (body !! "type")
                    then castString (body !! "type") else doc_type d)
  /\ doc_amount d'
     = (if truthy (body !! "amount") && num_gt0 (ToNumber (body !! "amount"))
        then castNumber (Some (JNum (parseFloat (body !! "amount"))))
        else doc_amount d).
Proof.
  unfold updateFields.
  destruct (body !! "description") as [[| |n|s| |]|] eqn:Hd; simpl truthy;
    try discriminate;
    try (destruct b; try discriminate);
    try (destruct n as [q| | |]; try discriminate;
         try (destruct (negb (Qeq_bool q 0)); try discriminate));
    try (destruct (String.eqb s ""); cbn [negb]);
    intros [= <-];
    destruct (truthy (body !! "date")), (truthy (body !! "category")),
      (truthy (body !! "type") && isIncomeOrExpense (body !! "type")),
      (truthy (body !! "amount") && num_gt0 (ToNumber (body !! "amount")));
    repeat split.
Qed.

Lemma toTransaction_hydrate (t : Transaction) : toTransaction (hydrate t) = Some t.
Proof. destruct t. reflexivity. Qed.



Lemma updateTransaction_success (caller : ObjectId) (id : string)
    (body : gmap string jsval) (st st' : Store) (t : Transaction) :
  updateTransaction caller id body st = (updated t, st') ->
  exists found d,
    findOne (castObjectId id) caller st = Some found
    /\ updateFields body (hydrate found) = Some d
    /\ validate d = [] /\ toTransaction d = Some t
    /\ st' = replaceById t st.
Proof.
  unfold updateTransaction.
  destruct (negb (isValidObjectId id)); [discriminate|].
  destruct (findOne (castObjectId id) caller st) as [found|] eqn:Hf;
    [|discriminate].
  destruct (updateFields body (hydrate found)) as [d|] eqn:Hd; [|discriminate].
  destruct (save false d st) as [t' st''|es] eqn:Hs; [|discriminate].
  intros [= -> ->]. apply save_inv in Hs. destruct Hs as (Hv & Ht & ->).
  exists found, d. repeat split; assumption || reflexivity.
Qed.

Lemma updateTransaction_invalid (caller : ObjectId) (id : string)
    (body : gmap string jsval) (st : Store) (found : Transaction)
    (d : Document) (e : ValidatorError) :
  isValidObjectId id = true ->
  findOne (castObjectId id) caller st = Some found ->
  updateFields body (hydrate found) = Some d ->
  In e (validate d) ->
  updateTransaction caller id body st = (validationFailure (validate d), st).
Proof.
  intros Hv Hf Hd Hin. unfold updateTransaction.
  now rewrite Hv, Hf, Hd, (save_invalid false d st e Hin).
Qed.

(** C6, as the code has it.  Take an update that resolves to a document of
    the caller.  A supplied description is trimmed and then checked: when
    nothing or more than 200 characters remain the update fails with 400
    "Validation error", names the description, and stores nothing; the same
    holds for an amount that passes the handler's guard and is rejected by
    the schema.  A type that is not income or expense and an amount that is
    not above 0 do not fail the update: the request is treated exactly as
    if the field were missing.  After a successful update every field that
    the body omits has the value it had, and so have the identifier, the
    owner and the creation time. *)
Theorem update_validation (caller : ObjectId) (id : string)
    (body : gmap string jsval) (st : Store) (found : Transaction) :
  isValidObjectId id = true ->
  findOne (castObjectId id) caller st = Some found ->
  (forall s, body !! "description" = Some (JStr s) -> s <> "" ->
     trim (trim s) = "" \/ (200 < String.length (trim (trim s)))%nat ->
     exists es,
       updateTransaction caller id body st = (validationFailure es, st)
       /\ exists e, In e es /\ errorPath e = "description")
  /\ (forall n d, body !! "amount" = Some (JNum n) -> num_gt0 n = true ->
      amountRules n <> [] -> updateFields body (hydrate found) = Some d ->
      exists es,
        updateTransaction caller id body st = (validationFailure es, st)
        /\ exists e, In e es /\ errorPath e = "amount")
  /\ (isIncomeOrExpense (body !! "type") = false ->
      updateTransaction caller id body st
      = updateTransaction caller id (delete "type" body) st)
  /\ (num_gt0 (ToNumber (body !! "amount")) = false ->
      updateTransaction caller id body st
      = updateTransaction caller id (delete "amount" body) st)
  /\ (forall t st',
       updateTransaction caller id body st = (updated t, st') ->
       (body !! "date" = None -> date t = date found)
       /\ (body !! "description" = None -> description t = description found)
       /\ (body !! "category" = None -> category t = category found)
       /\ (body !! "type" = None -> type t = type found)
       /\ (body !! "amount" = None -> amount t = amount found)
       /\ _id t = _id found /\ userId t = userId found
       /\ createdAt t = createdAt found).
Proof.
  intros Hv Hf. split; [|split; [|split; [|split]]].
  - intros s Hs Hne Hbad.
    destruct (updateFields body (hydrate found)) as [d|] eqn:Hd.
    2:{ unfold updateFields in Hd. rewrite Hs, (truthy_string s Hne) in Hd.
        discriminate. }
    destruct (updateFields_spec _ _ _ Hd) as (_ & Hdesc & _).
    rewrite Hs in Hdesc.
    destruct (String.eqb_spec s ""); [contradiction|].
    assert (exists e, In e (validateRequired "description" (doc_description d)
                              descriptionRules)
                      /\ errorPath e = "description") as (e & Hin & Hp).
    { rewrite Hdesc. simpl. unfold descriptionRules.
      destruct Hbad as [->|Hlong].
      - exists (ERequired "description"). simpl. auto.
      - destruct (String.eqb (trim (trim s)) "");
          [exists (ERequired "description"); simpl; auto|].
        apply Nat.ltb_lt in Hlong. rewrite Hlong.
        exists (EMaxlength "description"). simpl. auto. }
    apply In_validate_description in Hin.
    exists (validate d). split; [|now exists e].
    now apply (updateTransaction_invalid _ _ _ _ found d e).
  - intros n d Ha Hgt Hne Hd.
    destruct (updateFields_spec _ _ _ Hd) as (_ & _ & _ & _ & Hamt).
    assert (truthy (Some (JNum n)) = true) as Htr.
    { destruct n as [q| | |]; simpl in *; try discriminate; [|reflexivity].
      destruct (Qeq_bool q 0) eqn:E; [|reflexivity].
      apply Qeq_bool_iff in E. apply negb_true_iff in Hgt.
      assert (Qle_bool q 0 = true) as C
        by (apply Qle_bool_iff; rewrite E; apply Qle_refl).
      congruence. }
    rewrite Ha, Htr in Hamt. change (ToNumber (Some (JNum n))) with n in Hamt.
    rewrite Hgt in Hamt. cbn [andb] in Hamt.
    change (parseFloat (Some (JNum n))) with n in Hamt.
    rewrite (castNumber_num n Htr) in Hamt.
    destruct (amountRules n) as [|e es] eqn:Hr; [contradiction|].
    assert (In e (validate d)) as Hin.
    { apply In_validate_amount. rewrite Hamt. simpl. rewrite Hr. now left. }
    exists (validate d). split.
    + now apply (updateTransaction_invalid _ _ _ _ found d e).
    + exists e. split; [exact Hin|].
      apply (amountRules_path n). rewrite Hr. now left.
  - intros Hty. symmetry. apply updateTransaction_delete; [simpl; tauto|].
    rewrite skipped_type, Hty, andb_false_r. reflexivity.
  - intros Hamt. symmetry. apply updateTransaction_delete; [simpl; tauto|].
    rewrite skipped_amount, Hamt, andb_false_r. reflexivity.
  - intros t st' Hrun.
    destruct (updateTransaction_success _ _ _ _ _ _ Hrun)
      as (found' & d & Hf' & Hd & _ & Ht & _).
    rewrite Hf in Hf'. injection Hf' as <-.
    destruct (updateFields_spec _ _ _ Hd) as (S1 & S2 & S3 & S4 & S5).
    destruct (updateFields_keeps _ _ _ Hd) as (K1 & K2 & K3).
    apply toTransaction_inv in Ht.
    destruct Ht as (T1 & T2 & T3 & T4 & T5 & T6 & T7 & T8).
    simpl in *.
    repeat split.
    + intros E. rewrite E in S1. simpl in S1. congruence.
    + intros E. rewrite E in S2. congruence.
    + intros E. rewrite E in S3. simpl in S3. congruence.
    + intros E. rewrite E in S4. simpl in S4. congruence.
    + intros E. rewrite E in S5. simpl in S5. congruence.
    + congruence.
    + congruence.
    + congruence.
Qed.






(** ** The upper bound of a month *)

Lemma ToInteger_ofZ (z : Z) : ToInteger (ofZ z) = Some z.
Proof. unfold ToInteger, ofZ. simpl. now rewrite Z.quot_1_r. Qed.

(** [new Date(year, month, 0)] is the midnight at which the last day of the
    month begins: one day before the first instant of the next month. *)
Lemma endOfMonth_is_start_of_last_day (year month : num) (hi next : Z) :
  newDateYMD year month (ofZ 0) = Some hi ->
  newDateYMD year month (ofZ 1) = Some next ->
  hi = next - msPerDay.
Proof.
  unfold newDateYMD. rewrite !ToInteger_ofZ.
  destruct (ToInteger year) as [y|]; [|discriminate].
  destruct (ToInteger month) as [m|]; [|discriminate].
  cbv zeta. set (yr := if (0 <=? y) && (y <=? 99) then 1900 + y else y).
  unfold TimeClip.
  destruct (Z.abs (MakeDay yr m 0 * msPerDay - LocalTZA) <=? _); [|discriminate].
  destruct (Z.abs (MakeDay yr m 1 * msPerDay - LocalTZA) <=? _); [|discriminate].
  intros [= <-] [= <-]. unfold MakeDay, msPerDay. lia.
Qed.

(** So a document dated after that midnight, though still within the
    month, is outside the range that the handlers build. *)
Lemma last_day_excluded (year month : num) (lo hi next d : Z) :
  newDateYMD year month (ofZ 0) = Some hi ->
  newDateYMD year month (ofZ 1) = Some next ->
  next - msPerDay < d < next ->
  inRange (Some (lo, hi)) d = false.
Proof.
  intros Hhi Hnext Hd.
  rewrite (endOfMonth_is_start_of_last_day year month hi next Hhi Hnext).
  simpl. apply andb_false_iff. right. apply Z.leb_gt. lia.
Qed.

(** ** The statistics *)

Lemma ToInteger_pred (m : Z) : ToInteger (num_pred (ofZ m)) = Some (m - 1).
Proof.
  unfold ToInteger, num_pred, ofZ. simpl. rewrite Z.quot_1_r. f_equal. lia.
Qed.




Lemma pipelineRange_cast (d : option (option Z * option Z)) (r : option (Z * Z)) :
  castRange d = Some r -> pipelineRange d = r.
Proof.
  destruct d as [[[lo|] [hi|]]|]; simpl; try discriminate; now intros [= <-].
Qed.


End Properties.

(** * Worked requests

    The statements above, applied to concrete requests under the reference
    runtime. *)

Module Examples.

Import Reference Fixtures.

#[local] Existing Instance node.

Lemma store_ids_unique : List.NoDup (map _id store).
Proof.
  repeat constructor; simpl; intros H;
    repeat (destruct H as [H|H]; [discriminate|]); exact H.
Defined.

(** A create whose body names Bob as the owner stores a document of Alice. *)
Example create_ignores_body_userId :
  handle env alice createAsBob store
  = (ok 201 (Some "Transaction created successfully")
       (OneTransaction
          {| _id := 100%N; userId := alice; date := noon31Jan;
             description := "Lunch"; category := "Food & Dining";
             type := "expense"; amount := 12.5%Q; createdAt := noon31Jan |}),
     store ++ [ {| _id := 100%N; userId := alice; date := noon31Jan;
                   description := "Lunch"; category := "Food & Dining";
                   type := "expense"; amount := 12.5%Q;
                   createdAt := noon31Jan |} ]).
Proof. vm_compute. reflexivity. Qed.

Lemma tenant_isolation_witness :
  List.NoDup (map _id store)
  /\ others alice (snd (handle env alice createAsBob store)) = others alice store.
Proof.
  split; [exact store_ids_unique|].
  destruct (tenant_isolation env alice createAsBob store store_ids_unique)
    as (_ & _ & Hothers & _).
  exact Hothers.
Defined.

(** Bob's rent exists under identifier 10 (hexadecimal a); to Alice it is
    not found, exactly as identifier 13, under which nothing is stored. *)
Lemma update_delete_resolution_witness :
  deleteTransaction alice "00000000000000000000000a" store
  = (fail 404 "Transaction not found", store)
  /\ deleteTransaction alice "00000000000000000000000d" store
     = (fail 404 "Transaction not found", store)
  /\ deleteTransaction alice "not-an-id" store
     = (fail 400 "Invalid transaction ID", store).
Proof.
  split; [|split].
  - apply (update_delete_resolution alice "00000000000000000000000a" ∅ store).
    + reflexivity.
    + intros t Hin Hid Hu. simpl in Hin.
      destruct Hin as [<-|[<-|[<-|[]]]]; discriminate.
  - apply (update_delete_resolution alice "00000000000000000000000d" ∅ store).
    + reflexivity.
    + intros t Hin Hid Hu. simpl in Hin.
      destruct Hin as [<-|[<-|[<-|[]]]]; discriminate.
  - apply (update_delete_resolution alice "not-an-id" ∅ store). reflexivity.
Defined.

(** The scenario of the specification: the explicit range wins over
    month 2. *)
Lemma date_filter_precedence_witness :
  f_date (listFilter alice
            {[ "startDate" := "2024-01-10"; "endDate" := "2024-01-20";
               "month" := "2"; "year" := "2024" ]})
  = Some (Some 1704844800000, Some 1705708800000).
Proof.
  pose proof (date_filter_precedence alice
                {[ "startDate" := "2024-01-10"; "endDate" := "2024-01-20";
                   "month" := "2"; "year" := "2024" ]}) as H.
  cbv zeta in H. destruct H as [H _].
  destruct (H ltac:(vm_compute; reflexivity)) as [Hd _].
  rewrite Hd. vm_compute. reflexivity.
Defined.

(** C3. On a server whose clock is UTC, the list for month 2 of 2024 takes
    its date condition from the month and the year, as the order of the
    cases has it, and the condition is the range from 1 February, 00:00, to
    29 February, 00:00.  Alice's purchase of 29 February 2024, 10:00, which
    getMonthYear places in month 2 of 2024, lies outside that range and the
    list for February does not return it: the condition does not cover the
    month.  Likewise the condition for the year 2023 ends on 31 December,
    00:00, and the list for 2023 does not return her purchase of
    31 December 2023, 18:00.  With startDate and endDate given beside a
    month, the explicit range is taken and the purchase is returned. *)
Theorem month_list_misses_last_day :
  let february : gmap string string := {[ "month" := "2"; "year" := "2024" ]} in
  let year2023 : gmap string string := {[ "year" := "2023" ]} in
  let explicit : gmap string string :=
    {[ "startDate" := "2024-02-01"; "endDate" := "2024-03-01";
       "month" := "1"; "year" := "2024" ]} in
  let none :=
    Page [] {| currentPage := 1; totalPages := ofZ 0;
               totalTransactions := 0; limit := 10 |} in
  f_date (listFilter alice february)
  = Some (Some 1706745600000, Some 1709164800000)
  /\ getMonthYear aliceLeapDay
     = {| month := 2; year := 2024; monthYear := "2024-02" |}
  /\ 1709164800000 < date aliceLeapDay
  /\ getTransactions alice february [aliceLeapDay] = ok 200 None none
  /\ f_date (listFilter alice year2023)
     = Some (Some 1672531200000, Some 1703980800000)
  /\ year (getMonthYear aliceNewYearsEve) = 2023
  /\ 1703980800000 < date aliceNewYearsEve
  /\ getTransactions alice year2023 [aliceNewYearsEve] = ok 200 None none
  /\ pageOf (getTransactions alice explicit [aliceLeapDay]) = [aliceLeapDay].
Proof.
  cbv zeta.
  repeat match goal with |- _ /\ _ => split end; vm_compute; reflexivity.
Qed.

(** C4. On a server whose clock is UTC, Alice's lunch of 31 January 2024,
    12:00, lies in January 2024 - between the first instant of the month and
    the first instant of February - and yet neither the list nor the
    statistics for month 1 of 2024 contain it: the upper bound of the range
    is 31 January, 00:00.  Likewise her bonus of 31 December 2024, 12:00, is
    missing from the list and the statistics for the year 2024. *)
Theorem month_filter_misses_last_day :
  let january : gmap string string := {[ "month" := "1"; "year" := "2024" ]} in
  let year2024 : gmap string string := {[ "year" := "2024" ]} in
  let empty :=
    Page [] {| currentPage := 1; totalPages := ofZ 0;
               totalTransactions := 0; limit := 10 |} in
  let zero :=
    Stats {| totalIncome := 0; totalExpense := 0; incomeCount := 0;
             expenseCount := 0; netAmount := 0 |} in
  newDateYMD (ofZ 2024) (ofZ 0) (ofZ 1) = Some 1704067200000
  /\ newDateYMD (ofZ 2024) (ofZ 1) (ofZ 1) = Some 1706745600000
  /\ 1704067200000 <= date aliceLunch < 1706745600000
  /\ f_date (listFilter alice january)
     = Some (Some 1704067200000, Some 1706659200000)
  /\ getTransactions alice january [aliceLunch] = ok 200 None empty
  /\ getStatistics alice january [aliceLunch] = ok 200 None zero
  /\ newDateYMD (ofZ 2025) (ofZ 0) (ofZ 1) = Some 1735689600000
  /\ 1704067200000 <= date aliceBonus < 1735689600000
  /\ f_date (listFilter alice year2024)
     = Some (Some 1704067200000, Some 1735603200000)
  /\ getTransactions alice year2024 [aliceBonus] = ok 200 None empty
  /\ getStatistics alice year2024 [aliceBonus] = ok 200 None zero.
Proof.
  cbv zeta.
  repeat match goal with |- _ /\ _ => split end;
    try (vm_compute; reflexivity); vm_compute; discriminate.
Qed.

(** The documents are found once the range is given explicitly. *)
Example explicit_range_finds_last_day :
  getTransactions alice
    {[ "startDate" := "2024-01-01"; "endDate" := "2024-02-01" ]} [aliceLunch]
  = ok 200 None
      (Page [aliceLunch]
         {| currentPage := 1; totalPages := ofZ 1;
            totalTransactions := 1; limit := 10 |}).
Proof. vm_compute. reflexivity. Qed.

(** C5. A create of Alice's lunch with the amount 0 is answered 400 with
    the required-fields message, although an amount is given: the response
    is not one that names the amount rule.  The same request with the
    amount -1, and with the amount 0 written as the string "0", is answered
    400 "Amount must be greater than 0", which is also the message that the
    schema attaches to its minimum. *)
Theorem create_amount_zero_misreported :
  createTransaction noon31Jan 100%N alice (lunch (JNum (Fin 0))) store
  = (fail 400 missingFieldMessage, store)
  /\ ~ InvalidAmount (fst (createTransaction noon31Jan 100%N alice
                             (lunch (JNum (Fin 0))) store))
  /\ createTransaction noon31Jan 100%N alice (lunch (JNum (Fin (-1)))) store
     = (fail 400 amountMessage, store)
  /\ createTransaction noon31Jan 100%N alice (lunch (JStr "0")) store
     = (fail 400 amountMessage, store)
  /\ errorMessage (EMin "amount") = Some amountMessage.
Proof.
  split; [vm_compute; reflexivity|]. split.
  - intros [_ [Hm|(e & Hin & _)]].
    + vm_compute in Hm. discriminate.
    + vm_compute in Hin. exact Hin.
  - repeat split; vm_compute; reflexivity.
Qed.

(** Amount -1 is answered with the amount rule, whatever else the request
    holds. *)
Example create_negative_amount :
  createTransaction 0 100%N alice (lunch (JNum (Fin (-1)))) store
  = (fail 400 amountMessage, store).
Proof.
  apply (create_amount_rules 0 100%N alice (lunch (JNum (Fin (-1)))) store
           "  Lunch " (Fin (-1))); reflexivity || discriminate.
Qed.

(** Amount 0.01 is accepted, and an infinite amount is refused by the
    schema. *)
Example amounts_at_the_boundary :
  status (fst (createTransaction 0 100%N alice (lunch (JNum (Fin 0.01))) store))
  = 201%nat
  /\ fst (createTransaction 0 100%N alice (lunch (JNum PosInf)) store)
     = validationFailure [EValidate "amount"]
  /\ fst (createTransaction 0 100%N alice (lunch (JNum (Fin 0.005))) store)
     = validationFailure [EMin "amount"].
Proof. repeat split; vm_compute; reflexivity. Qed.

(** C6, the claim as written fails: an update of Alice's lunch with a type
    that is neither income nor expense and a negative amount succeeds and
    changes nothing. *)
Lemma update_invalid_type_counterexample :
  updateTransaction alice "00000000000000000000000b"
    {[ "type" := JStr "transfer"; "amount" := JNum (Fin (-5)) ]} store
  = (updated aliceLunch, store)
  /\ status (updated aliceLunch) = 200%nat
  /\ success (updated aliceLunch) = true.
Proof. repeat split; vm_compute; reflexivity. Qed.

Lemma update_validation_witness :
  updateTransaction alice "00000000000000000000000b"
    {[ "type" := JStr "transfer"; "description" := JStr "Dinner" ]} store
  = updateTransaction alice "00000000000000000000000b"
      (delete "type" {[ "type" := JStr "transfer";
                        "description" := JStr "Dinner" ]}) store.
Proof.
  apply (update_validation alice "00000000000000000000000b"
           {[ "type" := JStr "transfer"; "description" := JStr "Dinner" ]}
           store aliceLunch); reflexivity.
Defined.

(** A description of blanks is trimmed to nothing and refused. *)
Example update_blank_description :
  updateTransaction alice "00000000000000000000000b"
    {[ "description" := JStr "   " ]} store
  = (validationFailure [ERequired "description"], store).
Proof. vm_compute. reflexivity. Qed.

(** Page 3 of 3 holds the five oldest documents, newest first. *)
Lemma pagination_window_witness :
  exists pages,
    getTransactions alice {[ "page" := "3"; "limit" := "10" ]} twentyFive
    = ok 200 None
        (Page (map daily [4; 3; 2; 1; 0]%nat)
           {| currentPage := 3; totalPages := ofZ pages;
              totalTransactions := 25; limit := 10 |})
    /\ pages = 3.
Proof.
  destruct (pagination_window alice {[ "page" := "3"; "limit" := "10" ]}
              twentyFive (map daily (seq 0 25)) 3 10)
    as (pages & Hrun & _ & _ & _ & _ & _ & _ & H25);
    [reflexivity | reflexivity | lia | lia | vm_compute; reflexivity |].
  exists pages. destruct (H25 eq_refl eq_refl) as [-> _].
  split; [|reflexivity]. rewrite Hrun. vm_compute. reflexivity.
Defined.

(** C7, the claim as written fails: with limit 0 the window holds all 25
    documents, which is more than the limit, and totalPages is infinite. *)
Lemma pagination_limit_zero_counterexample :
  getTransactions alice {[ "limit" := "0" ]} twentyFive
  = ok 200 None
      (Page (map daily (rev (seq 0 25)))
         {| currentPage := 1; totalPages := PosInf;
            totalTransactions := 25; limit := 0 |})
  /\ ~ (Z.of_nat (length (pageOf (getTransactions alice {[ "limit" := "0" ]}
                                    twentyFive))) <= 0).
Proof.
  split; [vm_compute; reflexivity|].
  vm_compute. intros H. apply H. reflexivity.
Qed.

(** Without parameters the first ten are returned. *)
Example first_page_by_default :
  getTransactions alice ∅ twentyFive
  = ok 200 None
      (Page (map daily [24; 23; 22; 21; 20; 19; 18; 17; 16; 15]%nat)
         {| currentPage := 1; totalPages := ofZ 3;
            totalTransactions := 25; limit := 10 |}).
Proof. vm_compute. reflexivity. Qed.


Example totals_of_alice :
  getStatistics alice ∅ store
  = ok 200 None
      (Stats {| totalIncome := Fin 500; totalExpense := Fin (25 # 2);
                incomeCount := 1; expenseCount := 1;
                netAmount := Fin (975 # 2) |}).
Proof. vm_compute. reflexivity. Qed.

Example totals_of_nothing :
  getStatistics bob {[ "year" := "2030" ]} store
  = ok 200 None
      (Stats {| totalIncome := 0; totalExpense := 0; incomeCount := 0;
                expenseCount := 0; netAmount := 0 |}).
Proof. vm_compute. reflexivity. Qed.

(** The totals are doubles: 9007199254740992 and 1 make 9007199254740992. *)
Example totals_are_doubles :
  getStatistics alice ∅ [aliceWindfall; aliceCoin]
  = ok 200 None
      (Stats {| totalIncome := Fin 9007199254740992; totalExpense := 0;
                incomeCount := 2; expenseCount := 0;
                netAmount := Fin 9007199254740992 |}).
Proof. vm_compute. reflexivity. Qed.

(** The double nearest to one tenth; a tie, which goes to the even
    neighbour; a number too small to be told from 0; and one too large to
    be finite. *)
Example nearest_doubles :
  roundDouble (1 # 10) = Fin (3602879701896397 # 36028797018963968)
  /\ roundDouble 9007199254740993 = Fin 9007199254740992
  /\ roundDouble 9007199254740995 = Fin 9007199254740996
  /\ roundDouble (1 # Z.to_pos (2 ^ 1075)) = Fin 0
  /\ roundDouble (inject_Z (2 ^ 1024)) = PosInf.
Proof. repeat split; vm_compute; reflexivity. Qed.

(** A year that is no number gives Invalid Dates for both bounds; the
    request is answered all the same. *)
Example totals_of_no_year :
  getStatistics alice {[ "year" := "soon" ]} store
  = ok 200 None
      (Stats {| totalIncome := 0; totalExpense := 0; incomeCount := 0;
                expenseCount := 0; netAmount := 0 |}).
Proof. vm_compute. reflexivity. Qed.

(** C9. A batch of three rows whose middle row has the amount -5.  That row
    fails the schema, its amount being below the minimum; the two other
    rows are stored; and the answer is 201 "2 transactions created
    successfully" with the two documents: it is not 207, and nothing in it
    tells of the row that failed. *)
Theorem bulk_failure_goes_unreported :
  let first :=
    {| _id := 100%N; userId := alice; date := noon31Jan;
       description := "Lunch"; category := "Food & Dining";
       type := "expense"; amount := 12.5%Q; createdAt := noon31Jan |} in
  let third :=
    {| _id := 102%N; userId := alice; date := noon31Jan;
       description := "Lunch"; category := "Food & Dining";
       type := "expense"; amount := 7.25%Q; createdAt := noon31Jan |} in
  validate (newTransaction noon31Jan 101%N
              (withUser noon31Jan alice (lunch (JNum (Fin (-5)%Q)))))
  = [EMin "amount"]
  /\ bulkCreateTransactions noon31Jan (newId env) alice (Some batch) store
     = (ok 201 (Some "2 transactions created successfully")
          (Created [first; third]),
        store ++ [first; third])
  /\ status (fst (bulkCreateTransactions noon31Jan (newId env) alice
                    (Some batch) store)) <> 207%nat.
Proof.
  cbv zeta. split; [vm_compute; reflexivity|].
  split; [vm_compute; reflexivity|]. vm_compute. discriminate.
Qed.

(** A null among the rows ends the request with 500 and nothing stored. *)
Example bulk_null_row :
  bulkCreateTransactions noon31Jan (newId env) alice
    (Some [RowObject (lunch (JNum (Fin 12.5%Q))); RowNull]) store
  = (fail 500 "Server error while creating transactions", store).
Proof. vm_compute. reflexivity. Qed.

Example bulk_empty :
  bulkCreateTransactions noon31Jan (newId env) alice (Some []) store
  = (fail 400 "Please provide an array of transactions", store)
  /\ bulkCreateTransactions noon31Jan (newId env) alice None store
     = (fail 400 "Please provide an array of transactions", store).
Proof. split; reflexivity. Qed.


(** An invalid type next to a valid category: the category is applied. *)
Example update_applies_the_rest :
  updateTransaction alice "00000000000000000000000b"
    {[ "type" := JStr "transfer"; "category" := JStr "Travel" ]} store
  = (updated
       {| _id := 11%N; userId := alice; date := noon31Jan;
          description := "Lunch"; category := "Travel";
          type := "expense"; amount := 12.5%Q; createdAt := noon31Jan |},
     [ bobRent;
       {| _id := 11%N; userId := alice; date := noon31Jan;
          description := "Lunch"; category := "Travel";
          type := "expense"; amount := 12.5%Q; createdAt := noon31Jan |};
       aliceBonus ]).
Proof. vm_compute. reflexivity. Qed.

End Examples.

(** * Further properties of the handlers and the schema *)

Section Further.

Context `{RT : Runtime}.

(** ** Reading a list response back *)

Lemma getTransactions_inv (caller : ObjectId) (query : gmap string string)
    (st : Store) (ts : list Transaction) (pg : Pagination) :
  data (getTransactions caller query st) = Page ts pg ->
  exists found p l,
    parseIntOr 1 (query !! "page") = Some p
    /\ parseIntOr 10 (query !! "limit") = Some l
    /\ find (listFilter caller query) st = Some found
    /\ window (Some ((p - 1) * l)) (Some l) (sortDesc found) = Some ts
    /\ pg = {| currentPage := p; totalPages := ceilDiv (length found) l;
               totalTransactions := length found; limit := l |}.
Proof.
  unfold getTransactions, countDocuments.
  destruct (find (listFilter caller query) st) as [found|] eqn:Hf;
    [|discriminate].
  destruct (parseIntOr 1 (query !! "page")) as [p|];
    destruct (parseIntOr 10 (query !! "limit")) as [l|];
    try (destruct (window _ _ _); discriminate).
  destruct (window _ _ _) as [w|] eqn:Hw; [|discriminate].
  simpl. intros [= <- <-]. exists found, p, l. repeat split; auto.
Qed.

Lemma getTransactions_ok (caller : ObjectId) (query : gmap string string)
    (st found : Store) (p l : Z) :
  parseIntOr 1 (query !! "page") = Some p ->
  parseIntOr 10 (query !! "limit") = Some l ->
  1 <= p -> 1 <= l ->
  find (listFilter caller query) st = Some found ->
  getTransactions caller query st
  = ok 200 None
      (Page (firstn (Z.to_nat l) (skipn (Z.to_nat ((p - 1) * l)) (sortDesc found)))
         {| currentPage := p; totalPages := ceilDiv (length found) l;
            totalTransactions := length found; limit := l |}).
Proof.
  intros Hp Hl Hp1 Hl1 Hf.
  unfold getTransactions, countDocuments, window. rewrite Hp, Hl, Hf.
  destruct (Z.ltb_spec ((p - 1) * l) 0); [nia|].
  destruct (Z.eqb_spec l 0); [lia|].
  now rewrite Z.abs_eq by lia.
Qed.

Lemma In_skipn_list {A} (n : nat) (l : list A) (x : A) :
  In x (skipn n l) -> In x l.
Proof.
  intros H. rewrite <- (firstn_skipn n l). apply in_or_app. now right.
Qed.

Lemma In_firstn_list {A} (n : nat) (l : list A) (x : A) :
  In x (firstn n l) -> In x l.
Proof.
  intros H. rewrite <- (firstn_skipn n l). apply in_or_app. now left.
Qed.

Lemma window_In (s n : option Z) (l ts : list Transaction) :
  window s n l = Some ts -> forall t, In t ts -> In t l.
Proof.
  unfold window. destruct s as [s|]; [|discriminate].
  destruct n as [n|]; [|discriminate].
  destruct (s <? 0); [discriminate|].
  intros [= <-] t Ht.
  destruct (n =? 0).
  - eapply In_skipn_list, Ht.
  - eapply In_skipn_list, In_firstn_list, Ht.
Qed.

Lemma Sorted_skipn {A} (R : A -> A -> Prop) (n : nat) (l : list A) :
  Sorted R l -> Sorted R (skipn n l).
Proof.
  revert l. induction n as [|n IH]; intros l Hl; [exact Hl|].
  destruct l as [|a l]; [constructor|]. simpl. apply IH.
  now inversion Hl.
Qed.

Lemma Sorted_firstn {A} (R : A -> A -> Prop) (n : nat) (l : list A) :
  Sorted R l -> Sorted R (firstn n l).
Proof.
  revert l. induction n as [|n IH]; intros l Hl; [constructor|].
  destruct l as [|a l]; [constructor|]. simpl.
  inversion Hl as [|x y Hs Hh]; subst. constructor; [now apply IH|].
  destruct n; [constructor|].
  destruct l as [|b l]; simpl; [constructor|]. constructor. now inversion Hh.
Qed.

Lemma window_descending (s n : option Z) (l ts : list Transaction) :
  window s n l = Some ts -> descending l -> descending ts.
Proof.
  unfold window, descending. destruct s as [s|]; [|discriminate].
  destruct n as [n|]; [|discriminate].
  destruct (s <? 0); [discriminate|].
  intros [= <-] Hl.
  destruct (n =? 0); [now apply Sorted_skipn|].
  now apply Sorted_firstn, Sorted_skipn.
Qed.

Lemma window_length (s n : option Z) (l ts : list Transaction) :
  window s n l = Some ts -> (length ts <= length l)%nat.
Proof.
  unfold window. destruct s as [s|]; [|discriminate].
  destruct n as [n|]; [|discriminate].
  destruct (s <? 0); [discriminate|].
  intros [= <-].
  destruct (n =? 0); rewrite ?length_firstn, length_skipn; lia.
Qed.

Lemma listFilter_type (caller : ObjectId) (query : gmap string string) :
  f_type (listFilter caller query)
  = (if truthy (param query "type") && isIncomeOrExpense (param query "type")
     then query !! "type" else None).
Proof.
  unfold listFilter, param. cbv zeta.
  repeat match goal with |- context [if ?c then setDate _ _ _ else _] => destruct c end;
    reflexivity.
Qed.

Lemma listFilter_category (caller : ObjectId) (query : gmap string string) :
  f_category (listFilter caller query)
  = (if truthy (param query "category") then query !! "category" else None).
Proof.
  unfold listFilter, param. cbv zeta.
  repeat match goal with |- context [if ?c then setDate _ _ _ else _] => destruct c end;
    reflexivity.
Qed.

Lemma find_sound (f : Filter) (st found : Store) :
  find f st = Some found ->
  exists r, castRange (f_date f) = Some r
            /\ found = List.filter (matches (f_userId f) (f_type f) (f_category f) r) st.
Proof.
  unfold find. destruct (castRange (f_date f)) as [r|]; [|discriminate].
  intros [= <-]. now exists r.
Qed.

Lemma length_filter_le {A} (p q : A -> bool) (l : list A) :
  (forall x, p x = true -> q x = true) ->
  (length (List.filter p l) <= length (List.filter q l))%nat.
Proof.
  intros H. induction l as [|x l IH]; simpl; [lia|].
  destruct (p x) eqn:E.
  - rewrite (H _ E). simpl. lia.
  - destruct (q x); simpl; lia.
Qed.

(** X3. The page of a list response holds only stored documents of the
    caller that meet every condition the request applies - the type when it
    is income or expense, the category when it is not empty - in descending
    order of date and creation time, and never more of them than the total
    it reports, which in turn is at most the number of the caller's
    documents. *)
Theorem list_page_sound (caller : ObjectId) (query : gmap string string)
    (st : Store) (ts : list Transaction) (pg : Pagination) :
  data (getTransactions caller query st) = Page ts pg ->
  (forall t, In t ts ->
     In t st /\ userId t = caller
     /\ (forall ty, query !! "type" = Some ty ->
                    ty = "income" \/ ty = "expense" -> type t = ty)
     /\ (forall c, query !! "category" = Some c -> c <> "" -> category t = c))
  /\ descending ts
  /\ (length ts <= totalTransactions pg)%nat
  /\ (totalTransactions pg <= length (owned caller st))%nat.
Proof.
  intros Hdata.
  destruct (getTransactions_inv _ _ _ _ _ Hdata)
    as (found & p & l & _ & _ & Hf & Hw & ->).
  destruct (find_sound _ _ _ Hf) as (r & Hr & Hfound).
  rewrite listFilter_userId, listFilter_type, listFilter_category in Hfound.
  split; [|split; [|split]].
  - intros t Ht. apply (window_In _ _ _ _ Hw) in Ht.
    apply (Permutation_in _ (sortDesc_perm found)) in Ht.
    rewrite Hfound in Ht. apply List.filter_In in Ht.
    destruct Ht as [Hin Hm]. unfold matches in Hm.
    rewrite !andb_true_iff in Hm. destruct Hm as [[[Hu Hty] Hc] _].
    apply N.eqb_eq in Hu. repeat split; auto.
    + intros ty Hq Hio. unfold param in Hty. rewrite Hq in Hty. simpl in Hty.
      assert ((ty =? "income")%string || (ty =? "expense")%string = true) as E.
      { destruct Hio as [-> | ->]; reflexivity. }
      assert (negb (ty =? "")%string = true) as E'.
      { destruct Hio as [-> | ->]; reflexivity. }
      rewrite E, E' in Hty. simpl in Hty. now apply String.eqb_eq in Hty.
    + intros c Hq Hne. unfold param in Hc. rewrite Hq in Hc. simpl in Hc.
      destruct (String.eqb_spec c ""); [contradiction|].
      simpl in Hc. now apply String.eqb_eq in Hc.
  - apply (window_descending _ _ _ _ Hw), sortDesc_descending.
  - simpl. etransitivity; [apply (window_length _ _ _ _ Hw)|].
    now rewrite (Permutation_length (sortDesc_perm found)).
  - simpl. rewrite Hfound. unfold owned. apply length_filter_le.
    intros x Hx. unfold matches in Hx. rewrite !andb_true_iff in Hx. tauto.
Qed.

(** ** Parameters that a list request passes over *)

Lemma getTransactions_same_filter (caller : ObjectId)
    (query query' : gmap string string) (st : Store) :
  listFilter caller query' = listFilter caller query ->
  query' !! "page" = query !! "page" ->
  query' !! "limit" = query !! "limit" ->
  getTransactions caller query' st = getTransactions caller query st.
Proof.
  intros Hf Hp Hl. unfold getTransactions. now rewrite Hf, Hp, Hl.
Qed.

Lemma listFilter_ext (caller : ObjectId) (query query' : gmap string string) :
  (forall k, In k [ "type"; "category"; "startDate"; "endDate"; "month"; "year" ] ->
             query' !! k = query !! k) ->
  listFilter caller query' = listFilter caller query.
Proof.
  intros H. unfold listFilter, param.
  rewrite (H "type"), (H "category"), (H "startDate"), (H "endDate"),
    (H "month"), (H "year") by (simpl; tauto).
  reflexivity.
Qed.

(** X1. A list request passes over a type that is neither income nor
    expense, an empty category, and every parameter it does not know: the
    response is the one of the request without that parameter, never an
    error for it. *)
Theorem list_ignores_parameters (caller : ObjectId)
    (query : gmap string string) (st : Store) :
  (forall ty, query !! "type" = Some ty -> ty <> "income" -> ty <> "expense" ->
     getTransactions caller query st
     = getTransactions caller (delete "type" query) st)
  /\ (query !! "category" = Some "" ->
      getTransactions caller query st
      = getTransactions caller (delete "category" query) st)
  /\ (forall k v, ~ In k listParameters ->
      getTransactions caller (<[k := v]> query) st
      = getTransactions caller query st).
Proof.
  split; [|split].
  - intros ty Hty Hi He. symmetry.
    apply getTransactions_same_filter;
      [|now rewrite lookup_delete_ne by discriminate ..].
    unfold listFilter, param.
    rewrite lookup_delete_eq, !lookup_delete_ne by discriminate.
    rewrite Hty. simpl.
    destruct (String.eqb_spec ty "income"); [contradiction|].
    destruct (String.eqb_spec ty "expense"); [contradiction|].
    now rewrite andb_false_r.
  - intros Hc. symmetry.
    apply getTransactions_same_filter;
      [|now rewrite lookup_delete_ne by discriminate ..].
    unfold listFilter, param.
    rewrite lookup_delete_eq, !lookup_delete_ne by discriminate.
    rewrite Hc. reflexivity.
  - intros k v Hk.
    assert (forall k', In k' listParameters -> <[k := v]> query !! k' = query !! k')
      as Hsame.
    { intros k' Hk'. apply lookup_insert_ne. intros ->. contradiction. }
    apply getTransactions_same_filter.
    + apply listFilter_ext. intros k' Hk'. apply Hsame. simpl in *. tauto.
    + apply Hsame. simpl. tauto.
    + apply Hsame. simpl. tauto.
Qed.

(** ** How the pages fill and fit together *)

(** X4. For page [p] and limit [l] of at least 1, the page holds
    [min l (n - (p-1)*l)] documents, where [n] is the number of matching
    ones, and none when that is negative: a page before the last is full,
    and a page past the last is empty and still answered 200. *)
Theorem page_length (caller : ObjectId) (query : gmap string string)
    (st found : Store) (p l : Z) :
  parseIntOr 1 (query !! "page") = Some p ->
  parseIntOr 10 (query !! "limit") = Some l ->
  1 <= p -> 1 <= l ->
  find (listFilter caller query) st = Some found ->
  let r := getTransactions caller query st in
  let n := Z.of_nat (length found) in
  status r = 200%nat
  /\ Z.of_nat (length (pageOf r)) = Z.max 0 (Z.min l (n - (p - 1) * l))
  /\ (p * l <= n -> Z.of_nat (length (pageOf r)) = l)
  /\ (n <= (p - 1) * l -> pageOf r = []).
Proof.
  intros Hp Hl Hp1 Hl1 Hf r n. subst r.
  rewrite (getTransactions_ok _ _ _ _ _ _ Hp Hl Hp1 Hl1 Hf).
  unfold pageOf. simpl.
  assert (Z.of_nat (length (firstn (Z.to_nat l)
            (skipn (Z.to_nat ((p - 1) * l)) (sortDesc found))))
          = Z.max 0 (Z.min l (n - (p - 1) * l))) as Hlen.
  { rewrite length_firstn, length_skipn,
      (Permutation_length (sortDesc_perm found)). subst n. nia. }
  split; [reflexivity|]. split; [exact Hlen|]. split.
  - intros H. rewrite Hlen. nia.
  - intros H. apply length_zero_iff_nil. apply Nat2Z.inj. rewrite Hlen. nia.
Qed.

Lemma firstn_then_next {A} (a b : nat) (l : list A) :
  firstn a l ++ firstn b (skipn a l) = firstn (a + b) l.
Proof.
  revert l. induction a as [|a IH]; intros l; [reflexivity|].
  destruct l as [|x l]; simpl.
  - now rewrite firstn_nil.
  - now rewrite IH.
Qed.

Lemma pages_from (caller : ObjectId) (query : gmap string string)
    (st found : Store) (l : Z) (strs : list string) :
  parseIntOr 10 (query !! "limit") = Some l -> 1 <= l ->
  find (listFilter caller query) st = Some found ->
  forall a k,
    Forall2 (fun s i => parseIntStr s = Some (Z.of_nat i)) strs (seq (S a) k) ->
    concat (map (fun s => pageOf (getTransactions caller
                                    (<["page" := s]> query) st)) strs)
    = firstn (k * Z.to_nat l) (skipn (a * Z.to_nat l) (sortDesc found)).
Proof.
  intros Hl Hl1 Hf. induction strs as [|s strs IH]; intros a k Hall.
  - inversion Hall as [Hk|]. destruct k; [reflexivity|discriminate].
  - destruct k as [|k]; [inversion Hall|]. simpl in Hall.
    inversion Hall as [|? ? ? ? Hs Hrest]; subst.
    cbn [map concat]. rewrite (IH (S a) k Hrest).
    rewrite (getTransactions_ok caller _ st found (Z.of_nat (S a)) l).
    + unfold pageOf. cbn [data ok].
      assert (Z.to_nat ((Z.of_nat (S a) - 1) * l) = (a * Z.to_nat l)%nat)
        as -> by nia.
      assert ((S a * Z.to_nat l)%nat = (Z.to_nat l + a * Z.to_nat l)%nat)
        as -> by lia.
      assert ((S k * Z.to_nat l)%nat = (Z.to_nat l + k * Z.to_nat l)%nat)
        as -> by lia.
      rewrite <- (skipn_skipn (Z.to_nat l) (a * Z.to_nat l)).
      apply firstn_then_next.
    + rewrite lookup_insert_eq. exact Hs.
    + rewrite lookup_insert_ne by discriminate. exact Hl.
    + lia.
    + exact Hl1.
    + rewrite (listFilter_ext caller query); [exact Hf|].
      intros k' Hk'. apply lookup_insert_ne. intros <-.
      simpl in Hk'. repeat (destruct Hk' as [Hk'|Hk']; [discriminate|]).
      exact Hk'.
Qed.

(** The order of the sort.  Two documents that may each come before the
    other have the same date and the same creation time; so among documents
    that differ in one of the two, only one arrangement is newest first. *)
Lemma notAfter_trans (a b c : Transaction) :
  notAfter a b = true -> notAfter b c = true -> notAfter a c = true.
Proof.
  unfold notAfter. rewrite !orb_true_iff, !andb_true_iff, !Z.ltb_lt,
    !Z.eqb_eq, !Z.leb_le. lia.
Qed.

Lemma notAfter_antisym (a b : Transaction) :
  notAfter a b = true -> notAfter b a = true ->
  sortKey a = sortKey b.
Proof.
  unfold notAfter, sortKey. rewrite !orb_true_iff, !andb_true_iff, !Z.ltb_lt,
    !Z.eqb_eq, !Z.leb_le. intros H1 H2. f_equal; lia.
Qed.

Lemma descending_strongly (l : list Transaction) :
  descending l -> StronglySorted (fun a b => notAfter a b = true) l.
Proof.
  apply Sorted_StronglySorted. intros a b c. apply notAfter_trans.
Qed.

Lemma descending_unique (l l' : list Transaction) :
  List.NoDup (map sortKey l) -> Permutation l l' ->
  descending l -> descending l' -> l = l'.
Proof.
  revert l'. induction l as [|a l IH]; intros l' Hnd Hp Hs Hs'.
  - apply Permutation_nil in Hp. now subst.
  - destruct l' as [|b l'];
      [apply Permutation_sym, Permutation_nil in Hp; discriminate|].
    pose proof (descending_strongly _ Hs) as Hss.
    pose proof (descending_strongly _ Hs') as Hss'.
    apply StronglySorted_inv in Hss. destruct Hss as [_ Ha].
    apply StronglySorted_inv in Hss'. destruct Hss' as [_ Hb].
    rewrite List.Forall_forall in Ha, Hb.
    inversion Hnd as [|x xs Hnot Hnd']; subst.
    assert (a = b) as <-.
    { assert (In a (b :: l')) as Ha' by (apply (Permutation_in _ Hp); now left).
      assert (In b (a :: l)) as Hb'
        by (apply (Permutation_in _ (Permutation_sym Hp)); now left).
      destruct Ha' as [E|Ha']; [now symmetry|].
      destruct Hb' as [E|Hb']; [exact E|].
      exfalso. apply Hnot.
      rewrite (notAfter_antisym a b (Ha _ Hb') (Hb _ Ha')).
      now apply in_map. }
    f_equal. apply IH.
    + exact Hnd'.
    + now apply Permutation_cons_inv in Hp.
    + now inversion Hs.
    + now inversion Hs'.
Qed.

Lemma NoDup_firstn_list {A} (n : nat) (l : list A) :
  List.NoDup l -> List.NoDup (firstn n l).
Proof.
  intros H. rewrite <- (firstn_skipn n l) in H.
  now apply NoDup_app_remove_r in H.
Qed.

(** X5. The pages fit together.  Take the documents that match a list
    request and let no two of them have both the same date and the same
    creation time, so that the sort leaves no choice: the only arrangement
    of them that is newest first is the sorted one.  Then the pages 1 to
    [k] of the request, one after the other, are the first [k * limit]
    matching documents in that order, no document is repeated or left out
    between two pages, and once [k * limit] reaches the number of matching
    documents the pages are all of them. *)
Theorem pages_tile (caller : ObjectId) (query : gmap string string)
    (st found : Store) (l : Z) (strs : list string) (k : nat) :
  parseIntOr 10 (query !! "limit") = Some l -> 1 <= l ->
  find (listFilter caller query) st = Some found ->
  List.NoDup (map sortKey found) ->
  Forall2 (fun s i => parseIntStr s = Some (Z.of_nat i)) strs (seq 1 k) ->
  let pages :=
    concat (map (fun s => pageOf (getTransactions caller
                                    (<["page" := s]> query) st)) strs) in
  (forall sorted, Permutation sorted found -> descending sorted ->
                  sorted = sortDesc found)
  /\ pages = firstn (k * Z.to_nat l) (sortDesc found)
  /\ List.NoDup pages
  /\ (Z.of_nat (length found) <= Z.of_nat k * l -> pages = sortDesc found).
Proof.
  intros Hl Hl1 Hf Hkeys Hall pages. subst pages.
  rewrite (pages_from caller query st found l strs Hl Hl1 Hf 0 k Hall).
  cbn [Nat.mul skipn].
  assert (List.NoDup (sortDesc found)) as Hnd.
  { apply (Permutation_NoDup (Permutation_sym (sortDesc_perm found))).
    now apply NoDup_map_inv in Hkeys. }
  split; [|split; [reflexivity|split]].
  - intros sorted Hp Hs. symmetry.
    apply descending_unique.
    + apply (Permutation_NoDup
               (Permutation_map sortKey (Permutation_sym (sortDesc_perm found)))).
      exact Hkeys.
    + rewrite Hp. apply sortDesc_perm.
    + apply sortDesc_descending.
    + exact Hs.
  - now apply NoDup_firstn_list.
  - intros Hk. apply firstn_all2.
    rewrite (Permutation_length (sortDesc_perm found)). nia.
Qed.

(** ** Creating *)

Lemma createTransaction_checked (now : Z) (newId caller : ObjectId)
    (body : gmap string jsval) (st : Store) (s : string) :
  body !! "description" = Some (JStr s) -> s <> "" ->
  truthy (body !! "category") = true ->
  isIncomeOrExpense (body !! "type") = true ->
  truthy (body !! "amount") = true ->
  num_le0 (ToNumber (body !! "amount")) = false ->
  createTransaction now newId caller body st
  = match save true (newTransaction now newId (createObject now caller body s)) st with
    | Saved t st' => (created t, st')
    | ValidationError es => (validationFailure es, st)
    end.
Proof.
  intros Hd Hs Hc Hty Ha Hle. unfold createTransaction.
  rewrite Hd, (truthy_string s Hs), Hc, (isIncomeOrExpense_truthy _ Hty), Hty,
    Ha, Hle.
  reflexivity.
Qed.

Lemma createTransaction_inv (now : Z) (newId caller : ObjectId)
    (body : gmap string jsval) (st : Store) :
  status (fst (createTransaction now newId caller body st)) = 201%nat ->
  exists s t,
    body !! "description" = Some (JStr s) /\ s <> ""
    /\ truthy (body !! "category") = true
    /\ isIncomeOrExpense (body !! "type") = true
    /\ truthy (body !! "amount") = true
    /\ num_le0 (ToNumber (body !! "amount")) = false
    /\ validate (newTransaction now newId (createObject now caller body s)) = []
    /\ toTransaction (newTransaction now newId (createObject now caller body s))
       = Some t
    /\ createTransaction now newId caller body st = (created t, st ++ [t]).
Proof.
  unfold createTransaction.
  destruct (truthy (body !! "description")) eqn:Hd; [|discriminate].
  destruct (truthy (body !! "category")) eqn:Hc; [|discriminate].
  destruct (truthy (body !! "type")) eqn:Ht; [|discriminate].
  destruct (truthy (body !! "amount")) eqn:Ha; [|discriminate].
  cbn [negb orb].
  destruct (isIncomeOrExpense (body !! "type")) eqn:Hty; [|discriminate].
  cbn [negb].
  destruct (num_le0 (ToNumber (body !! "amount"))) eqn:Hle; [discriminate|].
  destruct (body !! "description") as [[| | |s| |]|] eqn:Hs; try discriminate.
  fold (createObject now caller body s).
  destruct (save true _ st) as [t st'|es] eqn:Hsave; [|discriminate].
  intros _. apply save_inv in Hsave. destruct Hsave as (Hv & Htt & ->).
  exists s, t. repeat split; auto.
  simpl in Hd. destruct (String.eqb_spec s ""); [discriminate|assumption].
Qed.

(** What the model makes of the object of a create. *)
Lemma create_document (now : Z) (newId caller : ObjectId)
    (body : gmap string jsval) (s : string) :
  let d := newTransaction now newId (createObject now caller body s) in
  doc_id d = newId /\ doc_userId d = Val caller
  /\ doc_date d = castDate (Some (JDate (if truthy (body !! "date")
                                         then newDate (body !! "date")
                                         else Some now)))
  /\ doc_description d = Val (trim (trim s))
  /\ doc_category d = castString (body !! "category")
  /\ doc_type d = castString (body !! "type")
  /\ doc_amount d = castNumber (Some (JNum (parseFloat (body !! "amount"))))
  /\ doc_createdAt d = now.
Proof.
  unfold newTransaction, createObject. cbn [doc_id doc_userId doc_date
    doc_description doc_category doc_type doc_amount doc_createdAt].
  rewrite !lookup_field_eq.
  repeat (rewrite lookup_field_ne by discriminate; rewrite ?lookup_field_eq).
  repeat split.
Qed.

(** X6. The checks of a create are made in a fixed order and each answers
    without storing anything: a falsy description, category, type or amount
    gives the required-fields message whatever the other fields are; then a
    type that is not income or expense gives the type message whatever the
    amount is; then an amount that is not above 0 gives the amount message;
    then a description that is not a string gives 500. *)
Theorem create_check_order (now : Z) (newId caller : ObjectId)
    (body : gmap string jsval) (st : Store) :
  let run := createTransaction now newId caller body st in
  let present := truthy (body !! "description") && truthy (body !! "category")
                 && truthy (body !! "type") && truthy (body !! "amount") in
  (present = false -> run = (fail 400 missingFieldMessage, st))
  /\ (present = true -> isIncomeOrExpense (body !! "type") = false ->
      run = (fail 400 typeMessage, st))
  /\ (present = true -> isIncomeOrExpense (body !! "type") = true ->
      num_le0 (ToNumber (body !! "amount")) = true ->
      run = (fail 400 amountMessage, st))
  /\ (present = true -> isIncomeOrExpense (body !! "type") = true ->
      num_le0 (ToNumber (body !! "amount")) = false ->
      (forall s, body !! "description" <> Some (JStr s)) ->
      run = (fail 500 "Server error while creating transaction", st)).
Proof.
  cbv zeta. unfold createTransaction.
  destruct (truthy (body !! "description")), (truthy (body !! "category")),
    (truthy (body !! "type")), (truthy (body !! "amount")); cbn [andb negb orb];
    (split; [|split; [|split]]); try discriminate; try reflexivity.
  - intros _ ->. reflexivity.
  - intros _ -> ->. reflexivity.
  - intros _ -> -> Hs. cbn [negb].
    destruct (body !! "description") as [[| | |s| |]|]; try reflexivity.
    now destruct (Hs s).
Qed.

Lemma In_inList (x : string) (l : list string) : In x l -> inList x l = true.
Proof.
  intros H. unfold inList. apply existsb_exists. exists x.
  split; [exact H|apply String.eqb_refl].
Qed.

Lemma enumRules_nil (path : string) (allowed : list string) (x : string) :
  In x allowed -> ~ In "" allowed -> enumRules path allowed x = [].
Proof.
  intros Hin Hne. unfold enumRules.
  destruct (String.eqb_spec x ""); [subst; contradiction|].
  now rewrite (In_inList _ _ Hin).
Qed.

Lemma categories_nonempty : ~ In "" categories.
Proof. simpl. intros H. repeat (destruct H as [H|H]; [discriminate|]). exact H. Qed.

Lemma types_nonempty : ~ In "" types.
Proof. simpl. intros H. repeat (destruct H as [H|H]; [discriminate|]). exact H. Qed.

Lemma In_types (ty : string) : In ty types <-> ty = "income" \/ ty = "expense".
Proof.
  simpl. split; [intros [H|[H|[]]]; auto | intros [-> | ->]; auto].
Qed.

Lemma isIncomeOrExpense_spec (v : option jsval) :
  isIncomeOrExpense v = true <->
  exists ty, v = Some (JStr ty) /\ (ty = "income" \/ ty = "expense").
Proof.
  split.
  - destruct v as [[| | |x| |]|]; simpl; try discriminate.
    intros H. exists x. split; [reflexivity|].
    apply orb_true_iff in H. destruct H as [H|H]; apply String.eqb_eq in H; auto.
  - intros (ty & -> & [-> | ->]); reflexivity.
Qed.

(** X7. A create succeeds exactly on an accepted body: description a string
    that is not empty and has 1 to 200 characters once trimmed, category
    present and of the schema's list, type income or expense, amount truthy,
    not below or at 0 as a number and parsed to a finite number of at least
    0.01, and a date that, when given, can be read.  The stored document is
    then appended to the collection and returned with status 201; it has
    the identifier generated for it, the caller as owner, the trimmed
    description, the category, the type and the parsed amount of the body,
    the given date or else the current time, and the current time as
    creation time. *)
Theorem create_succeeds_exactly (now : Z) (newId caller : ObjectId)
    (body : gmap string jsval) (st : Store) :
  (forall s c ty q dt,
     accepted body s c ty q dt ->
     let t := {| _id := newId; userId := caller;
                 date := match dt with Some d => d | None => now end;
                 description := trim (trim s); category := c; type := ty;
                 amount := q; createdAt := now |} in
     createTransaction now newId caller body st = (created t, st ++ [t]))
  /\ (status (fst (createTransaction now newId caller body st)) = 201%nat ->
      exists s c ty q dt, accepted body s c ty q dt).
Proof.
  split.
  - intros s c ty q dt
      (Hd & Hs & Hne & Hlen & Hct & Hc & Hcin & Hty & Hio & Ha & Hle & Hpf & Hq & Hdt) t.
    rewrite (createTransaction_checked now newId caller body st s Hd Hs Hct
               ltac:(rewrite Hty; apply isIncomeOrExpense_spec; eauto) Ha Hle).
    destruct (create_document now newId caller body s)
      as (D1 & D2 & D3 & D4 & D5 & D6 & D7 & D8).
    set (d := newTransaction now newId (createObject now caller body s)) in *.
    assert (doc_date d = Val (date t)) as D3'.
    { rewrite D3. subst t. cbn [date].
      destruct (truthy (body !! "date")).
      - destruct Hdt as [-> Hsome]. destruct dt; [reflexivity|contradiction].
      - rewrite Hdt. reflexivity. }
    assert (doc_amount d = Val (Fin q)) as D7'.
    { rewrite D7, Hpf. reflexivity. }
    rewrite Hc in D5. rewrite Hty in D6. cbn [castString] in D6.
    assert (validate d = []) as Hv.
    { unfold validate. rewrite D2, D3', D4, D5, D6, D7'.
      cbn [validateRequired app].
      unfold descriptionRules.
      destruct (String.eqb_spec (trim (trim s)) ""); [contradiction|].
      destruct (Nat.ltb_spec 200 (String.length (trim (trim s)))); [lia|].
      rewrite (enumRules_nil "category" categories c Hcin categories_nonempty).
      rewrite (enumRules_nil "type" types ty (proj2 (In_types ty) Hio)
                 types_nonempty).
      unfold amountRules.
      assert (Qle_bool (1 # 100) q = true) as -> by now apply Qle_bool_iff.
      assert (Qle_bool q 0 = false) as ->.
      { destruct (Qle_bool q 0) eqn:E; [|reflexivity].
        apply Qle_bool_iff in E. exfalso.
        apply (Qlt_not_le 0 (1 # 100)); [reflexivity|].
        eapply Qle_trans; eassumption. }
      reflexivity. }
    assert (toTransaction d = Some t) as Ht.
    { unfold toTransaction. rewrite D2, D3', D4, D5, D6, D7', D1, D8.
      reflexivity. }
    unfold save. rewrite Hv, Ht. reflexivity.
  - intros H201.
    destruct (createTransaction_inv _ _ _ _ _ H201)
      as (s & t & Hd & Hs & Hct & Hty & Ha & Hle & Hv & Ht & _).
    destruct (create_document now newId caller body s)
      as (D1 & D2 & D3 & D4 & D5 & D6 & D7 & D8).
    destruct (validate_nil_fields _ _ Hv Ht) as (V1 & V2 & V3 & V4 & V5).
    apply toTransaction_inv in Ht.
    destruct Ht as (T1 & T2 & T3 & T4 & T5 & T6 & T7 & T8).
    rewrite D4 in T4. injection T4 as T4. rewrite <- T4 in V2, V3.
    rewrite D5 in T5. rewrite D7 in T7.
    apply isIncomeOrExpense_spec in Hty. destruct Hty as (ty & Hty & Hio).
    assert (parseFloat (body !! "amount") = Fin (amount t)) as Hpf.
    { unfold castNumber in T7.
      change (ToNumber (Some (JNum ?n))) with n in T7.
      destruct (parseFloat (body !! "amount")); congruence. }
    exists s, (category t), ty, (amount t),
      (if truthy (body !! "date") then newDate (body !! "date") else None).
    repeat split; auto.
    destruct (truthy (body !! "date")); [|reflexivity].
    split; [reflexivity|]. rewrite D3 in T3.
    destruct (newDate (body !! "date")); discriminate.
Qed.

(** ** A create followed by a delete *)

Lemma findOne_app_fresh (id u : ObjectId) (st : Store) (t : Transaction) :
  ~ In id (map _id st) -> _id t = id -> userId t = u ->
  findOne id u (st ++ [t]) = Some t
  /\ removeFirst (fun r => N.eqb (_id r) id && N.eqb (userId r) u) (st ++ [t]) = st.
Proof.
  intros Hfresh Hid Hu. unfold findOne.
  induction st as [|r st IH]; simpl.
  - rewrite Hid, Hu, !N.eqb_refl. auto.
  - simpl in Hfresh.
    destruct (N.eqb_spec (_id r) id) as [E|E]; [tauto|]. simpl.
    destruct IH as [IH1 IH2]; [tauto|]. now rewrite IH1, IH2.
Qed.

(** X8. A create followed by the delete of the document it made leaves the
    collection as it was before the two requests, and the delete is
    answered 200: this holds when the generated identifier is new to the
    collection and [ids] is its well-formed spelling. *)
Theorem create_then_delete (now : Z) (newId caller : ObjectId)
    (body : gmap string jsval) (st : Store) (ids : string) :
  status (fst (createTransaction now newId caller body st)) = 201%nat ->
  ~ In newId (map _id st) ->
  isValidObjectId ids = true -> castObjectId ids = newId ->
  deleteTransaction caller ids
    (snd (createTransaction now newId caller body st))
  = (deleted, st).
Proof.
  intros H201 Hfresh Hv Hcast.
  destruct (createTransaction_inv _ _ _ _ _ H201)
    as (s & t & _ & _ & _ & _ & _ & _ & _ & Ht & ->).
  apply toTransaction_inv in Ht. destruct Ht as (Hu & Hid & _).
  destruct (create_document now newId caller body s) as (D1 & D2 & _).
  rewrite D1 in Hid. rewrite D2 in Hu. injection Hu as Hu.
  destruct (findOne_app_fresh newId caller st t Hfresh
              (eq_sym Hid) (eq_sym Hu)) as [Hfind Hrem].
  unfold deleteTransaction, findOneAndDelete. unfold findOne in Hfind.
  cbn [snd]. now rewrite Hv, Hcast, Hfind, Hrem.
Qed.

(** ** Deleting *)

Lemma NoDup_ids_eq (st : Store) (a b : Transaction) :
  List.NoDup (map _id st) -> In a st -> In b st -> _id a = _id b -> a = b.
Proof.
  induction st as [|r st IH]; simpl; [tauto|].
  intros Hnd Ha Hb Hid. inversion Hnd as [|x l Hnot Hnd']; subst.
  destruct Ha as [->|Ha], Hb as [->|Hb]; auto.
  - exfalso. apply Hnot. rewrite Hid. now apply in_map.
  - exfalso. apply Hnot. rewrite <- Hid. now apply in_map.
Qed.

Lemma removeFirst_spec (p : Transaction -> bool) (st : Store) (found : Transaction) :
  List.find p st = Some found ->
  exists before after,
    st = before ++ found :: after
    /\ removeFirst p st = before ++ after
    /\ Forall (fun r => p r = false) before.
Proof.
  induction st as [|r st IH]; simpl; [discriminate|].
  destruct (p r) eqn:Hr.
  - intros [= ->]. exists [], st. repeat split. constructor.
  - intros Hf. destruct (IH Hf) as (before & after & -> & -> & Hall).
    exists (r :: before), after. repeat split. now constructor.
Qed.

(** X9. A delete of a document the caller owns is answered 200 and removes
    that document and no other: the collection keeps every other document
    in its place and is shorter by one.  With unique identifiers the
    document is gone afterwards, so the same delete again, or an update of
    it, is answered 404. *)
Theorem delete_removes_one (caller : ObjectId) (id : string) (st : Store)
    (found : Transaction) (body : gmap string jsval) :
  List.NoDup (map _id st) ->
  isValidObjectId id = true ->
  findOne (castObjectId id) caller st = Some found ->
  exists before after,
    st = before ++ found :: after
    /\ deleteTransaction caller id st = (deleted, before ++ after)
    /\ ~ In found (before ++ after)
    /\ deleteTransaction caller id (before ++ after)
       = (fail 404 "Transaction not found", before ++ after)
    /\ updateTransaction caller id body (before ++ after)
       = (fail 404 "Transaction not found", before ++ after).
Proof.
  intros Hnd Hv Hf.
  destruct (findOne_In _ _ _ _ Hf) as (Hin & Hid & Hu).
  unfold findOne in Hf.
  destruct (removeFirst_spec _ _ _ Hf) as (before & after & Hst & Hrem & _).
  exists before, after.
  assert (forall r, In r (before ++ after) -> _id r <> castObjectId id) as Hgone.
  { intros r Hr Hrid. rewrite Hst in Hnd. rewrite map_app in Hnd. simpl in Hnd.
    apply NoDup_remove_2 in Hnd. apply Hnd. rewrite <- map_app.
    rewrite Hid, <- Hrid. now apply in_map. }
  assert (findOne (castObjectId id) caller (before ++ after) = None) as Hnone.
  { apply findOne_None. intros r Hr Hrid. now destruct (Hgone r Hr). }
  split; [exact Hst|]. split; [|split; [|split]].
  - unfold deleteTransaction, findOneAndDelete. now rewrite Hv, Hf, Hrem.
  - intros Hfound. now apply (Hgone found Hfound).
  - now apply deleteTransaction_notFound.
  - now apply updateTransaction_notFound.
Qed.

(** ** What every stored document satisfies *)

Lemma validate_hydrate (d : Document) (t : Transaction) :
  toTransaction d = Some t -> validate (hydrate t) = validate d.
Proof.
  intros Ht. apply toTransaction_inv in Ht.
  destruct Ht as (T1 & T2 & T3 & T4 & T5 & T6 & T7 & T8).
  unfold validate. rewrite T1, T3, T4, T5, T6, T7. reflexivity.
Qed.

Lemma Forall_replaceById (P : Transaction -> Prop) (t : Transaction) (st : Store) :
  P t -> Forall P st -> Forall P (replaceById t st).
Proof.
  intros Ht. induction 1 as [|r st Hr Hst IH]; simpl; [constructor|].
  destruct (N.eqb (_id r) (_id t)); constructor; assumption.
Qed.

Lemma Forall_removeFirst (P : Transaction -> Prop) (p : Transaction -> bool)
    (st : Store) :
  Forall P st -> Forall P (removeFirst p st).
Proof.
  induction 1 as [|r st Hr Hst IH]; simpl; [constructor|].
  destruct (p r); [exact Hst|now constructor].
Qed.

Lemma insertEach_valid (now : Z) (newId : nat -> ObjectId)
    (objs : list (gmap string jsval)) :
  forall i, Forall schemaValid (fst (insertEach now newId i objs)).
Proof.
  induction objs as [|o objs IH]; intros i; simpl; [constructor|].
  specialize (IH (S i)).
  destruct (insertEach now newId (S i) objs) as [good bad]. simpl in IH.
  destruct (validate (newTransaction now (newId i) o)) eqn:Hv; [|exact IH].
  destruct (toTransaction _) as [t|] eqn:Ht; [|exact IH].
  simpl. constructor; [|exact IH].
  unfold schemaValid. now rewrite (validate_hydrate _ _ Ht).
Qed.

(** X10. The rules of the schema are an invariant of the collection: if
    every stored document satisfies them, so does every stored document
    after any request of the six routes, whatever its body.  In particular
    every stored amount stays at 0.01 or more, every description has 1 to
    200 characters, and every category and type is one of the schema's. *)
Theorem schema_invariant (env : Env) (caller : ObjectId) (req : Request)
    (st : Store) :
  Forall schemaValid st ->
  Forall schemaValid (snd (handle env caller req st))
  /\ (forall t, In t (snd (handle env caller req st)) ->
       (1 # 100 <= amount t)%Q /\ description t <> ""
       /\ (String.length (description t) <= 200)%nat
       /\ In (category t) categories /\ In (type t) types).
Proof.
  intros Hst.
  assert (Forall schemaValid (snd (handle env caller req st))) as Hall.
  { destruct req as [query|body|id body|id|transactions|query]; simpl;
      try exact Hst.
    - unfold createTransaction.
      repeat match goal with
             | |- context [if ?c then (_, st) else _] => destruct c; try exact Hst
             end.
      destruct (body !! "description") as [[| | |s| |]|]; try exact Hst.
      destruct (save true _ st) as [t st'|es] eqn:Hs; [|exact Hst].
      apply save_inv in Hs. destruct Hs as (Hv & Ht & ->). cbn [snd].
      apply Forall_app. split; [exact Hst|].
      constructor; [|constructor].
      unfold schemaValid. now rewrite (validate_hydrate _ _ Ht).
    - unfold updateTransaction.
      destruct (negb (isValidObjectId id)); [exact Hst|].
      destruct (findOne (castObjectId id) caller st) as [found|]; [|exact Hst].
      destruct (updateFields body (hydrate found)) as [d|]; [|exact Hst].
      destruct (save false d st) as [t st'|es] eqn:Hs; [|exact Hst].
      apply save_inv in Hs. destruct Hs as (Hv & Ht & ->). cbn [snd].
      apply Forall_replaceById; [|exact Hst].
      unfold schemaValid. now rewrite (validate_hydrate _ _ Ht).
    - unfold deleteTransaction, findOneAndDelete.
      destruct (negb (isValidObjectId id)); [exact Hst|].
      destruct (List.find _ st); [|exact Hst].
      cbn [snd]. now apply Forall_removeFirst.
    - unfold bulkCreateTransactions.
      destruct transactions as [[|row rows]|]; try exact Hst.
      destruct (mapWithUser (now env) caller (row :: rows)) as [objs|];
        [|exact Hst].
      unfold insertMany.
      pose proof (insertEach_valid (now env) (newId env) objs 0) as Hgood.
      destruct (insertEach _ _ 0 _) as [good bad]. simpl in Hgood.
      cbn [snd]. apply Forall_app. split; assumption. }
  split; [exact Hall|].
  intros t Hin. rewrite List.Forall_forall in Hall.
  specialize (Hall t Hin). unfold schemaValid in Hall.
  exact (validate_nil_fields (hydrate t) t Hall (toTransaction_hydrate t)).
Qed.

(** ** What an update leaves alone *)

Lemma map_replaceById {B} (f : Transaction -> B) (t found : Transaction)
    (st : Store) :
  List.NoDup (map _id st) -> In found st -> _id t = _id found ->
  f t = f found -> map f (replaceById t st) = map f st.
Proof.
  intros Hnd Hin Hid Hf. induction st as [|r st IH]; simpl; [reflexivity|].
  inversion Hnd as [|x l Hnot Hnd']; subst.
  destruct (N.eqb_spec (_id r) (_id t)) as [E|E].
  - assert (r = found) as ->.
    { destruct Hin as [Hin|Hin]; [exact Hin|]. exfalso. apply Hnot.
      rewrite E, Hid. now apply in_map. }
    simpl. now rewrite Hf.
  - simpl. rewrite IH; [reflexivity|exact Hnd'|].
    destruct Hin as [Hin|Hin]; [|exact Hin]. subst r. now destruct E.
Qed.

(** X11. An update never changes who owns what: on a collection with unique
    identifiers, whatever the body holds (keys such as [_id], [userId] or
    [createdAt] included), the identifiers, the owners and the creation
    times of the stored documents are the same, position by position, after
    the request as before it, and so is their number. *)
Theorem update_keeps_identity (caller : ObjectId) (id : string)
    (body : gmap string jsval) (st : Store) :
  List.NoDup (map _id st) ->
  let st' := snd (updateTransaction caller id body st) in
  map (fun t => (_id t, userId t, createdAt t)) st'
  = map (fun t => (_id t, userId t, createdAt t)) st
  /\ length st' = length st.
Proof.
  intros Hnd st'.
  assert (map (fun t => (_id t, userId t, createdAt t)) st'
          = map (fun t => (_id t, userId t, createdAt t)) st) as Hmap.
  { subst st'. unfold updateTransaction.
    destruct (negb (isValidObjectId id)); [reflexivity|].
    destruct (findOne (castObjectId id) caller st) as [found|] eqn:Hf;
      [|reflexivity].
    destruct (updateFields body (hydrate found)) as [d|] eqn:Hd; [|reflexivity].
    destruct (save false d st) as [t st''|es] eqn:Hs; [|reflexivity].
    apply save_inv in Hs. destruct Hs as (_ & Ht & ->). cbn [snd].
    destruct (updateFields_keeps _ _ _ Hd) as (K1 & K2 & K3).
    apply toTransaction_inv in Ht.
    destruct Ht as (T1 & T2 & _ & _ & _ & _ & _ & T8).
    simpl in K1, K2, K3.
    apply (map_replaceById _ t found).
    - exact Hnd.
    - now apply (findOne_In _ _ _ _ Hf).
    - congruence.
    - f_equal; [f_equal|]; congruence. }
  split; [exact Hmap|].
  apply (f_equal (@length _)) in Hmap. now rewrite !length_map in Hmap.
Qed.

(** ** The calendar *)

Lemma DayFromYear_next (y : Z) :
  DayFromYear (y + 1) = DayFromYear y + 365 + (if InLeapYear y then 1 else 0).
Proof.
  unfold DayFromYear, InLeapYear.
  destruct (Z.eqb_spec (y mod 4) 0), (Z.eqb_spec (y mod 100) 0),
    (Z.eqb_spec (y mod 400) 0); cbn [andb orb negb];
    Z.div_mod_to_equations; lia.
Qed.

Lemma DayFromYear_mono (y y' : Z) : y <= y' -> DayFromYear y <= DayFromYear y'.
Proof. unfold DayFromYear. Z.div_mod_to_equations. lia. Qed.

(** [YearFromDay] is the year the language defines: the one whose first day
    is the latest that is not after the day. *)
Lemma YearFromDay_spec (d : Z) :
  DayFromYear (YearFromDay d) <= d < DayFromYear (YearFromDay d + 1).
Proof.
  unfold YearFromDay. cbv zeta.
  set (y := 1970 + d * 400 / 146097).
  assert (DayFromYear (y - 1) <= d < DayFromYear (y + 2)) as Hest
    by (subst y; unfold DayFromYear; Z.div_mod_to_equations; lia).
  destruct (Z.leb_spec (DayFromYear (y + 1)) d).
  - replace (y + 1 + 1) with (y + 2) by lia. lia.
  - destruct (Z.leb_spec (DayFromYear y) d).
    + lia.
    + replace (y - 1 + 1) with y by lia. lia.
Qed.

Lemma YearFromDay_unique (d y : Z) :
  DayFromYear y <= d < DayFromYear (y + 1) -> YearFromDay d = y.
Proof.
  intros H. pose proof (YearFromDay_spec d) as S.
  set (Y := YearFromDay d) in *.
  destruct (Z.lt_trichotomy Y y) as [L|[E|G]]; [|exact E|].
  - pose proof (DayFromYear_mono (Y + 1) y ltac:(lia)). lia.
  - pose proof (DayFromYear_mono (y + 1) Y ltac:(lia)). lia.
Qed.

Lemma MakeDay_within (y m dt : Z) :
  0 <= m <= 11 ->
  MakeDay y m dt = DayFromYear y + monthStart (InLeapYear y) m + dt - 1.
Proof.
  intros Hm. unfold MakeDay. cbv zeta.
  rewrite (Z.div_small m 12), (Z.mod_small m 12), Z.add_0_r by lia.
  reflexivity.
Qed.

Lemma MakeDay_december_end (y dt : Z) :
  MakeDay y 12 dt = DayFromYear (y + 1) + dt - 1.
Proof.
  unfold MakeDay. change (12 / 12) with 1. change (12 mod 12) with 0.
  unfold monthStart. cbv beta iota zeta. lia.
Qed.

Ltac month_cases m Hm :=
  assert (m = 0 \/ m = 1 \/ m = 2 \/ m = 3 \/ m = 4 \/ m = 5 \/ m = 6
          \/ m = 7 \/ m = 8 \/ m = 9 \/ m = 10 \/ m = 11) as Hcases by lia;
  clear Hm;
  destruct Hcases as [->|[->|[->|[->|[->|[->|[->|[->|[->|[->|[->| ->]]]]]]]]]]].

(** The days from the first of month [m] (0 is January) to the day before
    the first of the next month have year [y] and month [m]. *)
Lemma month_of_day (y m d : Z) :
  0 <= m <= 11 ->
  MakeDay y m 1 <= d < MakeDay y (m + 1) 1 ->
  YearFromDay d = y /\ MonthFromDay d = m.
Proof.
  intros Hm Hd.
  pose proof (DayFromYear_next y) as Hnext.
  assert (DayFromYear y + monthStart (InLeapYear y) m <= d
          /\ d < (if m =? 11 then DayFromYear (y + 1)
                  else DayFromYear y + monthStart (InLeapYear y) (m + 1)))
    as Hd'.
  { rewrite (MakeDay_within y m 1 Hm) in Hd.
    destruct (Z.eqb_spec m 11) as [->|Hne].
    - change (11 + 1) with 12 in Hd. rewrite MakeDay_december_end in Hd. lia.
    - rewrite (MakeDay_within y (m + 1) 1) in Hd by lia. lia. }
  clear Hd.
  assert (YearFromDay d = y) as Hy.
  { apply YearFromDay_unique. rewrite Hnext.
    destruct (InLeapYear y); month_cases m Hm; simpl in Hd'; lia. }
  split; [exact Hy|].
  unfold MonthFromDay. cbv zeta. rewrite Hy.
  destruct (InLeapYear y); month_cases m Hm; simpl in Hd';
    repeat match goal with
           | |- context [if ?a <? ?b then _ else _] =>
               destruct (Z.ltb_spec a b); try lia
           end.
Qed.

Lemma newDateYMD_value (y m dt t : Z) (month : num) :
  ToInteger month = Some m ->
  newDateYMD (ofZ y) month (ofZ dt) = Some t ->
  t = MakeDay (if (0 <=? y) && (y <=? 99) then 1900 + y else y) m dt * msPerDay
      - LocalTZA.
Proof.
  intros Hm. unfold newDateYMD. rewrite !ToInteger_ofZ, Hm. cbv zeta.
  unfold TimeClip. destruct (Z.abs _ <=? _); [|discriminate]. now intros [= <-].
Qed.

Lemma Day_between (a b t : Z) :
  a * msPerDay <= t -> t < b * msPerDay -> a <= Day t < b.
Proof.
  unfold Day, msPerDay. intros H1 H2. Z.div_mod_to_equations. lia.
Qed.

(** A time between local midnight of the first of a month and the midnight
    that begins the first of the next falls in that month. *)
Lemma time_in_month (y m t : Z) :
  0 <= m <= 11 ->
  MakeDay y m 1 * msPerDay - LocalTZA <= t ->
  t < MakeDay y (m + 1) 1 * msPerDay - LocalTZA ->
  getFullYear t = y /\ getMonth t = m.
Proof.
  intros Hm Hlo Hhi. unfold getFullYear, getMonth, LocalTime.
  apply month_of_day; [exact Hm|].
  apply Day_between; lia.
Qed.

Lemma MakeDay_date (y m dt : Z) : MakeDay y m dt = MakeDay y m 1 + dt - 1.
Proof. unfold MakeDay. lia. Qed.

Lemma month_has_28_days (y m : Z) :
  0 <= m <= 11 -> MakeDay y m 1 + 28 <= MakeDay y (m + 1) 1.
Proof.
  intros Hm. rewrite (MakeDay_within y m 1 Hm).
  pose proof (DayFromYear_next y) as Hnext.
  destruct (Z.eqb_spec m 11) as [->|Hne].
  - change (11 + 1) with 12. rewrite MakeDay_december_end.
    destruct (InLeapYear y); simpl; lia.
  - rewrite (MakeDay_within y (m + 1) 1) by lia.
    destruct (InLeapYear y); month_cases m Hm; simpl; lia.
Qed.

Lemma MonthFromDay_bounds (d : Z) : 0 <= MonthFromDay d <= 11.
Proof.
  unfold MonthFromDay. cbv zeta.
  repeat match goal with
         | |- context [if ?a <? ?b then _ else _] => destruct (a <? b); try lia
         end.
Qed.

(** The range that the handlers build for a month holds only times of that
    month, and the range for a year only times of that year. *)
Lemma month_range_sound (y m lo hi d : Z) :
  1 <= m <= 12 ->
  newDateYMD (ofZ y) (num_pred (ofZ m)) (ofZ 1) = Some lo ->
  newDateYMD (ofZ y) (ofZ m) (ofZ 0) = Some hi ->
  lo <= d <= hi ->
  getMonth d + 1 = m
  /\ getFullYear d = (if (0 <=? y) && (y <=? 99) then 1900 + y else y).
Proof.
  intros Hm Hlo Hhi Hd.
  apply (newDateYMD_value y (m - 1) 1 lo _ (ToInteger_pred m)) in Hlo.
  apply (newDateYMD_value y m 0 hi _ (ToInteger_ofZ m)) in Hhi.
  set (yr := if (0 <=? y) && (y <=? 99) then 1900 + y else y) in *.
  rewrite (MakeDay_date yr m 0) in Hhi.
  destruct (time_in_month yr (m - 1) d) as [Hy Hmo].
  - lia.
  - lia.
  - replace (m - 1 + 1) with m by lia. unfold msPerDay in *. lia.
  - split; [lia|exact Hy].
Qed.

Lemma year_range_sound (y lo hi d : Z) :
  newDateYMD (ofZ y) (ofZ 0) (ofZ 1) = Some lo ->
  newDateYMD (ofZ y) (ofZ 11) (ofZ 31) = Some hi ->
  lo <= d <= hi ->
  getFullYear d = (if (0 <=? y) && (y <=? 99) then 1900 + y else y).
Proof.
  intros Hlo Hhi Hd.
  apply (newDateYMD_value y 0 1 lo _ (ToInteger_ofZ 0)) in Hlo.
  apply (newDateYMD_value y 11 31 hi _ (ToInteger_ofZ 11)) in Hhi.
  set (yr := if (0 <=? y) && (y <=? 99) then 1900 + y else y) in *.
  unfold getFullYear. apply YearFromDay_unique.
  rewrite (MakeDay_within yr 0 1) in Hlo by lia.
  rewrite (MakeDay_within yr 11 31) in Hhi by lia.
  pose proof (DayFromYear_next yr) as Hnext.
  assert (DayFromYear yr <= Day (LocalTime d) < DayFromYear yr + 365
          + (if InLeapYear yr then 1 else 0)); [|lia].
  apply Day_between; unfold LocalTime, msPerDay in *;
    destruct (InLeapYear yr); simpl in *; lia.
Qed.

Lemma castRange_some (a b : option Z) (r : option (Z * Z)) :
  castRange (Some (a, b)) = Some r ->
  exists lo hi, a = Some lo /\ b = Some hi /\ r = Some (lo, hi).
Proof.
  destruct a as [lo|], b as [hi|]; simpl; try discriminate.
  intros [= <-]. now exists lo, hi.
Qed.

Lemma page_in_range (caller : ObjectId) (query : gmap string string)
    (st : Store) (ts : list Transaction) (pg : Pagination) :
  data (getTransactions caller query st) = Page ts pg ->
  exists r, castRange (f_date (listFilter caller query)) = Some r
            /\ forall t, In t ts -> inRange r (date t) = true.
Proof.
  intros Hdata.
  destruct (getTransactions_inv _ _ _ _ _ Hdata)
    as (found & p & l & _ & _ & Hf & Hw & _).
  destruct (find_sound _ _ _ Hf) as (r & Hr & Hfound).
  exists r. split; [exact Hr|].
  intros t Ht. apply (window_In _ _ _ _ Hw) in Ht.
  apply (Permutation_in _ (sortDesc_perm found)) in Ht.
  rewrite Hfound in Ht. apply List.filter_In in Ht.
  destruct Ht as [_ Hm]. unfold matches in Hm.
  rewrite !andb_true_iff in Hm. tauto.
Qed.

Lemma inScope_in_range (caller : ObjectId) (r : option (Z * Z)) (st : Store)
    (t : Transaction) :
  In t (inScope caller r st) -> inRange r (date t) = true.
Proof.
  unfold inScope. intros H. apply List.filter_In in H.
  destruct H as [_ H]. apply andb_true_iff in H. tauto.
Qed.

Lemma inRange_bounds (lo hi d : Z) :
  inRange (Some (lo, hi)) d = true -> lo <= d <= hi.
Proof. simpl. rewrite andb_true_iff, !Z.leb_le. tauto. Qed.

(** X13. A list request by month and year returns, and a statistics request
    by month and year counts, only documents that getMonthYear places in
    that month of that year - where a year from 0 to 99 stands for the year
    1900 later, as the Date constructor reads it.  (Month [m] is an integer
    from 1 to 12.) *)
Theorem month_filter_sound (caller : ObjectId) (query : gmap string string)
    (st : Store) (y m : Z) :
  truthy (param query "month") && truthy (param query "year") = true ->
  ToNumber (param query "year") = ofZ y ->
  ToNumber (param query "month") = ofZ m ->
  1 <= m <= 12 ->
  let yr := if (0 <=? y) && (y <=? 99) then 1900 + y else y in
  (truthy (param query "startDate") && truthy (param query "endDate") = false ->
   forall ts pg t,
     data (getTransactions caller query st) = Page ts pg -> In t ts ->
     month (getMonthYear t) = m /\ year (getMonthYear t) = yr)
  /\ (forall r t,
       castRange (statisticsDateFilter query) = Some r ->
       In t (inScope caller r st) ->
       month (getMonthYear t) = m /\ year (getMonthYear t) = yr).
Proof.
  intros Hmy Hy Hmo Hm yr. split.
  - intros Hse ts pg t Hdata Ht.
    destruct (page_in_range _ _ _ _ _ Hdata) as (r & Hr & Hin).
    rewrite listFilter_date in Hr. cbv zeta in Hr.
    rewrite Hse, Hmy, Hy, Hmo in Hr.
    destruct (castRange_some _ _ _ Hr) as (lo & hi & Hlo & Hhi & ->).
    specialize (Hin t Ht). apply inRange_bounds in Hin.
    exact (month_range_sound y m lo hi (date t) Hm Hlo Hhi Hin).
  - intros r t Hr Ht. unfold statisticsDateFilter in Hr.
    rewrite Hmy, Hy, Hmo in Hr.
    destruct (castRange_some _ _ _ Hr) as (lo & hi & Hlo & Hhi & ->).
    apply inScope_in_range, inRange_bounds in Ht.
    exact (month_range_sound y m lo hi (date t) Hm Hlo Hhi Ht).
Qed.

(** X14. A list request by year alone returns, and a statistics request by
    year alone counts, only documents that getMonthYear places in that
    year, a year from 0 to 99 standing for the year 1900 later. *)
Theorem year_filter_sound (caller : ObjectId) (query : gmap string string)
    (st : Store) (y : Z) :
  truthy (param query "month") = false ->
  truthy (param query "year") = true ->
  ToNumber (param query "year") = ofZ y ->
  let yr := if (0 <=? y) && (y <=? 99) then 1900 + y else y in
  (truthy (param query "startDate") && truthy (param query "endDate") = false ->
   forall ts pg t,
     data (getTransactions caller query st) = Page ts pg -> In t ts ->
     year (getMonthYear t) = yr)
  /\ (forall r t,
       castRange (statisticsDateFilter query) = Some r ->
       In t (inScope caller r st) ->
       year (getMonthYear t) = yr).
Proof.
  intros Hmo Hyt Hy yr. split.
  - intros Hse ts pg t Hdata Ht.
    destruct (page_in_range _ _ _ _ _ Hdata) as (r & Hr & Hin).
    rewrite listFilter_date in Hr. cbv zeta in Hr.
    rewrite Hse, Hmo, Hyt, Hy in Hr. cbn [andb] in Hr.
    destruct (castRange_some _ _ _ Hr) as (lo & hi & Hlo & Hhi & ->).
    specialize (Hin t Ht). apply inRange_bounds in Hin.
    exact (year_range_sound y lo hi (date t) Hlo Hhi Hin).
  - intros r t Hr Ht. unfold statisticsDateFilter in Hr.
    rewrite Hmo, Hyt, Hy in Hr. cbn [andb] in Hr.
    destruct (castRange_some _ _ _ Hr) as (lo & hi & Hlo & Hhi & ->).
    apply inScope_in_range, inRange_bounds in Ht.
    exact (year_range_sound y lo hi (date t) Hlo Hhi Ht).
Qed.

(** X15. getMonthYear reads back what the Date constructor was given: a
    document dated at any time of the local day [new Date(y, m - 1, dd)],
    for a month from 1 to 12 and a day from 1 to 28, reports month [m], the
    year (1900 later for a year from 0 to 99), and the label made of the
    year, a dash and the month padded to two characters.  For every
    document the month reported lies between 1 and 12. *)
Theorem getMonthYear_reads_back (this : Transaction) (y m dd t0 : Z) :
  1 <= m <= 12 -> 1 <= dd <= 28 ->
  newDateYMD (ofZ y) (ofZ (m - 1)) (ofZ dd) = Some t0 ->
  t0 <= date this < t0 + msPerDay ->
  let yr := if (0 <=? y) && (y <=? 99) then 1900 + y else y in
  getMonthYear this
  = {| month := m; year := yr;
       monthYear := NumberToString (ofZ yr) +:+ "-"
                    +:+ padStart 2 "0" (NumberToString (ofZ m)) |}
  /\ (forall other, 1 <= month (getMonthYear other) <= 12).
Proof.
  intros Hm Hdd Ht0 Hd yr. split.
  - apply (newDateYMD_value y (m - 1) dd t0 _ (ToInteger_ofZ (m - 1))) in Ht0.
    fold yr in Ht0. rewrite (MakeDay_date yr (m - 1) dd) in Ht0.
    pose proof (month_has_28_days yr (m - 1) ltac:(lia)) as H28.
    destruct (time_in_month yr (m - 1) (date this)) as [Hy Hmo].
    + lia.
    + unfold msPerDay in *. lia.
    + unfold msPerDay in *. lia.
    + unfold getMonthYear. cbv zeta. rewrite Hy, Hmo.
      replace (m - 1 + 1) with m by lia. reflexivity.
  - intros other. unfold getMonthYear, getMonth. cbn [month].
    pose proof (MonthFromDay_bounds (Day (LocalTime (date other)))). lia.
Qed.

(** ** Statistics and lists *)

Lemma matches_ofType (caller : ObjectId) (k : string) (r : option (Z * Z))
    (st : Store) :
  List.filter (matches caller (Some k) None r) st
  = ofType k (inScope caller r st).
Proof.
  unfold ofType, inScope. induction st as [|t st IH]; simpl; [reflexivity|].
  unfold matches at 1. simpl.
  destruct (N.eqb (userId t) caller); simpl.
  - destruct (inRange r (date t)); simpl.
    + destruct (String.eqb (type t) k); simpl; now rewrite IH.
    + rewrite andb_false_r. exact IH.
  - exact IH.
Qed.

Lemma getStatistics_inv (caller : ObjectId) (query : gmap string string)
    (st : Store) (s : Statistics) :
  data (getStatistics caller query st) = Stats s ->
  s = formatStatistics
        (groupByType (inScope caller (statisticsRange query) st)).
Proof.
  unfold getStatistics, aggregate. cbv zeta. rewrite matches_inScope.
  simpl. now intros [= <-].
Qed.

(** X12. The statistics agree with the list.  For a query with no explicit
    date range and no category, the total that a list request by type
    income (or expense) reports is the income (or expense) count of the
    statistics request with the same query. *)
Theorem statistics_agree_with_list (caller : ObjectId)
    (query : gmap string string) (st : Store) (k : string)
    (ts : list Transaction) (pg : Pagination) (s : Statistics) :
  truthy (param query "startDate") && truthy (param query "endDate") = false ->
  truthy (param query "category") = false ->
  query !! "type" = Some k -> k = "income" \/ k = "expense" ->
  data (getTransactions caller query st) = Page ts pg ->
  data (getStatistics caller query st) = Stats s ->
  totalTransactions pg
  = (if String.eqb k "income" then incomeCount s else expenseCount s).
Proof.
  intros Hse Hcat Hty Hk Hlist Hstats.
  destruct (getTransactions_inv _ _ _ _ _ Hlist)
    as (found & p & l & _ & _ & Hf & Hw & ->).
  destruct (find_sound _ _ _ Hf) as (r & Hr & Hfound).
  rewrite (getStatistics_inv _ _ _ _ Hstats).
  rewrite listFilter_userId, listFilter_type, listFilter_category in Hfound.
  rewrite Hcat in Hfound.
  assert (truthy (param query "type") && isIncomeOrExpense (param query "type")
          = true) as Hguard.
  { unfold param. rewrite Hty. destruct Hk as [-> | ->]; reflexivity. }
  rewrite Hguard, Hty, matches_ofType in Hfound.
  rewrite listFilter_date in Hr. cbv zeta in Hr. rewrite Hse in Hr.
  change (castRange (statisticsDateFilter query) = Some r) in Hr.
  unfold statisticsRange. rewrite (pipelineRange_cast _ _ Hr).
  destruct (statistics_of_scope (inScope caller r st))
    as (_ & _ & Hci & _ & Hce).
  cbn [totalTransactions]. rewrite Hfound.
  destruct Hk as [-> | ->]; simpl String.eqb; cbv iota; congruence.
Qed.

(** ** A create seen by the list *)




End Further.
(** ** The further properties on the worked data *)

Module FurtherExamples.

Import Reference Fixtures.

#[local] Existing Instance node.

(** A type that is neither income nor expense is passed over. *)
Lemma list_ignores_parameters_witness :
  getTransactions alice {[ "type" := "transfer" ]} store
  = getTransactions alice (delete "type" {[ "type" := "transfer" ]}) store.
Proof.
  apply (proj1 (list_ignores_parameters alice {[ "type" := "transfer" ]} store)
           "transfer"); [reflexivity | discriminate | discriminate].
Defined.


(** The expenses of Alice: her lunch and nothing of Bob. *)
Lemma list_page_sound_witness :
  In aliceLunch (pageOf (getTransactions alice {[ "type" := "expense" ]} store))
  /\ In aliceLunch store /\ userId aliceLunch = alice
  /\ type aliceLunch = "expense".
Proof.
  assert (In aliceLunch
            (pageOf (getTransactions alice {[ "type" := "expense" ]} store)))
    as Ht by (vm_compute; auto).
  split; [exact Ht|].
  destruct (list_page_sound alice {[ "type" := "expense" ]} store [aliceLunch]
              {| currentPage := 1; totalPages := ofZ 1;
                 totalTransactions := 1; limit := 10 |})
    as [H _]; [vm_compute; reflexivity|].
  destruct (H aliceLunch Ht) as (Hin & Hu & Hty & _).
  split; [exact Hin|]. split; [exact Hu|].
  apply Hty; [reflexivity|now right].
Defined.

(** Page 4 of 25 documents by ten is past the end: it is empty. *)
Lemma page_length_witness :
  status (getTransactions alice {[ "page" := "4"; "limit" := "10" ]} twentyFive)
  = 200%nat
  /\ pageOf (getTransactions alice {[ "page" := "4"; "limit" := "10" ]} twentyFive)
     = [].
Proof.
  pose proof (page_length alice {[ "page" := "4"; "limit" := "10" ]} twentyFive
                (map daily (seq 0 25)) 4 10 eq_refl eq_refl
                ltac:(lia) ltac:(lia) ltac:(vm_compute; reflexivity)) as H.
  cbv zeta in H. destruct H as (Hs & _ & _ & He).
  split; [exact Hs|]. apply He. vm_compute. discriminate.
Defined.

(** Pages 1, 2 and 3 by ten are the 25 documents of Alice, newest first. *)
Lemma pages_tile_witness :
  concat (map (fun s => pageOf (getTransactions alice
                                  (<["page" := s]> {[ "limit" := "10" ]})
                                  twentyFive)) [ "1"; "2"; "3" ])
  = sortDesc (map daily (seq 0 25)).
Proof.
  assert (List.NoDup (map sortKey (map daily (seq 0 25)))) as Hkeys.
  { vm_compute.
    repeat (constructor;
            [intros H; repeat (destruct H as [H|H]; [discriminate|]); exact H|]).
    constructor. }
  pose proof (pages_tile alice {[ "limit" := "10" ]} twentyFive
                (map daily (seq 0 25)) 10 [ "1"; "2"; "3" ] 3 eq_refl
                ltac:(lia) ltac:(vm_compute; reflexivity) Hkeys) as H.
  cbv zeta in H. destruct H as (_ & _ & _ & H).
  - repeat constructor.
  - apply H. vm_compute. discriminate.
Defined.

(** A type that is not known is reported before the amount is looked at. *)
Lemma create_check_order_witness :
  createTransaction noon31Jan 100%N alice
    (<["type" := JStr "transfer"]> (lunch (JNum (Fin (-1))))) store
  = (fail 400 typeMessage, store).
Proof.
  pose proof (create_check_order noon31Jan 100%N alice
                (<["type" := JStr "transfer"]> (lunch (JNum (Fin (-1))))) store)
    as H.
  cbv zeta in H. destruct H as (_ & H & _).
  apply H; reflexivity.
Defined.

Lemma lunch_accepted :
  accepted (lunch (JNum (Fin 12.5%Q))) "  Lunch " "Food & Dining" "expense"
    12.5%Q None.
Proof.
  unfold accepted.
  split; [reflexivity|]. split; [discriminate|].
  split; [vm_compute; discriminate|].
  split; [vm_compute; lia|].
  split; [reflexivity|]. split; [reflexivity|].
  split; [vm_compute; tauto|].
  split; [reflexivity|]. split; [now right|].
  split; [reflexivity|]. split; [reflexivity|].
  split; [reflexivity|]. split; [vm_compute; discriminate|].
  reflexivity.
Defined.

(** Alice's lunch is stored trimmed, under the generated identifier. *)
Lemma create_succeeds_exactly_witness :
  createTransaction noon31Jan 100%N alice (lunch (JNum (Fin 12.5%Q))) store
  = (created {| _id := 100%N; userId := alice; date := noon31Jan;
                description := "Lunch"; category := "Food & Dining";
                type := "expense"; amount := 12.5%Q; createdAt := noon31Jan |},
     store ++ [ {| _id := 100%N; userId := alice; date := noon31Jan;
                   description := "Lunch"; category := "Food & Dining";
                   type := "expense"; amount := 12.5%Q;
                   createdAt := noon31Jan |} ]).
Proof.
  exact (proj1 (create_succeeds_exactly noon31Jan 100%N alice
                  (lunch (JNum (Fin 12.5%Q))) store)
           "  Lunch " "Food & Dining" "expense" 12.5%Q None lunch_accepted).
Defined.

(** Identifier 100 is 64 in hexadecimal. *)
Lemma create_then_delete_witness :
  deleteTransaction alice "000000000000000000000064"
    (snd (createTransaction noon31Jan 100%N alice
            (lunch (JNum (Fin 12.5%Q))) store))
  = (deleted, store).
Proof.
  apply create_then_delete.
  - vm_compute. reflexivity.
  - simpl. intros [H|[H|[H|[]]]]; discriminate.
  - reflexivity.
  - vm_compute. reflexivity.
Defined.

(** Alice deletes her lunch, identifier 11 (hexadecimal b). *)
Lemma delete_removes_one_witness :
  exists before after,
    store = before ++ aliceLunch :: after
    /\ deleteTransaction alice "00000000000000000000000b" store
       = (deleted, before ++ after)
    /\ deleteTransaction alice "00000000000000000000000b" (before ++ after)
       = (fail 404 "Transaction not found", before ++ after).
Proof.
  destruct (delete_removes_one alice "00000000000000000000000b" store
              aliceLunch ∅)
    as (before & after & H1 & H2 & _ & H4 & _);
    [exact Examples.store_ids_unique | reflexivity | vm_compute; reflexivity |].
  exists before, after. auto.
Defined.

Lemma store_schemaValid : Forall schemaValid store.
Proof. repeat (constructor; [vm_compute; reflexivity|]). constructor. Defined.

Lemma schema_invariant_witness :
  Forall schemaValid (snd (handle env alice createAsBob store)).
Proof. exact (proj1 (schema_invariant env alice createAsBob store store_schemaValid)). Defined.

(** Alice changes the amount of her lunch. *)
Lemma update_keeps_identity_witness :
  map (fun t => (_id t, userId t, createdAt t))
    (snd (updateTransaction alice "00000000000000000000000b"
            {[ "amount" := JNum (Fin 20%Q) ]} store))
  = map (fun t => (_id t, userId t, createdAt t)) store.
Proof.
  pose proof (update_keeps_identity alice "00000000000000000000000b"
                {[ "amount" := JNum (Fin 20%Q) ]} store
                Examples.store_ids_unique) as H.
  cbv zeta in H. exact (proj1 H).
Defined.

(** Alice has one expense: the list by type and the statistics agree. *)
Lemma statistics_agree_with_list_witness :
  exists pg s,
    data (getTransactions alice {[ "type" := "expense" ]} store)
    = Page [aliceLunch] pg
    /\ data (getStatistics alice {[ "type" := "expense" ]} store) = Stats s
    /\ totalTransactions pg = expenseCount s.
Proof.
  eexists. eexists.
  split; [vm_compute; reflexivity|]. split; [vm_compute; reflexivity|].
  exact (statistics_agree_with_list alice {[ "type" := "expense" ]}
           store "expense" [aliceLunch] _ _ eq_refl eq_refl eq_refl
           (or_intror eq_refl) eq_refl eq_refl).
Defined.

(** The first page for January 2024 holds the document of 25 January. *)
Lemma month_filter_sound_witness :
  In (daily 24)
     (pageOf (getTransactions alice {[ "month" := "1"; "year" := "2024" ]}
                twentyFive))
  /\ month (getMonthYear (daily 24)) = 1
  /\ year (getMonthYear (daily 24)) = 2024.
Proof.
  split; [vm_compute; auto|].
  pose proof (month_filter_sound alice {[ "month" := "1"; "year" := "2024" ]}
                twentyFive 2024 1 eq_refl eq_refl eq_refl ltac:(lia)) as H.
  cbv zeta in H. destruct H as [H _].
  apply (H eq_refl
           (pageOf (getTransactions alice {[ "month" := "1"; "year" := "2024" ]}
                      twentyFive))
           {| currentPage := 1; totalPages := ofZ 3;
              totalTransactions := 25; limit := 10 |}).
  - vm_compute. reflexivity.
  - vm_compute. auto.
Defined.

Lemma year_filter_sound_witness :
  In (daily 24)
     (pageOf (getTransactions alice {[ "year" := "2024" ]} twentyFive))
  /\ year (getMonthYear (daily 24)) = 2024.
Proof.
  split; [vm_compute; auto|].
  pose proof (year_filter_sound alice {[ "year" := "2024" ]}
                twentyFive 2024 eq_refl eq_refl eq_refl) as H.
  cbv zeta in H. destruct H as [H _].
  apply (H eq_refl
           (pageOf (getTransactions alice {[ "year" := "2024" ]} twentyFive))
           {| currentPage := 1; totalPages := ofZ 3;
              totalTransactions := 25; limit := 10 |}).
  - vm_compute. reflexivity.
  - vm_compute. auto.
Defined.

(** The document of 5 January 2024. *)
Lemma getMonthYear_reads_back_witness :
  getMonthYear (daily 4)
  = {| month := 1; year := 2024; monthYear := "2024-01" |}.
Proof.
  assert (newDateYMD (ofZ 2024) (ofZ (1 - 1)) (ofZ 5) = Some 1704412800000)
    as Ht0 by (vm_compute; reflexivity).
  assert (1704412800000 <= date (daily 4) < 1704412800000 + msPerDay)
    as Hd by (vm_compute; split; [discriminate|reflexivity]).
  pose proof (getMonthYear_reads_back (daily 4) 2024 1 5 1704412800000
                ltac:(lia) ltac:(lia) Ht0 Hd) as H.
  cbv zeta in H. destruct H as [H _].
  rewrite H. vm_compute. reflexivity.
Defined.

End FurtherExamples.
